(** * Video annotation tool: object catalog, region capture and VTT lookup

    A shallow embedding of the client hook [useVideoUpload], of the drawing,
    export, deletion and edit handlers of the [VideoPlayer] component, of the
    pager of [UploadProgress] and of the server routes for uploads and cue
    files, with the properties the specification states about them.

    Modelling conventions.
    - A React state variable is a field of a state record; an event handler
      is a function from the state of the render it closes over to the next
      state, and every event is taken to be followed by a render before the
      next one is handled.  Functional updaters ([setVideos (prev => ...)])
      are functions on the piece of state they update, applied in the order
      they are queued.  What a callback of the hook reads from the render
      that made it, and not from the current one, is an argument of its
      own: the video list read by [addNewObjectToVideo] and
      [handleVideoSelect], the [isDetecting] flag read by
      [runObjectDetection].  A caller can hold such a callback for longer
      than a render, as the timer of the player does.
    - An updater of the hook builds a new object for the video it
      addresses, and the player has an effect on [isOpen] and [video].  The
      calls that a handler of the player makes to the hook are counted, and
      the effect runs in the render that follows a handler which made
      one.
    - [Date.now ()] and [Math.random ()] are inputs of the handler that
      reads them (record [Entropy]).
    - Integer-valued JS numbers (counters, lengths, sizes of the pixel
      buffer, time stamps) are [Z]; on them JS arithmetic is exact.  Numbers
      that can have a fractional part (pointer positions, the edges of a
      bounding rectangle and the points computed from them, confidence,
      progress) are [Q], with exact arithmetic: the rounding of the double
      arithmetic of JS is not modelled.
    - Strings are sequences of 8-bit characters; [toUpperCase] and [slice]
      are those of JS on ASCII strings. *)

From Stdlib Require Import ZArith List String Ascii Bool Lia QArith Qminmax.
From Stdlib Require Import Qabs DecimalString DecimalZ Reals Qreals Lqa.
Import ListNotations.

Open Scope string_scope.
Open Scope Z_scope.

(** ** JavaScript primitives used by the sources *)

Module Js.

(** [String (n)] for an integer [n]. *)
Definition decimal (n : Z) : string := NilZero.string_of_int (Z.to_int n).

(** A string is truthy when it is not empty. *)
Definition truthy (s : string) : bool :=
  match s with EmptyString => false | String _ _ => true end.

(** [a || b] on an optional string ([undefined] is [None]). *)
Definition or_else (a : option string) (b : string) : string :=
  match a with
  | Some s => if truthy s then s else b
  | None => b
  end.

(** [s.slice (0, n)] for an ASCII string [s], where the characters are the
    UTF-16 units that JS counts. *)
Definition slice0 (n : nat) (s : string) : string := substring 0 n s.

Definition upper_char (c : ascii) : ascii :=
  let n := nat_of_ascii c in
  if (97 <=? n)%nat && (n <=? 122)%nat then ascii_of_nat (n - 32) else c.

(** [s.toUpperCase ()] for an ASCII string [s]: the letters [a] to [z] are
    the only characters that JS changes there.  The ids that the hook passes
    are made of a video id, decimal digits and a base-36 suffix. *)
Fixpoint toUpperCase (s : string) : string :=
  match s with
  | EmptyString => EmptyString
  | String c r => String (upper_char c) (toUpperCase r)
  end.

(** [xs.join (sep)]. *)
Fixpoint join (sep : string) (xs : list string) : string :=
  match xs with
  | [] => ""
  | [x] => x
  | x :: r => x ++ sep ++ join sep r
  end.

(** [a > b] and [a < b] on numbers. *)
Definition gt (a b : Q) : bool := negb (Qle_bool a b).

Definition lt (a b : Q) : bool := negb (Qle_bool b a).

(** [Math.sqrt (s) > t] for [s >= 0] and [t >= 0]: the real square root
    exceeds [t] exactly when [s] exceeds [t * t]. *)
Definition sqrt_gt (s t : Q) : bool := gt s (t * t)%Q.

(** [xs.map ((x, index) => f (x, index))], indices counted from [i]. *)
Fixpoint mapi_from {A B : Type} (i : nat) (f : A -> nat -> B) (xs : list A)
  : list B :=
  match xs with
  | [] => []
  | x :: r => f x i :: mapi_from (S i) f r
  end.

Definition mapi {A B : Type} (f : A -> nat -> B) (xs : list A) : list B :=
  mapi_from 0 f xs.

(** [xs.slice (start, stop)], negative indices counting from the end. *)
Definition slice {A : Type} (start stop : Z) (xs : list A) : list A :=
  let len := Z.of_nat (List.length xs) in
  let relative i := if i <? 0 then Z.max (len + i) 0 else Z.min i len in
  let k := relative start in
  let final := relative stop in
  firstn (Z.to_nat (final - k)) (skipn (Z.to_nat k) xs).

(** [s.padStart (2, "0")]. *)
Definition padStart2 (s : string) : string :=
  match String.length s with
  | O => "00"
  | S O => "0" ++ s
  | _ => s
  end.

End Js.

(** What a handler reads from the clock and the random generator. *)
Record Entropy := mkEntropy {
  now : Z;               (* Date.now () *)
  suffix : string;       (* Math.random ().toString (36).substr (2, 9) *)
  rnd : Q                (* Math.random () *)
}.

(** ** shared/types.ts *)

Record DetectedObject := mkObject {
  id : string;
  name : string;
  confidence : Q;
  selected : bool;
  code : option string;
  additionalInfo : option string;
  dlReservoirDomain : option string;
  category : option string
}.

(** The [name], [type] and [size] of a [File]. *)
Record File := mkFile {
  file_name : string;
  file_type : string;
  file_size : Z
}.

(** [vid] is the [id] of the video. *)
Record VideoInfo := mkVideo {
  vid : string;
  file : File;
  duration : Z;
  currentTime : Z;
  detectedObjects : list DetectedObject;
  totalObjectsCreated : Z;
  uploadDate : Z
}.

Inductive UploadStatus := uploading | processing | completed | error.

Record UploadItem := mkUpload {
  upload_id : string;
  filename : string;
  size : Z;
  progress : Q;
  status : UploadStatus;
  uploadSpeed : option Q;
  timeRemaining : option Q;
  upload_uploadDate : option Z
}.

Inductive Toast :=
| toast_success (message : string)
| toast_error (message : string).

(** [videos.find (v => v.id === videoId)]. *)
Definition find_video (videoId : string) (videos : list VideoInfo)
  : option VideoInfo :=
  find (fun v => String.eqb (vid v) videoId) videos.

(** The default name pattern [`Object(${n})`]. *)
Definition object_name (n : Z) : string := "Object(" ++ Js.decimal n ++ ")".

(** ** hooks/useVideoUpload *)

Module Hook.

(** An [Omit<DetectedObject, "id">] is a detected object still waiting for
    its id. *)
Definition ObjectTemplate := string -> DetectedObject.

Definition default_object (nm : string) (conf : Q) (cd : string)
  : ObjectTemplate :=
  fun i =>
    {| id := i; name := nm; confidence := conf; selected := false;
       code := Some cd;
       additionalInfo := Some "AI가 자동으로 탐지한 객체입니다.";
       dlReservoirDomain := Some "http://www.naver.com";
       category := Some "기타" |}.

Definition DEFAULT_OBJECTS : list ObjectTemplate :=
  [ default_object "Object(1)" (95 # 100) "CODE_OBJ001";
    default_object "Object(2)" (87 # 100) "CODE_OBJ002";
    default_object "Object(3)" (92 # 100) "CODE_OBJ003";
    default_object "Object(4)" (78 # 100) "CODE_OBJ004";
    default_object "Object(5)" (84 # 100) "CODE_OBJ005" ].

(** The state variables of the hook, the detection timers that are running
    ([setInterval] handles, each known by the video it was started for) and
    the number of time-outs that wait to put the progress bar back to 0. *)
Record State := mkState {
  videos : list VideoInfo;
  uploads : list UploadItem;
  selectedVideoId : option string;
  showVideoPlayer : bool;
  adminPanelVisible : bool;
  isDetecting : bool;
  detectionProgress : Q;
  hasRunDetection : bool;
  intervals : list string;
  resets : nat
}.

Definition initial : State :=
  {| videos := []; uploads := []; selectedVideoId := None;
     showVideoPlayer := false; adminPanelVisible := false;
     isDetecting := false; detectionProgress := 0%Q;
     hasRunDetection := false; intervals := []; resets := 0 |}.

Definition set_videos (f : list VideoInfo -> list VideoInfo) (s : State)
  : State :=
  {| videos := f (videos s); uploads := uploads s;
     selectedVideoId := selectedVideoId s;
     showVideoPlayer := showVideoPlayer s;
     adminPanelVisible := adminPanelVisible s;
     isDetecting := isDetecting s;
     detectionProgress := detectionProgress s;
     hasRunDetection := hasRunDetection s; intervals := intervals s;
     resets := resets s |}.

Definition set_uploads (f : list UploadItem -> list UploadItem) (s : State)
  : State :=
  {| videos := videos s; uploads := f (uploads s);
     selectedVideoId := selectedVideoId s;
     showVideoPlayer := showVideoPlayer s;
     adminPanelVisible := adminPanelVisible s;
     isDetecting := isDetecting s;
     detectionProgress := detectionProgress s;
     hasRunDetection := hasRunDetection s; intervals := intervals s;
     resets := resets s |}.

Definition set_detectionProgress (p : Q) (s : State) : State :=
  {| videos := videos s; uploads := uploads s;
     selectedVideoId := selectedVideoId s;
     showVideoPlayer := showVideoPlayer s;
     adminPanelVisible := adminPanelVisible s;
     isDetecting := isDetecting s;
     detectionProgress := p;
     hasRunDetection := hasRunDetection s; intervals := intervals s;
     resets := resets s |}.

Definition set_showVideoPlayer (b : bool) (s : State) : State :=
  {| videos := videos s; uploads := uploads s;
     selectedVideoId := selectedVideoId s;
     showVideoPlayer := b;
     adminPanelVisible := adminPanelVisible s;
     isDetecting := isDetecting s;
     detectionProgress := detectionProgress s;
     hasRunDetection := hasRunDetection s; intervals := intervals s;
     resets := resets s |}.

Definition with_objects (objs : list DetectedObject) (video : VideoInfo)
  : VideoInfo :=
  {| vid := vid video; file := file video; duration := duration video;
     currentTime := currentTime video; detectedObjects := objs;
     totalObjectsCreated := totalObjectsCreated video;
     uploadDate := uploadDate video |}.

Definition with_counter (n : Z) (video : VideoInfo) : VideoInfo :=
  {| vid := vid video; file := file video; duration := duration video;
     currentTime := currentTime video;
     detectedObjects := detectedObjects video;
     totalObjectsCreated := n; uploadDate := uploadDate video |}.

Definition with_name (nm : string) (obj : DetectedObject) : DetectedObject :=
  {| id := id obj; name := nm; confidence := confidence obj;
     selected := selected obj; code := code obj;
     additionalInfo := additionalInfo obj;
     dlReservoirDomain := dlReservoirDomain obj;
     category := category obj |}.

Definition selectedVideo (s : State) : option VideoInfo :=
  match selectedVideoId s with
  | Some i => find_video i (videos s)
  | None => None
  end.

Definition selectedVideoObjects (s : State) : list DetectedObject :=
  match selectedVideo s with
  | Some v => detectedObjects v
  | None => []
  end.

(** *** Upload *)

Definition new_video (i : string) (f : File) (date : Z) : VideoInfo :=
  {| vid := i; file := f; duration := 0; currentTime := 0;
     detectedObjects := []; totalObjectsCreated := 0; uploadDate := date |}.

(** What [fetch] and [response.json ()] gave: an exception, or a response
    with its [ok] flag and the [id] field of its body. *)
Inductive FetchResult :=
| fetch_throws (message : string)
| fetch_response (ok : bool) (result_id : option string).

Definition MAX_FILE_SIZE : Z := 2 * 1024 * 1024 * 1024.

Definition handleFileSelect (f : File) (res : FetchResult) (e : Entropy)
  (s : State) : State * Toast :=
  if negb (prefix "video/" (file_type f)) then
    (s, toast_error "동영상 파일만 업로드 가능합니다.")
  else if MAX_FILE_SIZE <? file_size f then
    (s, toast_error "파일 크기는 2GB를 초과할 수 없습니다.")
  else
    match res with
    | fetch_throws m => (s, toast_error ("업로드 중 에러 발생: " ++ m))
    | fetch_response false _ =>
        (s, toast_error ("업로드 중 에러 발생: " ++ "업로드 실패!"))
    | fetch_response true rid =>
        (set_videos
           (fun _ =>
              [ new_video (Js.or_else rid ("video-" ++ Js.decimal (now e)))
                  f (now e) ]) s,
         toast_success "동영상 업로드 및 처리가 완료되었습니다!")
    end.

Definition upload_id_of (e : Entropy) : string :=
  "video-" ++ Js.decimal (now e) ++ "-" ++ suffix e.

(** [simulateUpload]: the synchronous part, which keeps the new upload only
    and resets the video list. *)
Definition simulateUpload (f : File) (e : Entropy) (s : State) : State :=
  let fileSizeInMB := (inject_Z (file_size f) / inject_Z (1024 * 1024))%Q in
  let baseUploadTime :=
    Qmax 3 (fileSizeInMB * ((5 # 10) + rnd e * (15 # 10)))%Q in
  let newUpload :=
    {| upload_id := upload_id_of e; filename := file_name f;
       size := file_size f; progress := 0%Q; status := uploading;
       uploadSpeed := Some 0%Q; timeRemaining := Some baseUploadTime;
       upload_uploadDate := Some (now e) |} in
  {| videos := []; uploads := [newUpload]; selectedVideoId := None;
     showVideoPlayer := showVideoPlayer s;
     adminPanelVisible := false; isDetecting := isDetecting s;
     detectionProgress := detectionProgress s;
     hasRunDetection := hasRunDetection s; intervals := intervals s;
     resets := resets s |}.

Definition with_status (st : UploadStatus) (u : UploadItem) : UploadItem :=
  {| upload_id := upload_id u; filename := filename u; size := size u;
     progress := progress u; status := st; uploadSpeed := uploadSpeed u;
     timeRemaining := timeRemaining u;
     upload_uploadDate := upload_uploadDate u |}.

(** [simulateUpload]: the time-out that ends the processing stage and adds
    the video. *)
Definition simulateUpload_completed (uploadId : string) (f : File) (date : Z)
  (s : State) : State :=
  set_videos (fun _ => [ new_video uploadId f date ])
    (set_uploads
       (map (fun upload =>
               if String.eqb (upload_id upload) uploadId
               then with_status completed upload else upload)) s).

(** *** Detection *)

Definition detected_id (videoId : string) (index : nat) (e : Entropy)
  : string :=
  videoId ++ "-obj-" ++ Js.decimal (Z.of_nat index) ++ "-"
    ++ Js.decimal (now e) ++ "-" ++ suffix e.

(** The updater that the last progress tick of a detection run passes to
    [setVideos]. *)
Definition detection_update (videoId : string) (ent : nat -> Entropy)
  (prev : list VideoInfo) : list VideoInfo :=
  map (fun video =>
         if negb (String.eqb (vid video) videoId) then video
         else if (0 <? List.length (detectedObjects video))%nat then video
         else
           with_counter
             (Z.max (totalObjectsCreated video)
                (Z.of_nat (List.length DEFAULT_OBJECTS)))
             (with_objects
                (Js.mapi
                   (fun obj index =>
                      with_name (object_name (Z.of_nat index + 1))
                        (obj (detected_id videoId index (ent index))))
                   DEFAULT_OBJECTS)
                video))
      prev.

(** [runObjectDetection (videoId)]: the call itself, which starts the
    progress timer unless it finds a run in progress.  The callback is
    memoised on [isDetecting]: the flag it tests is [captured], the one of
    the render that made the callback, which is the current [isDetecting]
    for a caller that uses the callback of the current render. *)
Definition runObjectDetection (captured : bool) (videoId : string)
  (s : State) : State :=
  if negb (Js.truthy videoId) || captured then s
  else
    {| videos := videos s; uploads := uploads s;
       selectedVideoId := selectedVideoId s;
       showVideoPlayer := showVideoPlayer s;
       adminPanelVisible := adminPanelVisible s;
       isDetecting := true; detectionProgress := 0%Q;
       hasRunDetection := hasRunDetection s;
       intervals := intervals s ++ [videoId];
       resets := resets s |}.

Fixpoint clearInterval (videoId : string) (l : list string) : list string :=
  match l with
  | [] => []
  | x :: r => if String.eqb x videoId then r else x :: clearInterval videoId r
  end.

(** One firing of the progress timer of the run started for [videoId];
    [rnd e] is the random draw of the tick.  A timer that is not running
    does not fire.  The tick that ends the run leaves a time-out behind,
    which resets the progress bar a second later. *)
Definition detection_tick (videoId : string) (e : Entropy)
  (ent : nat -> Entropy) (s : State) : State :=
  if negb (existsb (String.eqb videoId) (intervals s)) then s
  else
    let newProgress := (detectionProgress s + (rnd e * 15 + 5))%Q in
    if Qle_bool 100 newProgress then
      {| videos := detection_update videoId ent (videos s);
         uploads := uploads s;
         selectedVideoId := Some videoId;
         showVideoPlayer := showVideoPlayer s;
         adminPanelVisible := adminPanelVisible s;
         isDetecting := false; detectionProgress := 100%Q;
         hasRunDetection := true;
         intervals := clearInterval videoId (intervals s);
         resets := S (resets s) |}
    else set_detectionProgress (Qmin newProgress 100) s.

(** The time-out that puts the progress bar back to 0 a second after a
    run, whatever the bar shows by then.  It fires when one is waiting. *)
Definition detection_reset (s : State) : State :=
  match resets s with
  | O => s
  | S waiting =>
      {| videos := videos s; uploads := uploads s;
         selectedVideoId := selectedVideoId s;
         showVideoPlayer := showVideoPlayer s;
         adminPanelVisible := adminPanelVisible s;
         isDetecting := isDetecting s; detectionProgress := 0%Q;
         hasRunDetection := hasRunDetection s; intervals := intervals s;
         resets := waiting |}
  end.

(** *** Catalog operations *)

(** [addNewObjectToVideo (videoId, objectName)] called from a render whose
    video list is [snapshot]: the name it returns and the updater it passes
    to [setVideos]. *)
Definition addNewObjectToVideo (snapshot : list VideoInfo) (e : Entropy)
  (videoId : string) (objectName : option string)
  : string * (list VideoInfo -> list VideoInfo) :=
  let nextObjectNumber :=
    match find_video videoId snapshot with
    | Some currentVideo => totalObjectsCreated currentVideo + 1
    | None => 1
    end in
  let finalObjectName := Js.or_else objectName (object_name nextObjectNumber) in
  let objectId :=
    videoId ++ "-new-" ++ Js.decimal (now e) ++ "-" ++ suffix e in
  let newObject :=
    {| id := objectId; name := finalObjectName;
       confidence := ((85 # 100) + rnd e * (15 # 100))%Q;
       selected := false;
       code := Some ("CODE_" ++ Js.toUpperCase (Js.slice0 8 objectId));
       additionalInfo := Some "AI가 자동으로 탐지한 객체입니다.";
       dlReservoirDomain := Some "http://www.naver.com";
       category := Some "기타" |} in
  (finalObjectName,
   map (fun video =>
          if String.eqb (vid video) videoId
          then
            with_objects (detectedObjects video ++ [newObject])
              (with_counter (totalObjectsCreated video + 1) video)
          else video)).

Definition deleteObjectFromVideo (videoId objectId : string)
  (prev : list VideoInfo) : list VideoInfo :=
  map (fun video =>
         if String.eqb (vid video) videoId
         then
           with_objects
             (filter (fun obj => negb (String.eqb (id obj) objectId))
                (detectedObjects video))
             video
         else video)
      prev.

(** The partial fields of an update; a key that is absent is [None]. *)
Record Updates := mkUpdates {
  u_name : option string;
  u_code : option string;
  u_additionalInfo : option string;
  u_dlReservoirDomain : option string;
  u_category : option string
}.

Definition spread_opt (old new : option string) : option string :=
  match new with Some _ => new | None => old end.

(** [{ ...obj, ...updates }]. *)
Definition spread (obj : DetectedObject) (updates : Updates)
  : DetectedObject :=
  {| id := id obj;
     name := match u_name updates with Some n => n | None => name obj end;
     confidence := confidence obj;
     selected := selected obj;
     code := spread_opt (code obj) (u_code updates);
     additionalInfo :=
       spread_opt (additionalInfo obj) (u_additionalInfo updates);
     dlReservoirDomain :=
       spread_opt (dlReservoirDomain obj) (u_dlReservoirDomain updates);
     category := spread_opt (category obj) (u_category updates) |}.

Definition updateObjectInVideo (videoId objectId : string)
  (updates : Updates) (prev : list VideoInfo) : list VideoInfo :=
  map (fun video =>
         if String.eqb (vid video) videoId
         then
           with_objects
             (map (fun obj =>
                     if String.eqb (id obj) objectId
                     then spread obj updates else obj)
                (detectedObjects video))
             video
         else video)
      prev.

(** [deleteSelectedObjects]. *)
Definition deleteSelectedObjects (s : State) : State :=
  match selectedVideoId s with
  | None => s
  | Some sel =>
      if negb (Js.truthy sel) then s
      else
        set_videos
          (map (fun video =>
                  if String.eqb (vid video) sel
                  then
                    with_objects
                      (filter (fun obj => negb (selected obj))
                         (detectedObjects video))
                      video
                  else video))
          s
  end.

(** [handleVideoSelect (videoId)] for a video id; the empty id, which
    closes the panel, is [closeAdminPanel].  The callback is memoised on
    [adminPanelVisible] alone: the video list it reads is [snapshot], the
    one of the render that made the callback. *)
Definition handleVideoSelect (snapshot : list VideoInfo) (videoId : string)
  (s : State) : State :=
  let hasDetectedObjects :=
    match find_video videoId snapshot with
    | Some video => (0 <? List.length (detectedObjects video))%nat
    | None => false
    end in
  {| videos := videos s; uploads := uploads s;
     selectedVideoId := Some videoId;
     showVideoPlayer := showVideoPlayer s; adminPanelVisible := true;
     isDetecting := isDetecting s;
     detectionProgress := detectionProgress s;
     hasRunDetection := hasDetectedObjects; intervals := intervals s;
     resets := resets s |}.

(** [closeAdminPanel], once its closing animation is over. *)
Definition closeAdminPanel (s : State) : State :=
  {| videos := videos s; uploads := uploads s; selectedVideoId := None;
     showVideoPlayer := showVideoPlayer s;
     adminPanelVisible := false; isDetecting := isDetecting s;
     detectionProgress := detectionProgress s;
     hasRunDetection := hasRunDetection s; intervals := intervals s;
     resets := resets s |}.

(** [openVideoPlayer], which needs a selected video, and
    [setShowVideoPlayer]. *)
Definition openVideoPlayer (s : State) : State :=
  match selectedVideo s with
  | Some _ => set_showVideoPlayer true s
  | None => s
  end.

(** [deleteVideo (videoId)]: the video and its upload leave their lists at
    once; the flag tells whether the video was the selected one, in which
    case [closeAdminPanel] is started too. *)
Definition deleteVideo (videoId : string) (s : State)
  : State * bool * Toast :=
  (set_uploads
     (filter (fun upload => negb (String.eqb (upload_id upload) videoId)))
     (set_videos
        (filter (fun video => negb (String.eqb (vid video) videoId))) s),
   match selectedVideoId s with
   | Some sel => String.eqb sel videoId
   | None => false
   end,
   toast_success "동영상이 삭제되었습니다.").

(** The computed value [hasSelectedObjects]. *)
Definition hasSelectedObjects (s : State) : bool :=
  existsb selected (selectedVideoObjects s).

End Hook.

(** ** components/VideoPlayer *)

Module Player.

(** A point of the canvas, in pixels of its buffer. *)
Record DrawingPoint := mkPoint { x : Q; y : Q }.

Inductive AreaType := type_path | type_rectangle.

Record DrawnArea := mkArea {
  area_id : string;
  points : list DrawingPoint;
  color : string;
  type : AreaType;
  startPoint : option DrawingPoint;
  endPoint : option DrawingPoint
}.

Inductive DrawingMode := mode_free | mode_rectangle.

(** The canvas element: where its bounding rectangle starts
    ([getBoundingClientRect], in fractional pixels) and the size of its
    pixel buffer (the attributes [width] and [height], whole numbers). *)
Record Canvas := mkCanvas {
  rect_left : Q;
  rect_top : Q;
  width : Z;
  height : Z
}.

Record MouseEvent := mkMouse { clientX : Q; clientY : Q }.

(** The state variables of the component that the drawing, export and
    deletion handlers read or write.  The video element and the bitmap of
    the canvas are outside of it. *)
Record State := mkState {
  isDrawing : bool;
  drawnAreas : list DrawnArea;
  currentPath : list DrawingPoint;
  isMouseDown : bool;
  drawingMode : DrawingMode;
  rectangleStart : option DrawingPoint;
  currentRectangle : option DrawnArea;
  isErasing : bool;
  canvasInitialized : bool;
  showAdminPanel : bool;
  selectedObjectIds : list string;
  showObjectList : bool;
  hasObjectChanges : bool;
  selectedObjectId : option string;
  isEditing : bool;
  showDeleteConfirmModal : bool;
  objectToDelete : option string;
  deleteConfirmed : bool
}.

Definition setIsDrawing (v : bool) (s : State) : State :=
  {| isDrawing := v; drawnAreas := drawnAreas s;
     currentPath := currentPath s; isMouseDown := isMouseDown s;
     drawingMode := drawingMode s; rectangleStart := rectangleStart s;
     currentRectangle := currentRectangle s; isErasing := isErasing s;
     canvasInitialized := canvasInitialized s;
     showAdminPanel := showAdminPanel s;
     selectedObjectIds := selectedObjectIds s;
     showObjectList := showObjectList s;
     hasObjectChanges := hasObjectChanges s;
     selectedObjectId := selectedObjectId s; isEditing := isEditing s;
     showDeleteConfirmModal := showDeleteConfirmModal s;
     objectToDelete := objectToDelete s;
     deleteConfirmed := deleteConfirmed s |}.

Definition setDrawnAreas (f : list DrawnArea -> list DrawnArea) (s : State)
  : State :=
  {| isDrawing := isDrawing s; drawnAreas := f (drawnAreas s);
     currentPath := currentPath s; isMouseDown := isMouseDown s;
     drawingMode := drawingMode s; rectangleStart := rectangleStart s;
     currentRectangle := currentRectangle s; isErasing := isErasing s;
     canvasInitialized := canvasInitialized s;
     showAdminPanel := showAdminPanel s;
     selectedObjectIds := selectedObjectIds s;
     showObjectList := showObjectList s;
     hasObjectChanges := hasObjectChanges s;
     selectedObjectId := selectedObjectId s; isEditing := isEditing s;
     showDeleteConfirmModal := showDeleteConfirmModal s;
     objectToDelete := objectToDelete s;
     deleteConfirmed := deleteConfirmed s |}.

Definition setCurrentPath (v : list DrawingPoint) (s : State) : State :=
  {| isDrawing := isDrawing s; drawnAreas := drawnAreas s; currentPath := v;
     isMouseDown := isMouseDown s; drawingMode := drawingMode s;
     rectangleStart := rectangleStart s;
     currentRectangle := currentRectangle s; isErasing := isErasing s;
     canvasInitialized := canvasInitialized s;
     showAdminPanel := showAdminPanel s;
     selectedObjectIds := selectedObjectIds s;
     showObjectList := showObjectList s;
     hasObjectChanges := hasObjectChanges s;
     selectedObjectId := selectedObjectId s; isEditing := isEditing s;
     showDeleteConfirmModal := showDeleteConfirmModal s;
     objectToDelete := objectToDelete s;
     deleteConfirmed := deleteConfirmed s |}.

Definition setIsMouseDown (v : bool) (s : State) : State :=
  {| isDrawing := isDrawing s; drawnAreas := drawnAreas s;
     currentPath := currentPath s; isMouseDown := v;
     drawingMode := drawingMode s; rectangleStart := rectangleStart s;
     currentRectangle := currentRectangle s; isErasing := isErasing s;
     canvasInitialized := canvasInitialized s;
     showAdminPanel := showAdminPanel s;
     selectedObjectIds := selectedObjectIds s;
     showObjectList := showObjectList s;
     hasObjectChanges := hasObjectChanges s;
     selectedObjectId := selectedObjectId s; isEditing := isEditing s;
     showDeleteConfirmModal := showDeleteConfirmModal s;
     objectToDelete := objectToDelete s;
     deleteConfirmed := deleteConfirmed s |}.

Definition setDrawingMode (v : DrawingMode) (s : State) : State :=
  {| isDrawing := isDrawing s; drawnAreas := drawnAreas s;
     currentPath := currentPath s; isMouseDown := isMouseDown s;
     drawingMode := v; rectangleStart := rectangleStart s;
     currentRectangle := currentRectangle s; isErasing := isErasing s;
     canvasInitialized := canvasInitialized s;
     showAdminPanel := showAdminPanel s;
     selectedObjectIds := selectedObjectIds s;
     showObjectList := showObjectList s;
     hasObjectChanges := hasObjectChanges s;
     selectedObjectId := selectedObjectId s; isEditing := isEditing s;
     showDeleteConfirmModal := showDeleteConfirmModal s;
     objectToDelete := objectToDelete s;
     deleteConfirmed := deleteConfirmed s |}.

Definition setRectangleStart (v : option DrawingPoint) (s : State) : State :=
  {| isDrawing := isDrawing s; drawnAreas := drawnAreas s;
     currentPath := currentPath s; isMouseDown := isMouseDown s;
     drawingMode := drawingMode s; rectangleStart := v;
     currentRectangle := currentRectangle s; isErasing := isErasing s;
     canvasInitialized := canvasInitialized s;
     showAdminPanel := showAdminPanel s;
     selectedObjectIds := selectedObjectIds s;
     showObjectList := showObjectList s;
     hasObjectChanges := hasObjectChanges s;
     selectedObjectId := selectedObjectId s; isEditing := isEditing s;
     showDeleteConfirmModal := showDeleteConfirmModal s;
     objectToDelete := objectToDelete s;
     deleteConfirmed := deleteConfirmed s |}.

Definition setCurrentRectangle (v : option DrawnArea) (s : State) : State :=
  {| isDrawing := isDrawing s; drawnAreas := drawnAreas s;
     currentPath := currentPath s; isMouseDown := isMouseDown s;
     drawingMode := drawingMode s; rectangleStart := rectangleStart s;
     currentRectangle := v; isErasing := isErasing s;
     canvasInitialized := canvasInitialized s;
     showAdminPanel := showAdminPanel s;
     selectedObjectIds := selectedObjectIds s;
     showObjectList := showObjectList s;
     hasObjectChanges := hasObjectChanges s;
     selectedObjectId := selectedObjectId s; isEditing := isEditing s;
     showDeleteConfirmModal := showDeleteConfirmModal s;
     objectToDelete := objectToDelete s;
     deleteConfirmed := deleteConfirmed s |}.

Definition setIsErasing (v : bool) (s : State) : State :=
  {| isDrawing := isDrawing s; drawnAreas := drawnAreas s;
     currentPath := currentPath s; isMouseDown := isMouseDown s;
     drawingMode := drawingMode s; rectangleStart := rectangleStart s;
     currentRectangle := currentRectangle s; isErasing := v;
     canvasInitialized := canvasInitialized s;
     showAdminPanel := showAdminPanel s;
     selectedObjectIds := selectedObjectIds s;
     showObjectList := showObjectList s;
     hasObjectChanges := hasObjectChanges s;
     selectedObjectId := selectedObjectId s; isEditing := isEditing s;
     showDeleteConfirmModal := showDeleteConfirmModal s;
     objectToDelete := objectToDelete s;
     deleteConfirmed := deleteConfirmed s |}.

Definition setCanvasInitialized (v : bool) (s : State) : State :=
  {| isDrawing := isDrawing s; drawnAreas := drawnAreas s;
     currentPath := currentPath s; isMouseDown := isMouseDown s;
     drawingMode := drawingMode s; rectangleStart := rectangleStart s;
     currentRectangle := currentRectangle s; isErasing := isErasing s;
     canvasInitialized := v; showAdminPanel := showAdminPanel s;
     selectedObjectIds := selectedObjectIds s;
     showObjectList := showObjectList s;
     hasObjectChanges := hasObjectChanges s;
     selectedObjectId := selectedObjectId s; isEditing := isEditing s;
     showDeleteConfirmModal := showDeleteConfirmModal s;
     objectToDelete := objectToDelete s;
     deleteConfirmed := deleteConfirmed s |}.

Definition setShowAdminPanel (v : bool) (s : State) : State :=
  {| isDrawing := isDrawing s; drawnAreas := drawnAreas s;
     currentPath := currentPath s; isMouseDown := isMouseDown s;
     drawingMode := drawingMode s; rectangleStart := rectangleStart s;
     currentRectangle := currentRectangle s; isErasing := isErasing s;
     canvasInitialized := canvasInitialized s; showAdminPanel := v;
     selectedObjectIds := selectedObjectIds s;
     showObjectList := showObjectList s;
     hasObjectChanges := hasObjectChanges s;
     selectedObjectId := selectedObjectId s; isEditing := isEditing s;
     showDeleteConfirmModal := showDeleteConfirmModal s;
     objectToDelete := objectToDelete s;
     deleteConfirmed := deleteConfirmed s |}.

Definition setSelectedObjectIds (f : list string -> list string) (s : State)
  : State :=
  {| isDrawing := isDrawing s; drawnAreas := drawnAreas s;
     currentPath := currentPath s; isMouseDown := isMouseDown s;
     drawingMode := drawingMode s; rectangleStart := rectangleStart s;
     currentRectangle := currentRectangle s; isErasing := isErasing s;
     canvasInitialized := canvasInitialized s;
     showAdminPanel := showAdminPanel s;
     selectedObjectIds := f (selectedObjectIds s);
     showObjectList := showObjectList s;
     hasObjectChanges := hasObjectChanges s;
     selectedObjectId := selectedObjectId s; isEditing := isEditing s;
     showDeleteConfirmModal := showDeleteConfirmModal s;
     objectToDelete := objectToDelete s;
     deleteConfirmed := deleteConfirmed s |}.

Definition setShowObjectList (v : bool) (s : State) : State :=
  {| isDrawing := isDrawing s; drawnAreas := drawnAreas s;
     currentPath := currentPath s; isMouseDown := isMouseDown s;
     drawingMode := drawingMode s; rectangleStart := rectangleStart s;
     currentRectangle := currentRectangle s; isErasing := isErasing s;
     canvasInitialized := canvasInitialized s;
     showAdminPanel := showAdminPanel s;
     selectedObjectIds := selectedObjectIds s; showObjectList := v;
     hasObjectChanges := hasObjectChanges s;
     selectedObjectId := selectedObjectId s; isEditing := isEditing s;
     showDeleteConfirmModal := showDeleteConfirmModal s;
     objectToDelete := objectToDelete s;
     deleteConfirmed := deleteConfirmed s |}.

Definition setHasObjectChanges (v : bool) (s : State) : State :=
  {| isDrawing := isDrawing s; drawnAreas := drawnAreas s;
     currentPath := currentPath s; isMouseDown := isMouseDown s;
     drawingMode := drawingMode s; rectangleStart := rectangleStart s;
     currentRectangle := currentRectangle s; isErasing := isErasing s;
     canvasInitialized := canvasInitialized s;
     showAdminPanel := showAdminPanel s;
     selectedObjectIds := selectedObjectIds s;
     showObjectList := showObjectList s; hasObjectChanges := v;
     selectedObjectId := selectedObjectId s; isEditing := isEditing s;
     showDeleteConfirmModal := showDeleteConfirmModal s;
     objectToDelete := objectToDelete s;
     deleteConfirmed := deleteConfirmed s |}.

Definition setSelectedObjectId (v : option string) (s : State) : State :=
  {| isDrawing := isDrawing s; drawnAreas := drawnAreas s;
     currentPath := currentPath s; isMouseDown := isMouseDown s;
     drawingMode := drawingMode s; rectangleStart := rectangleStart s;
     currentRectangle := currentRectangle s; isErasing := isErasing s;
     canvasInitialized := canvasInitialized s;
     showAdminPanel := showAdminPanel s;
     selectedObjectIds := selectedObjectIds s;
     showObjectList := showObjectList s;
     hasObjectChanges := hasObjectChanges s; selectedObjectId := v;
     isEditing := isEditing s;
     showDeleteConfirmModal := showDeleteConfirmModal s;
     objectToDelete := objectToDelete s;
     deleteConfirmed := deleteConfirmed s |}.

Definition setIsEditing (v : bool) (s : State) : State :=
  {| isDrawing := isDrawing s; drawnAreas := drawnAreas s;
     currentPath := currentPath s; isMouseDown := isMouseDown s;
     drawingMode := drawingMode s; rectangleStart := rectangleStart s;
     currentRectangle := currentRectangle s; isErasing := isErasing s;
     canvasInitialized := canvasInitialized s;
     showAdminPanel := showAdminPanel s;
     selectedObjectIds := selectedObjectIds s;
     showObjectList := showObjectList s;
     hasObjectChanges := hasObjectChanges s;
     selectedObjectId := selectedObjectId s; isEditing := v;
     showDeleteConfirmModal := showDeleteConfirmModal s;
     objectToDelete := objectToDelete s;
     deleteConfirmed := deleteConfirmed s |}.

Definition setShowDeleteConfirmModal (v : bool) (s : State) : State :=
  {| isDrawing := isDrawing s; drawnAreas := drawnAreas s;
     currentPath := currentPath s; isMouseDown := isMouseDown s;
     drawingMode := drawingMode s; rectangleStart := rectangleStart s;
     currentRectangle := currentRectangle s; isErasing := isErasing s;
     canvasInitialized := canvasInitialized s;
     showAdminPanel := showAdminPanel s;
     selectedObjectIds := selectedObjectIds s;
     showObjectList := showObjectList s;
     hasObjectChanges := hasObjectChanges s;
     selectedObjectId := selectedObjectId s; isEditing := isEditing s;
     showDeleteConfirmModal := v; objectToDelete := objectToDelete s;
     deleteConfirmed := deleteConfirmed s |}.

Definition setObjectToDelete (v : option string) (s : State) : State :=
  {| isDrawing := isDrawing s; drawnAreas := drawnAreas s;
     currentPath := currentPath s; isMouseDown := isMouseDown s;
     drawingMode := drawingMode s; rectangleStart := rectangleStart s;
     currentRectangle := currentRectangle s; isErasing := isErasing s;
     canvasInitialized := canvasInitialized s;
     showAdminPanel := showAdminPanel s;
     selectedObjectIds := selectedObjectIds s;
     showObjectList := showObjectList s;
     hasObjectChanges := hasObjectChanges s;
     selectedObjectId := selectedObjectId s; isEditing := isEditing s;
     showDeleteConfirmModal := showDeleteConfirmModal s;
     objectToDelete := v; deleteConfirmed := deleteConfirmed s |}.

Definition setDeleteConfirmed (v : bool) (s : State) : State :=
  {| isDrawing := isDrawing s; drawnAreas := drawnAreas s;
     currentPath := currentPath s; isMouseDown := isMouseDown s;
     drawingMode := drawingMode s; rectangleStart := rectangleStart s;
     currentRectangle := currentRectangle s; isErasing := isErasing s;
     canvasInitialized := canvasInitialized s;
     showAdminPanel := showAdminPanel s;
     selectedObjectIds := selectedObjectIds s;
     showObjectList := showObjectList s;
     hasObjectChanges := hasObjectChanges s;
     selectedObjectId := selectedObjectId s; isEditing := isEditing s;
     showDeleteConfirmModal := showDeleteConfirmModal s;
     objectToDelete := objectToDelete s; deleteConfirmed := v |}.

(** The state with which the component opens a video. *)
Definition initial : State :=
  {| isDrawing := false; drawnAreas := []; currentPath := [];
     isMouseDown := false; drawingMode := mode_rectangle;
     rectangleStart := None; currentRectangle := None; isErasing := false;
     canvasInitialized := false; showAdminPanel := true;
     selectedObjectIds := []; showObjectList := false;
     hasObjectChanges := false; selectedObjectId := None; isEditing := false;
     showDeleteConfirmModal := false; objectToDelete := None;
     deleteConfirmed := false |}.

(** The effect on [isOpen] and [video], in a render that finds the player
    open on a video: it runs when the player is opened and whenever the
    page passes another video object.  The canvas is set up again by a timer
    that the effect starts ([initializeCanvas]). *)
Definition resetForVideo (s : State) : State :=
  {| isDrawing := false; drawnAreas := []; currentPath := [];
     isMouseDown := false; drawingMode := drawingMode s;
     rectangleStart := rectangleStart s;
     currentRectangle := currentRectangle s; isErasing := false;
     canvasInitialized := false; showAdminPanel := true;
     selectedObjectIds := []; showObjectList := false;
     hasObjectChanges := false; selectedObjectId := None; isEditing := false;
     showDeleteConfirmModal := false; objectToDelete := None;
     deleteConfirmed := false |}.

Definition RED : string := "#ef4444".

(** [initializeCanvas], once the video reports its dimensions. *)
Definition initializeCanvas (s : State) : State := setCanvasInitialized true s.

Definition getCanvasCoordinates (canvas : option Canvas) (e : MouseEvent)
  : DrawingPoint :=
  match canvas with
  | None => {| x := 0; y := 0 |}
  | Some c =>
      let x0 := (clientX e - rect_left c)%Q in
      let y0 := (clientY e - rect_top c)%Q in
      {| x := Qmax 0 (Qmin x0 (inject_Z (width c)));
         y := Qmax 0 (Qmin y0 (inject_Z (height c))) |}
  end.

(** The hit test of the eraser. *)
Definition clicked (coords : DrawingPoint) (area : DrawnArea) : bool :=
  match type area, startPoint area, endPoint area with
  | type_rectangle, Some sp, Some ep =>
      let minX := Qmin (x sp) (x ep) in
      let maxX := Qmax (x sp) (x ep) in
      let minY := Qmin (y sp) (y ep) in
      let maxY := Qmax (y sp) (y ep) in
      Qle_bool minX (x coords) && Qle_bool (x coords) maxX
      && Qle_bool minY (y coords) && Qle_bool (y coords) maxY
  | type_path, _, _ =>
      if (0 <? List.length (points area))%nat then
        existsb
          (fun point =>
             Js.lt (Qabs (x point - x coords)) 10
             && Js.lt (Qabs (y point - y coords)) 10)
          (points area)
      else false
  | type_rectangle, _, _ => false
  end.

Definition handleMouseDown (canvas : option Canvas) (e : MouseEvent)
  (s : State) : State :=
  if negb (isDrawing s) || negb (canvasInitialized s) then s
  else
    let s1 := setIsMouseDown true s in
    let coords := getCanvasCoordinates canvas e in
    if isErasing s then
      match find (clicked coords) (drawnAreas s) with
      | Some clickedArea =>
          setDrawnAreas
            (filter
               (fun area =>
                  negb (String.eqb (area_id area) (area_id clickedArea))))
            s1
      | None => s1
      end
    else
      match drawingMode s with
      | mode_rectangle =>
          setCurrentRectangle None (setRectangleStart (Some coords) s1)
      | mode_free => setCurrentPath [coords] s1
      end.

Definition handleMouseMove (canvas : option Canvas) (e : MouseEvent)
  (s : State) : State :=
  if negb (isDrawing s) || negb (isMouseDown s) || negb (canvasInitialized s)
  then s
  else
    let coords := getCanvasCoordinates canvas e in
    match canvas with
    | None => s
    | Some _ =>
        if negb (isErasing s) then
          match drawingMode s, rectangleStart s with
          | mode_rectangle, Some rs =>
              let normalizedX := Qmin (x rs) (x coords) in
              let normalizedY := Qmin (y rs) (y coords) in
              let w := Qabs (x coords - x rs) in
              let h := Qabs (y coords - y rs) in
              setCurrentRectangle
                (Some
                   {| area_id := "temp"; points := []; color := RED;
                      type := type_rectangle;
                      startPoint :=
                        Some {| x := normalizedX; y := normalizedY |};
                      endPoint :=
                        Some {| x := (normalizedX + w)%Q;
                                y := (normalizedY + h)%Q |}
                   |})
                s
          | mode_rectangle, None => s
          | mode_free, _ => setCurrentPath (currentPath s ++ [coords]) s
          end
        else s
    end.

Definition region_id (kind : string) (e : Entropy) : string :=
  kind ++ "-" ++ Js.decimal (now e) ++ "-" ++ suffix e.

(** The point list that a freehand capture stores: the captured points,
    closed by a copy of the first one when the two ends are more than 30
    pixels apart. *)
Definition closedPath (currentPath : list DrawingPoint) : list DrawingPoint :=
  if (2 <? List.length currentPath)%nat then
    match currentPath with
    | [] => currentPath
    | firstPoint :: _ =>
        let lastPoint := last currentPath firstPoint in
        if Js.sqrt_gt
             ((x firstPoint - x lastPoint) ^ 2
              + (y firstPoint - y lastPoint) ^ 2)%Q 30
        then currentPath ++ [firstPoint]
        else currentPath
    end
  else currentPath.

(** [handleMouseUp], which also serves the mouse leaving the canvas. *)
Definition handleMouseUp (canvas : option Canvas) (e : MouseEvent)
  (ent : Entropy) (s : State) : State :=
  if negb (isDrawing s) || negb (isMouseDown s) || negb (canvasInitialized s)
  then s
  else
    let s1 := setIsMouseDown false s in
    let coords := getCanvasCoordinates canvas e in
    if negb (isErasing s) then
      let s2 :=
        match drawingMode s, rectangleStart s with
        | mode_rectangle, Some rs =>
            let w := Qabs (x coords - x rs) in
            let h := Qabs (y coords - y rs) in
            let s' :=
              if Js.gt w 5 && Js.gt h 5 then
                let normalizedStartPoint :=
                  {| x := Qmin (x rs) (x coords);
                     y := Qmin (y rs) (y coords) |} in
                let normalizedEndPoint :=
                  {| x := Qmax (x rs) (x coords);
                     y := Qmax (y rs) (y coords) |} in
                let newArea :=
                  {| area_id := region_id "rect" ent; points := [];
                     color := RED; type := type_rectangle;
                     startPoint := Some normalizedStartPoint;
                     endPoint := Some normalizedEndPoint |} in
                setDrawnAreas (fun prev => (prev ++ [newArea])%list) s1
              else s1 in
            setCurrentRectangle None (setRectangleStart None s')
        | mode_rectangle, None => s1
        | mode_free, _ =>
            if (2 <? List.length (currentPath s))%nat then
              let newArea :=
                {| area_id := region_id "path" ent;
                   points := closedPath (currentPath s); color := RED;
                   type := type_path; startPoint := None;
                   endPoint := None |} in
              setDrawnAreas (fun prev => (prev ++ [newArea])%list) s1
            else s1
        end in
      setCurrentPath [] s2
    else s1.

(** A whole gesture on the canvas: the button goes down, the pointer
    moves, the button goes up. *)
Definition gesture (canvas : option Canvas) (down : MouseEvent)
  (moves : list MouseEvent) (up : MouseEvent) (ent : Entropy) (s : State)
  : State :=
  handleMouseUp canvas up ent
    (fold_left (fun s' e => handleMouseMove canvas e s') moves
       (handleMouseDown canvas down s)).

Definition toggleDrawing (s : State) : State :=
  let newDrawingState := negb (isDrawing s) in
  let s1 := setIsDrawing newDrawingState s in
  if newDrawingState then setShowAdminPanel false s1
  else
    setCurrentRectangle None
      (setRectangleStart None
         (setIsErasing false
            (setIsMouseDown false
               (setCurrentPath [] (setShowAdminPanel true s1))))).

Definition clearAllDrawings (s : State) : State :=
  setCurrentPath [] (setDrawnAreas (fun _ => []) s).

(** The type of the [onAddNewObject] property, with what the callee reads
    from the clock and the random generator made explicit. *)
Definition AddNewObject : Type :=
  Entropy -> string -> option string
  -> string * (list VideoInfo -> list VideoInfo).

(** The [forEach] of [saveDrawingsAndDownloadWebVTT], from index [index]
    on: the names pushed to [addedObjects], one for every call of
    [onAddNewObject], and the updaters queued on the video list, in
    order. *)
Fixpoint addDrawnAreas (video : option VideoInfo)
  (detectedObjects : list DetectedObject) (onAddNewObject : AddNewObject)
  (ent : nat -> Entropy) (index : nat) (areas : list DrawnArea)
  : list string * (list VideoInfo -> list VideoInfo) :=
  match areas with
  | [] => ([], fun prev => prev)
  | _ :: rest =>
      let objectName :=
        object_name
          (Z.of_nat (List.length detectedObjects) + Z.of_nat index + 1) in
      let later :=
        addDrawnAreas video detectedObjects onAddNewObject ent (S index)
          rest in
      match video with
      | Some v =>
          let added := onAddNewObject (ent index) (vid v) (Some objectName) in
          (fst added :: fst later, fun prev => snd later (snd added prev))
      | None => later
      end
  end.

Record SaveResult := mkSave {
  save_state : State;
  save_addedObjects : list string;
  save_videos : list VideoInfo -> list VideoInfo;
  save_toasts : list Toast
}.

(** [saveDrawingsAndDownloadWebVTT]; [vtt_ok] tells whether the download
    that follows the commit succeeded. *)
Definition saveDrawingsAndDownloadWebVTT (video : option VideoInfo)
  (detectedObjects : list DetectedObject) (onAddNewObject : AddNewObject)
  (ent : nat -> Entropy) (vtt_ok : bool) (s : State) : SaveResult :=
  let added :=
    addDrawnAreas video detectedObjects onAddNewObject ent 0 (drawnAreas s) in
  let addedObjects := fst added in
  let notice :=
    if (0 <? List.length addedObjects)%nat then
      [ toast_success
          (Js.decimal (Z.of_nat (List.length addedObjects))
           ++ "개의 새로운 객체가 탐지되었습니다: "
           ++ Js.join ", " addedObjects) ]
    else [] in
  let download :=
    match video with
    | None => toast_error "비디오가 선택되지 않았습니다!"
    | Some _ =>
        if vtt_ok
        then toast_success "저장 및 WebVTT 다운로드가 완료되었습니다."
        else toast_error "WebVTT 파일 다운로드에 실패했습니다."
    end in
  {| save_state := setHasObjectChanges false (setDrawnAreas (fun _ => []) s);
     save_addedObjects := addedObjects;
     save_videos := snd added;
     save_toasts := notice ++ [download] |}.

(** *** Selection and deletion *)

(** The check box of an object in the list. *)
Definition toggleSelected (objectId : string) (s : State) : State :=
  if existsb (String.eqb objectId) (selectedObjectIds s) then
    setSelectedObjectIds
      (filter (fun i => negb (String.eqb i objectId))) s
  else setSelectedObjectIds (fun prev => (prev ++ [objectId])%list) s.

(** The button that opens and closes the object list. *)
Definition toggleObjectList (s : State) : State :=
  let detail :=
    match selectedObjectId s with
    | Some objectId => Js.truthy objectId
    | None => false
    end in
  if negb (showObjectList s) && negb detail then
    setSelectedObjectId None (setShowObjectList true s)
  else if showObjectList s && negb detail then setShowObjectList false s
  else if detail then setSelectedObjectId None (setShowObjectList false s)
  else s.

Definition BULK_DELETE : string := "BULK_DELETE".

(** The button that asks to delete the selected objects. *)
Definition bulkDeleteClick (s : State) : State :=
  if (0 <? List.length (selectedObjectIds s))%nat then
    setDeleteConfirmed false
      (setShowDeleteConfirmModal true
         (setObjectToDelete (Some BULK_DELETE) s))
  else s.

Definition handleDeleteClick (objectId : string) (s : State) : State :=
  setDeleteConfirmed false
    (setShowDeleteConfirmModal true (setObjectToDelete (Some objectId) s)).

Definition handleBackToObjectList (s : State) : State :=
  setIsEditing false (setSelectedObjectId None s).

Definition cancelDelete (s : State) : State :=
  setDeleteConfirmed false
    (setObjectToDelete None (setShowDeleteConfirmModal false s)).

(** The type of the optional [onDeleteObject] property: the updater it
    queues on the video list. *)
Definition DeleteObject : Type :=
  string -> string -> list VideoInfo -> list VideoInfo.

(** [selectedObjectIds.forEach (objectId => onDeleteObject (id, objectId))]:
    the updaters queued, composed in order. *)
Fixpoint deleteEach (onDeleteObject : DeleteObject) (videoId : string)
  (ids : list string) (prev : list VideoInfo) : list VideoInfo :=
  match ids with
  | [] => prev
  | objectId :: rest =>
      deleteEach onDeleteObject videoId rest
        (onDeleteObject videoId objectId prev)
  end.

(** What a click on the confirming button gives: the next state, the
    updaters queued on the video list, composed, how many times
    [onDeleteObject] was called for them, and the notice. *)
Record DeleteResult := mkDelete {
  delete_state : State;
  delete_videos : list VideoInfo -> list VideoInfo;
  delete_calls : nat;
  delete_toast : option Toast
}.

Definition confirmDelete (video : option VideoInfo)
  (onDeleteObject : option DeleteObject) (s : State) : DeleteResult :=
  let inert :=
    {| delete_state := s; delete_videos := fun prev => prev;
       delete_calls := 0; delete_toast := None |} in
  match objectToDelete s, video, onDeleteObject with
  | Some target, Some v, Some del =>
      if Js.truthy target && deleteConfirmed s then
        let close s' :=
          setDeleteConfirmed false
            (setObjectToDelete None (setShowDeleteConfirmModal false s')) in
        if String.eqb target BULK_DELETE then
          let deleteCount := List.length (selectedObjectIds s) in
          {| delete_state :=
               close
                 (setHasObjectChanges true
                    (setSelectedObjectIds (fun _ => []) s));
             delete_videos := deleteEach del (vid v) (selectedObjectIds s);
             delete_calls := deleteCount;
             delete_toast :=
               Some
                 (toast_success
                    (Js.decimal (Z.of_nat deleteCount)
                     ++ "개 객체가 삭제되었습니다.")) |}
        else
          {| delete_state :=
               close (handleBackToObjectList (setHasObjectChanges true s));
             delete_videos := del (vid v) target;
             delete_calls := 1;
             delete_toast := Some (toast_success "객체가 삭제되었습니다.") |}
      else inert
  | _, _, _ => inert
  end.

(** *** Pointer events in sequence *)

Inductive Pointer :=
| pointer_down (e : MouseEvent)
| pointer_move (e : MouseEvent)
| pointer_up (e : MouseEvent) (ent : Entropy).

Definition pointer (canvas : option Canvas) (ev : Pointer) (s : State)
  : State :=
  match ev with
  | pointer_down e => handleMouseDown canvas e s
  | pointer_move e => handleMouseMove canvas e s
  | pointer_up e ent => handleMouseUp canvas e ent s
  end.

Definition pointers (canvas : option Canvas) (evs : list Pointer)
  (s : State) : State :=
  fold_left (fun s' ev => pointer canvas ev s') evs s.

(** The eraser button, and the two buttons that choose a drawing mode. *)
Definition toggleErasing (s : State) : State :=
  setIsErasing (negb (isErasing s)) s.

Definition selectMode (mode : DrawingMode) (s : State) : State :=
  setIsErasing false (setDrawingMode mode s).

(** *** The time display *)

(** [formatTime (seconds)] for a whole number of seconds. *)
Definition formatTime (seconds : Z) : string :=
  let hours := seconds / 3600 in
  let minutes := Z.rem seconds 3600 / 60 in
  let secs := Z.rem seconds 60 in
  Js.padStart2 (Js.decimal hours) ++ ":"
  ++ Js.padStart2 (Js.decimal minutes) ++ ":"
  ++ Js.padStart2 (Js.decimal secs).

(** *** Editing an object *)

(** The state variables of the edit form. *)
Record EditForm := mkForm {
  editedObjectName : string;
  editedObjectCode : string;
  editedObjectInfo : string;
  editedDlReservoirDomain : string;
  editedCategory : string
}.

(** The type of the optional [onUpdateObject] property: the updater it
    queues on the video list. *)
Definition UpdateObject : Type :=
  string -> string -> Hook.Updates -> list VideoInfo -> list VideoInfo.

(** What the end of an edit gives: the next state, the updater queued on
    the video list, how many times [onUpdateObject] was called, and the
    notice. *)
Record EditResult := mkEdit {
  edit_state : State;
  edit_videos : list VideoInfo -> list VideoInfo;
  edit_calls : nat;
  edit_toast : option Toast
}.

Section Edit.

(** [String.prototype.trim]. *)
Variable trim : string -> string.

(** A field of the form enters the updates when it is not blank. *)
Definition edited (field : string) : option string :=
  if Js.truthy (trim field) then Some (trim field) else None.

Definition edit_updates (form : EditForm) : Hook.Updates :=
  {| Hook.u_name := edited (editedObjectName form);
     Hook.u_code := edited (editedObjectCode form);
     Hook.u_additionalInfo := edited (editedObjectInfo form);
     Hook.u_dlReservoirDomain := edited (editedDlReservoirDomain form);
     Hook.u_category := edited (editedCategory form) |}.

Definition is_some (o : option string) : bool :=
  match o with Some _ => true | None => false end.

(** [Object.keys (updates).length > 0]. *)
Definition has_keys (updates : Hook.Updates) : bool :=
  is_some (Hook.u_name updates) || is_some (Hook.u_code updates)
  || is_some (Hook.u_additionalInfo updates)
  || is_some (Hook.u_dlReservoirDomain updates)
  || is_some (Hook.u_category updates).

Definition handleEditComplete (video : option VideoInfo)
  (onUpdateObject : option UpdateObject) (form : EditForm) (s : State)
  : EditResult :=
  let unchanged :=
    {| edit_state := setIsEditing false s; edit_videos := fun prev => prev;
       edit_calls := 0; edit_toast := None |} in
  match selectedObjectId s, onUpdateObject, video with
  | Some objectId, Some update, Some v =>
      if Js.truthy objectId then
        let updates := edit_updates form in
        if has_keys updates then
          {| edit_state := setIsEditing false (setHasObjectChanges true s);
             edit_videos := update (vid v) objectId updates;
             edit_calls := 1;
             edit_toast :=
               Some (toast_success "객체 정보가 업데이트되었습니다.") |}
        else unchanged
      else unchanged
  | _, _, _ => unchanged
  end.

End Edit.

End Player.

(** ** pages/Index: the hook wired to the player *)

Module App.

Record State := mkApp {
  hook : Hook.State;
  player : Player.State
}.

(** The [isOpen], [video] and [detectedObjects] properties that the page
    passes to the player. *)
Definition isOpen (a : State) : bool := Hook.showVideoPlayer (hook a).

Definition video (a : State) : option VideoInfo := Hook.selectedVideo (hook a).

Definition detectedObjects (a : State) : list DetectedObject :=
  Hook.selectedVideoObjects (hook a).

(** The render that follows a handler of the player which called the
    updaters of the hook [calls] times for the selected video.  Each of
    them builds a new object for that video, so that after one call at
    least the [video] property is another object, and the effect of the
    player on [isOpen] and [video] runs. *)
Definition rendered (calls : nat) (a : State) : State :=
  match video a with
  | Some _ =>
      if isOpen a && (0 <? calls)%nat
      then {| hook := hook a; player := Player.resetForVideo (player a) |}
      else a
  | None => a
  end.

(** A click on the export button. *)
Definition saveDrawings (ent : nat -> Entropy) (vtt_ok : bool) (a : State)
  : State * list string * list Toast :=
  let r :=
    Player.saveDrawingsAndDownloadWebVTT (video a) (detectedObjects a)
      (Hook.addNewObjectToVideo (Hook.videos (hook a))) ent vtt_ok
      (player a) in
  (rendered (List.length (Player.save_addedObjects r))
     {| hook := Hook.set_videos (Player.save_videos r) (hook a);
        player := Player.save_state r |},
   Player.save_addedObjects r, Player.save_toasts r).

(** A click on the button that confirms a deletion. *)
Definition confirmDelete (a : State) : State * option Toast :=
  let r :=
    Player.confirmDelete (video a) (Some Hook.deleteObjectFromVideo)
      (player a) in
  (rendered (Player.delete_calls r)
     {| hook := Hook.set_videos (Player.delete_videos r) (hook a);
        player := Player.delete_state r |},
   Player.delete_toast r).

(** A click on the button that ends an edit. *)
Definition editComplete (trim : string -> string) (form : Player.EditForm)
  (a : State) : State * option Toast :=
  let r :=
    Player.handleEditComplete trim (video a)
      (Some Hook.updateObjectInVideo) form (player a) in
  (rendered (Player.edit_calls r)
     {| hook := Hook.set_videos (Player.edit_videos r) (hook a);
        player := Player.edit_state r |},
   Player.edit_toast r).

End App.

(** ** One video session under a sequence of catalog operations *)

Module Session.

(** The operations of the catalog, each one an event of its own: an add,
    with the name that the caller gives or leaves to the hook, a deletion,
    and the end of a detection run. *)
Inductive Op :=
| op_add (e : Entropy) (objectName : option string)
| op_delete (objectId : string)
| op_detect (ent : nat -> Entropy).

(** Whether an add is left to generate the default name. *)
Definition names_by_default (objectName : option string) : bool :=
  match objectName with
  | Some given => negb (Js.truthy given)
  | None => true
  end.

Definition catalog (videoId : string) (videos : list VideoInfo)
  : list DetectedObject :=
  match find_video videoId videos with
  | Some v => detectedObjects v
  | None => []
  end.

Definition counter (videoId : string) (videos : list VideoInfo) : Z :=
  match find_video videoId videos with
  | Some v => totalObjectsCreated v
  | None => 0
  end.

(** The video list after an operation on the video [videoId], and the
    default names that the operation generated. *)
Definition step (videoId : string) (op : Op) (videos : list VideoInfo)
  : list VideoInfo * list string :=
  match op with
  | op_add e objectName =>
      let r := Hook.addNewObjectToVideo videos e videoId objectName in
      (snd r videos, if names_by_default objectName then [fst r] else [])
  | op_delete objectId =>
      (Hook.deleteObjectFromVideo videoId objectId videos, [])
  | op_detect ent =>
      let videos' := Hook.detection_update videoId ent videos in
      (videos',
       if (0 <? List.length (catalog videoId videos))%nat then []
       else map name (catalog videoId videos'))
  end.

(** A sequence of operations: the last video list, and all the names that
    were generated, oldest first. *)
Fixpoint run (videoId : string) (ops : list Op) (videos : list VideoInfo)
  : list VideoInfo * list string :=
  match ops with
  | [] => (videos, [])
  | op :: rest =>
      let r := step videoId op videos in
      let r' := run videoId rest (fst r) in
      (fst r', (snd r ++ snd r')%list)
  end.


End Session.

(** ** server/routes/videoUpload *)

Module Server.

(** The character class [[^/.]]. *)
Definition in_class (c : ascii) : bool :=
  negb (Ascii.eqb c "/" || Ascii.eqb c ".").

Fixpoint all_in_class (s : string) : bool :=
  match s with
  | EmptyString => true
  | String c r => in_class c && all_in_class r
  end.

(** Whether the pattern [\.[^/.]+$] matches [s] from its first character
    to its end. *)
Definition matches_here (s : string) : bool :=
  match s with
  | String c r => Ascii.eqb c "." && Js.truthy r && all_in_class r
  | EmptyString => false
  end.

(** [id.replace (/\.[^/.]+$/, "")]: the leftmost position where the
    pattern matches is looked for, and the match, which runs to the end of
    the string, is removed. *)
Fixpoint strip_extension (s : string) : string :=
  if matches_here s then ""
  else
    match s with
    | EmptyString => ""
    | String c r => String c (strip_extension r)
    end.

(** Whether the character [c] occurs in [s]. *)
Fixpoint occurs (c : ascii) (s : string) : bool :=
  match s with
  | EmptyString => false
  | String d r => Ascii.eqb d c || occurs c r
  end.

Inductive Response :=
| status (code : Z) (body : string)
| download (path : string) (filename : string).

Section Route.

(** The upload directory, [path.join] and [fs.existsSync]. *)
Variable uploadDir : string.
Variable path_join : string -> string -> string.
Variable existsSync : string -> bool.

Definition vtt_path (id : string) : string :=
  path_join uploadDir (strip_extension id ++ ".vtt").

(** The handler of [GET /:id/vtt]. *)
Definition get_vtt (id : string) : Response :=
  let stem := strip_extension id in
  let vttPath := path_join uploadDir (stem ++ ".vtt") in
  if negb (existsSync vttPath) then status 404 "VTT 파일 없음"
  else download vttPath (stem ++ ".vtt").

End Route.

Inductive UploadReply :=
| upload_status (code : Z) (error : string)
| upload_json (message fileName filePath id : string).

Section Upload.

(** The upload directory, [path.join] and [path.extname]. *)
Variable uploadDir : string.
Variable path_join : string -> string -> string.
Variable extname : string -> string.

(** The [filename] function of the disk storage. *)
Definition storage_filename (now : Z) (originalname : string) : string :=
  Js.decimal now ++ extname originalname.

(** The handler of [POST /upload]; [file] is the original name of the file
    that the form carried, if it carried one. *)
Definition post_upload (file : option string) (now : Z) : UploadReply :=
  match file with
  | None => upload_status 400 "파일 없음"
  | Some originalname =>
      let fileName := storage_filename now originalname in
      upload_json "업로드 성공!" fileName (path_join uploadDir fileName)
        fileName
  end.

End Upload.

End Server.

(** ** Detection runs as a sequence of events *)

Module Detection.

(** A call of [runObjectDetection] through a callback that was made when
    [isDetecting] was [captured], a firing of the progress timer of a run,
    and a time-out that resets the progress bar. *)
Inductive Event :=
| ev_run (captured : bool) (videoId : string)
| ev_tick (videoId : string) (e : Entropy) (ent : nat -> Entropy)
| ev_reset.

Definition step (ev : Event) (s : Hook.State) : Hook.State :=
  match ev with
  | ev_run captured videoId => Hook.runObjectDetection captured videoId s
  | ev_tick videoId e ent => Hook.detection_tick videoId e ent s
  | ev_reset => Hook.detection_reset s
  end.

Definition run (evs : list Event) (s : Hook.State) : Hook.State :=
  fold_left (fun s ev => step ev s) evs s.

(** The events of one run for [videoId] that nothing interrupts: the call,
    through a callback that saw no run in progress, then the firings of its
    timer, each with its random draws. *)
Definition full_run (videoId : string)
  (ticks : list (Entropy * (nat -> Entropy))) : list Event :=
  ev_run false videoId
  :: map (fun t => ev_tick videoId (fst t) (snd t)) ticks.

(** At most one progress timer is running, and then a run is known to be
    in progress. *)
Definition single_run (s : Hook.State) : Prop :=
  match Hook.intervals s with
  | [] => True
  | [_] => Hook.isDetecting s = true
  | _ :: _ :: _ => False
  end.

(** Whether a call goes through the callback of the render it is made in,
    and whether all the calls of a sequence of events do. *)
Definition current_call (ev : Event) (s : Hook.State) : Prop :=
  match ev with
  | ev_run captured _ => captured = Hook.isDetecting s
  | _ => True
  end.

Fixpoint current_calls (evs : list Event) (s : Hook.State) : Prop :=
  match evs with
  | [] => True
  | ev :: rest => current_call ev s /\ current_calls rest (step ev s)
  end.

End Detection.

(** ** The exported functions of the hook as a sequence of events *)

Module HookEvents.

(** The callbacks that read the video list of the render that made them
    come with that list, [snapshot], which need not be the current one. *)
Inductive Event :=
| ev_upload (f : File) (res : Hook.FetchResult) (e : Entropy)
| ev_select (snapshot : list VideoInfo) (videoId : string)
| ev_close
| ev_openPlayer
| ev_showPlayer (shown : bool)
| ev_detection (d : Detection.Event)
| ev_add (snapshot : list VideoInfo) (e : Entropy) (videoId : string)
    (objectName : option string)
| ev_delete (videoId objectId : string)
| ev_update (videoId objectId : string) (updates : Hook.Updates)
| ev_deleteSelected
| ev_deleteVideo (videoId : string).

Definition step (ev : Event) (s : Hook.State) : Hook.State :=
  match ev with
  | ev_upload f res e => fst (Hook.handleFileSelect f res e s)
  | ev_select snapshot videoId =>
      if Js.truthy videoId
      then Hook.handleVideoSelect snapshot videoId s
      else Hook.closeAdminPanel s
  | ev_close => Hook.closeAdminPanel s
  | ev_openPlayer => Hook.openVideoPlayer s
  | ev_showPlayer shown => Hook.set_showVideoPlayer shown s
  | ev_detection d => Detection.step d s
  | ev_add snapshot e videoId objectName =>
      Hook.set_videos
        (snd (Hook.addNewObjectToVideo snapshot e videoId objectName)) s
  | ev_delete videoId objectId =>
      Hook.set_videos (Hook.deleteObjectFromVideo videoId objectId) s
  | ev_update videoId objectId updates =>
      Hook.set_videos (Hook.updateObjectInVideo videoId objectId updates) s
  | ev_deleteSelected => Hook.deleteSelectedObjects s
  | ev_deleteVideo videoId => fst (fst (Hook.deleteVideo videoId s))
  end.

Definition run (evs : list Event) (s : Hook.State) : Hook.State :=
  fold_left (fun s' ev => step ev s') evs s.

(** What holds of the video list all along: at most one video, whose
    catalog is no longer than its counter says and holds no selected
    object. *)
Definition video_ok (v : VideoInfo) : Prop :=
  Z.of_nat (List.length (detectedObjects v)) <= totalObjectsCreated v
  /\ forall obj, In obj (detectedObjects v) -> selected obj = false.

Definition videos_ok (videos : list VideoInfo) : Prop :=
  (List.length videos <= 1)%nat /\ forall v, In v videos -> video_ok v.

End HookEvents.

(** ** components/UploadProgress *)

Module UploadProgress.

Definition itemsPerPage : Z := 4.

(** [Math.ceil (uploads.length / itemsPerPage)]. *)
Definition totalPages {A : Type} (uploads : list A) : Z :=
  - (- Z.of_nat (List.length uploads) / itemsPerPage).

(** The uploads shown on the page [currentPage]. *)
Definition currentUploads {A : Type} (currentPage : Z) (uploads : list A)
  : list A :=
  let startIndex := (currentPage - 1) * itemsPerPage in
  let endIndex := startIndex + itemsPerPage in
  Js.slice startIndex endIndex uploads.

(** The two buttons of the pager. *)
Definition previousPage (prev : Z) : Z := Z.max (prev - 1) 1.

Definition nextPage (total : Z) (prev : Z) : Z := Z.min (prev + 1) total.

(** The numbers of the pages, from [from] on. *)
Fixpoint pages_from (from : Z) (count : nat) : list Z :=
  match count with
  | O => []
  | S n => from :: pages_from (from + 1) n
  end.

End UploadProgress.

(** ** A session used as running example *)

Module Scenario.

Definition clip : File :=
  {| file_name := "clip.mp4"; file_type := "video/mp4"; file_size := 201 |}.

Definition videoId : string := "171234.mp4".

(** The clock advances with every reading; the random draws are fixed. *)
Definition ent (n : nat) : Entropy :=
  {| now := 1723000000000 + Z.of_nat n; suffix := "k3j9x2a1b";
     rnd := 9 # 10 |}.

Definition on_player (f : Player.State -> Player.State) (a : App.State)
  : App.State :=
  {| App.hook := App.hook a; App.player := f (App.player a) |}.

(** The clip is uploaded and selected. *)
Definition uploaded : Hook.State :=
  let s :=
    fst
      (Hook.handleFileSelect clip (Hook.fetch_response true (Some videoId))
         (ent 0) Hook.initial) in
  Hook.handleVideoSelect (Hook.videos s) videoId s.

(** A detection run: the call and six ticks, the last of which ends it.
    The player is opened on the video afterwards. *)
Definition detection_run : list Detection.Event :=
  Detection.full_run videoId (repeat (ent 1, ent) 6).

Definition detected : Hook.State :=
  Hook.openVideoPlayer (Detection.run detection_run uploaded).

(** A second clip is uploaded, with success. *)
Definition other_clip : File :=
  {| file_name := "other.mp4"; file_type := "video/mp4"; file_size := 4096 |}.

Definition upload_other (s : Hook.State) : Hook.State * Toast :=
  Hook.handleFileSelect other_clip
    (Hook.fetch_response true (Some "171235.mp4")) (ent 9) s.

(** The player is opened on the uploaded video and its refresh button is
    clicked twice.  Each click starts a timer of the player that, when its
    own progress bar is full, calls the [onRunObjectDetection] of the render
    of the click, a callback of the hook made while no run was in progress.
    The first timer ends, and the run of the hook that it starts has made
    two ticks when the second timer ends. *)
Definition opened : Hook.State := Hook.openVideoPlayer uploaded.

Definition refreshed_twice : list Detection.Event :=
  [ Detection.ev_run (Hook.isDetecting opened) videoId;
    Detection.ev_tick videoId (ent 1) ent;
    Detection.ev_tick videoId (ent 2) ent;
    Detection.ev_run (Hook.isDetecting opened) videoId ].

(** The ticks of the two timers that are then running. *)
Definition both_timers : list Detection.Event :=
  repeat (Detection.ev_tick videoId (ent 3) ent) 8.

(** The player is opened on the video, its canvas is ready and drawing is
    switched on. *)
Definition canvas : option Player.Canvas :=
  Some {| Player.rect_left := 100; Player.rect_top := 50;
          Player.width := 640; Player.height := 360 |}.

(** The same canvas in a centred layout, where its bounding rectangle
    starts between two pixels. *)
Definition centred : Player.Canvas :=
  {| Player.rect_left := 100.5; Player.rect_top := 50.25;
     Player.width := 640; Player.height := 360 |}.

(** Drawing is switched on once the canvas is ready. *)
Definition start_drawing (p : Player.State) : Player.State :=
  Player.toggleDrawing (Player.initializeCanvas p).

Definition at_ (px py : Q) : Player.MouseEvent :=
  {| Player.clientX := 100 + px; Player.clientY := 50 + py |}.

(** A rectangle is dragged from (200, 150) back to (120, 60). *)
Definition draw_rectangle (p : Player.State) : Player.State :=
  Player.handleMouseUp canvas (at_ 120 60) (ent 20)
    (Player.handleMouseMove canvas (at_ 150 100)
       (Player.handleMouseDown canvas (at_ 200 150) p)).

(** The freehand mode is chosen and a stroke of four points is drawn. *)
Definition draw_path (p : Player.State) : Player.State :=
  Player.handleMouseUp canvas (at_ 300 260) (ent 21)
    (Player.handleMouseMove canvas (at_ 300 260)
       (Player.handleMouseMove canvas (at_ 340 230)
          (Player.handleMouseMove canvas (at_ 320 210)
             (Player.handleMouseDown canvas (at_ 300 200)
                (Player.setIsErasing false
                   (Player.setDrawingMode Player.mode_free p)))))).

Definition draw_two (p : Player.State) : Player.State :=
  draw_path (draw_rectangle (start_drawing p)).

(** A rectangle drag that is still held. *)
Definition mid_capture : Player.State :=
  Player.handleMouseMove canvas (at_ 150 100)
    (Player.handleMouseDown canvas (at_ 200 150)
       (draw_rectangle (start_drawing Player.initial))).

(** A freehand stroke just before the button is released. *)
Definition stroke_held : Player.State :=
  Player.handleMouseMove canvas (at_ 300 260)
    (Player.handleMouseMove canvas (at_ 340 230)
       (Player.handleMouseMove canvas (at_ 320 210)
          (Player.handleMouseDown canvas (at_ 300 200)
             (Player.setIsErasing false
                (Player.setDrawingMode Player.mode_free
                   (start_drawing Player.initial)))))).

(** A freehand stroke in the centred layout, just before the button is
    released: its first point is (199.5, 149.75) and its last one
    (229.51, 149.75), 30.01 pixels to the right. *)
Definition fine_stroke_held : Player.State :=
  Player.handleMouseMove (Some centred) (at_ 230.01 150)
    (Player.handleMouseMove (Some centred) (at_ 240 180)
       (Player.handleMouseMove (Some centred) (at_ 220 160)
          (Player.handleMouseDown (Some centred) (at_ 200 150)
             (Player.setIsErasing false
                (Player.setDrawingMode Player.mode_free
                   (start_drawing Player.initial)))))).

(** The two regions drawn, then the eraser switched on. *)
Definition rectangle_area : Player.DrawnArea :=
  {| Player.area_id := Player.region_id "rect" (ent 20);
     Player.points := []; Player.color := Player.RED;
     Player.type := Player.type_rectangle;
     Player.startPoint := Some {| Player.x := 120; Player.y := 60 |};
     Player.endPoint := Some {| Player.x := 200; Player.y := 150 |} |}.

Definition path_area : Player.DrawnArea :=
  {| Player.area_id := Player.region_id "path" (ent 21);
     Player.points :=
       [ {| Player.x := 300; Player.y := 200 |};
         {| Player.x := 320; Player.y := 210 |};
         {| Player.x := 340; Player.y := 230 |};
         {| Player.x := 300; Player.y := 260 |};
         {| Player.x := 300; Player.y := 200 |} ];
     Player.color := Player.RED; Player.type := Player.type_path;
     Player.startPoint := None; Player.endPoint := None |}.

Definition erasing : Player.State :=
  Player.toggleErasing (draw_two Player.initial).

(** An upload directory that holds the cue file of the clip only. *)
Definition uploadDir : string := "/srv/app/uploads".

Definition path_join (dir name : string) : string := dir ++ "/" ++ name.

Definition existsSync (path : string) : bool :=
  String.eqb path "/srv/app/uploads/171234.vtt".

(** The first detected object is selected in the list and deleted through
    the confirmation dialog. *)
Definition first_id : string := Hook.detected_id videoId 0 (ent 0).

Definition deleting_first : App.State :=
  on_player
    (fun p =>
       Player.setDeleteConfirmed true
         (Player.bulkDeleteClick
            (Player.toggleSelected first_id (Player.toggleObjectList p))))
    {| App.hook := detected; App.player := Player.initial |}.

Definition one_deleted : App.State := fst (App.confirmDelete deleting_first).

(** After the deletion, the two regions are drawn. *)
Definition two_regions_after_delete : App.State :=
  on_player draw_two one_deleted.

(** The video as the detection run left it. *)
Definition detected_video : VideoInfo :=
  Hook.with_counter 5
    (Hook.with_objects (Session.catalog videoId (Hook.videos detected))
       (Hook.new_video videoId clip 1723000000000)).

(** The object list is open and the second detected object is ticked in
    it; the dialog is open on the first detected object and its check box
    is set. *)
Definition second_id : string := Hook.detected_id videoId 1 (ent 1).

Definition confirming_first : App.State :=
  on_player
    (fun p =>
       Player.setDeleteConfirmed true
         (Player.handleDeleteClick first_id
            (Player.toggleSelected second_id (Player.toggleObjectList p))))
    {| App.hook := detected; App.player := Player.initial |}.

(** The second detected object is being edited: a new name is typed, with
    blanks around it, and the other fields are left blank. *)

Definition editing_second : App.State :=
  on_player (Player.setSelectedObjectId (Some second_id))
    {| App.hook := detected; App.player := Player.initial |}.

Definition form : Player.EditForm :=
  {| Player.editedObjectName := "  Bottle ";
     Player.editedObjectCode := "";
     Player.editedObjectInfo := "   ";
     Player.editedDlReservoirDomain := "";
     Player.editedCategory := "" |}.

(** A [trim] for the blanks of the example. *)
Fixpoint trim_start (s : string) : string :=
  match s with
  | String " " r => trim_start r
  | _ => s
  end.

Fixpoint trim_end (s : string) : string :=
  match s with
  | EmptyString => EmptyString
  | String c r =>
      match trim_end r with
      | EmptyString => if Ascii.eqb c " " then EmptyString else String c ""
      | kept => String c kept
      end
  end.

Definition trim (s : string) : string := trim_end (trim_start s).

(** The two regions are drawn on the detected video, and on no video. *)
Definition two_regions : App.State :=
  on_player draw_two {| App.hook := detected; App.player := Player.initial |}.

Definition two_regions_no_video : App.State :=
  {| App.hook := Hook.initial; App.player := draw_two Player.initial |}.

(** An upload followed by an add. *)
Definition upload_and_add : list HookEvents.Event :=
  [ HookEvents.ev_upload clip (Hook.fetch_response true (Some videoId))
      (ent 0);
    HookEvents.ev_add (Hook.videos uploaded) (ent 3) videoId None ].

(** The freehand mode is chosen for a stroke. *)
Definition freehand_ready : Player.State :=
  Player.selectMode Player.mode_free (start_drawing Player.initial).

End Scenario.

(** * Properties *)

(** ** Numbers *)

Section Numbers.

Lemma gt_true (a b : Q) : Js.gt a b = true <-> (b < a)%Q.
Proof.
  unfold Js.gt. rewrite negb_true_iff, <- not_true_iff_false, Qle_bool_iff.
  split; [apply Qnot_le_lt|apply Qlt_not_le].
Qed.

Lemma gt_false (a b : Q) : Js.gt a b = false <-> (a <= b)%Q.
Proof.
  unfold Js.gt. rewrite negb_false_iff. apply Qle_bool_iff.
Qed.

Lemma lt_true (a b : Q) : Js.lt a b = true <-> (a < b)%Q.
Proof. apply gt_true. Qed.

(** The comparison that stands for [Math.sqrt (s) > t] is the comparison
    of the real square root of [s] with [t]. *)
Lemma sqrt_gt_real (s t : Q) :
  (0 <= s)%Q -> (0 <= t)%Q ->
  Js.sqrt_gt s t = true <-> (Q2R t < sqrt (Q2R s))%R.
Proof.
  intros Hs Ht. unfold Js.sqrt_gt. rewrite gt_true.
  assert (Ht' : (0 <= Q2R t)%R).
  { rewrite <- RMicromega.Q2R_0. now apply Qle_Rle. }
  assert (Hs' : (0 <= Q2R s)%R).
  { rewrite <- RMicromega.Q2R_0. now apply Qle_Rle. }
  assert (Htt : (0 <= Q2R t * Q2R t)%R) by now apply Rmult_le_pos.
  rewrite <- (sqrt_square (Q2R t)) at 1 by exact Ht'.
  split; intros H.
  - apply sqrt_lt_1; try assumption. rewrite <- Q2R_mult. now apply Qlt_Rlt.
  - apply sqrt_lt_0 in H; try assumption. rewrite <- Q2R_mult in H.
    now apply Rlt_Qlt.
Qed.

End Numbers.

(** ** Names *)

Section Names.


Lemma append_cancel_l (p a b : string) : p ++ a = p ++ b -> a = b.
Proof.
  induction p as [|c p IH]; simpl; intros H; [exact H|].
  injection H as H. auto.
Qed.




End Names.

(** ** The video list under the updaters of the hook *)

Section VideoList.

Lemma with_objects_same (v : VideoInfo) :
  Hook.with_objects (detectedObjects v) v = v.
Proof. now destruct v. Qed.

(** An updater that keeps the ids of the videos commutes with the search
    for a video. *)
Lemma find_video_map (f : VideoInfo -> VideoInfo) (i : string)
  (videos : list VideoInfo) :
  (forall v, vid (f v) = vid v) ->
  find_video i (map f videos) = option_map f (find_video i videos).
Proof.
  intros Hf. unfold find_video.
  induction videos as [|v vs IH]; simpl; [reflexivity|].
  rewrite Hf. destruct (String.eqb (vid v) i); [reflexivity|exact IH].
Qed.

Lemma find_video_id (i : string) (videos : list VideoInfo) (v : VideoInfo) :
  find_video i videos = Some v -> vid v = i.
Proof.
  unfold find_video. intros H. apply find_some in H.
  now apply String.eqb_eq.
Qed.

Lemma map_id_on {A : Type} (f : A -> A) (l : list A) :
  (forall a, In a l -> f a = a) -> map f l = l.
Proof.
  induction l as [|a l IH]; simpl; intros H; [reflexivity|].
  rewrite H by now left. f_equal. apply IH. intros b Hb. apply H. now right.
Qed.

Lemma find_delete (videoId objectId : string) (videos : list VideoInfo) :
  find_video videoId (Hook.deleteObjectFromVideo videoId objectId videos)
  = option_map
      (fun v =>
         Hook.with_objects
           (filter (fun obj => negb (String.eqb (id obj) objectId))
              (detectedObjects v)) v)
      (find_video videoId videos).
Proof.
  unfold Hook.deleteObjectFromVideo.
  rewrite find_video_map.
  - destruct (find_video videoId videos) as [v|] eqn:E; [|reflexivity].
    simpl. apply find_video_id in E. rewrite E, String.eqb_refl.
    reflexivity.
  - intros v. now destruct (String.eqb (vid v) videoId).
Qed.

Lemma find_add (snapshot : list VideoInfo) (e : Entropy)
  (videoId : string) (objectName : option string)
  (videos : list VideoInfo) (v : VideoInfo) :
  find_video videoId videos = Some v ->
  exists o,
    name o = fst (Hook.addNewObjectToVideo snapshot e videoId objectName)
    /\ find_video videoId
         (snd (Hook.addNewObjectToVideo snapshot e videoId objectName)
            videos)
       = Some
           (Hook.with_objects (detectedObjects v ++ [o])
              (Hook.with_counter (totalObjectsCreated v + 1) v)).
Proof.
  intros E. unfold Hook.addNewObjectToVideo. simpl.
  eexists. split; [|rewrite find_video_map].
  2:{ rewrite E. simpl. apply find_video_id in E.
      rewrite E, String.eqb_refl. reflexivity. }
  - reflexivity.
  - intros w. now destruct (String.eqb (vid w) videoId).
Qed.

Lemma find_detect (videoId : string) (ent : nat -> Entropy)
  (videos : list VideoInfo) (v : VideoInfo) :
  find_video videoId videos = Some v ->
  find_video videoId (Hook.detection_update videoId ent videos)
  = Some
      (if (0 <? List.length (detectedObjects v))%nat then v
       else
         Hook.with_counter (Z.max (totalObjectsCreated v) 5)
           (Hook.with_objects
              (Js.mapi
                 (fun obj index =>
                    Hook.with_name (object_name (Z.of_nat index + 1))
                      (obj (Hook.detected_id videoId index (ent index))))
                 Hook.DEFAULT_OBJECTS)
              v)).
Proof.
  intros E. unfold Hook.detection_update. rewrite find_video_map.
  - rewrite E. simpl option_map. apply find_video_id in E.
    rewrite E, String.eqb_refl. reflexivity.
  - intros w. destruct (String.eqb (vid w) videoId); simpl; [|reflexivity].
    now destruct (0 <? List.length (detectedObjects w))%nat.
Qed.

(** The render that follows a handler of the player leaves the state of
    the hook as it is, and the state of the player too unless the player is
    open on a video and an updater was called. *)
Lemma rendered_hook (calls : nat) (a : App.State) :
  App.hook (App.rendered calls a) = App.hook a.
Proof.
  unfold App.rendered. destruct (App.video a); [|reflexivity].
  now destruct (App.isOpen a && (0 <? calls)%nat).
Qed.

Lemma rendered_no_call (a : App.State) : App.rendered 0 a = a.
Proof.
  unfold App.rendered. destruct (App.video a); [|reflexivity].
  now rewrite andb_false_r.
Qed.

Lemma rendered_player (calls : nat) (a : App.State) :
  App.player (App.rendered calls a) = App.player a
  \/ App.player (App.rendered calls a)
     = Player.resetForVideo (App.player a).
Proof.
  unfold App.rendered. destruct (App.video a); [|now left].
  destruct (App.isOpen a && (0 <? calls)%nat); [now right|now left].
Qed.

(** An updater that keeps the ids of the videos leaves the selected video
    selected, and the player that is open on it is reset as soon as the
    updater was called. *)
Lemma selected_after_map (f : VideoInfo -> VideoInfo) (a : App.State)
  (pl : Player.State) (v : VideoInfo) :
  (forall w, vid (f w) = vid w) ->
  App.video a = Some v ->
  App.video {| App.hook := Hook.set_videos (map f) (App.hook a);
               App.player := pl |}
  = Some (f v).
Proof.
  intros Hf. unfold App.video, Hook.selectedVideo. simpl.
  destruct (Hook.selectedVideoId (App.hook a)) as [i|]; [|discriminate].
  intros Hv. now rewrite find_video_map, Hv.
Qed.

Lemma rendered_open (calls : nat) (a : App.State) (v : VideoInfo) :
  App.isOpen a = true -> App.video a = Some v -> (0 < calls)%nat ->
  App.rendered calls a
  = {| App.hook := App.hook a;
       App.player := Player.resetForVideo (App.player a) |}.
Proof.
  intros Hopen Hv Hcalls. unfold App.rendered. rewrite Hv, Hopen.
  destruct (Nat.ltb_spec 0 calls); [reflexivity|lia].
Qed.

Lemma rendered_no_regions (calls : nat) (a : App.State) :
  Player.drawnAreas (App.player a) = [] ->
  Player.drawnAreas (App.player (App.rendered calls a)) = [].
Proof.
  intros H. destruct (rendered_player calls a) as [E|E]; rewrite E;
    [exact H|reflexivity].
Qed.

End VideoList.

(** In a goal about the state after a handler of the player: the state of
    the hook is the one that the handler left, and the state of the player
    is the one that it left, reset by the effect or not. *)
Ltac after_render :=
  rewrite ?rendered_hook;
  try match goal with
      | |- context [App.player (App.rendered ?calls ?a)] =>
          let E := fresh "E" in
          destruct (rendered_player calls a) as [E|E]; rewrite E; clear E
      end.

(** ** The object catalog *)

Section Catalog.

Lemma filter_filter {A : Type} (p q : A -> bool) (l : list A) :
  filter q (filter p l) = filter (fun a => p a && q a) l.
Proof.
  induction l as [|a l IH]; simpl; [reflexivity|].
  destruct (p a); simpl; [destruct (q a)|]; now rewrite IH.
Qed.

(** Deleting the ids of a list one after the other is one filter on the
    catalog of the video. *)
Lemma deleteEach_map (videoId : string) (ids : list string)
  (videos : list VideoInfo) :
  Player.deleteEach Hook.deleteObjectFromVideo videoId ids videos
  = map (fun video =>
           if String.eqb (vid video) videoId
           then
             Hook.with_objects
               (filter
                  (fun obj => negb (existsb (String.eqb (id obj)) ids))
                  (detectedObjects video))
               video
           else video)
      videos.
Proof.
  revert videos. induction ids as [|i ids IH]; intros videos; simpl.
  - symmetry. apply map_id_on. intros v _.
    destruct (String.eqb (vid v) videoId); [|reflexivity].
    assert (E : forall l : list DetectedObject,
               filter (fun _ => true) l = l).
    { induction l as [|o l IHl]; simpl; now f_equal. }
    rewrite E. apply with_objects_same.
  - rewrite IH. unfold Hook.deleteObjectFromVideo. rewrite map_map.
    apply map_ext. intros v.
    destruct (String.eqb (vid v) videoId) eqn:E; simpl; rewrite E;
      [|reflexivity].
    unfold Hook.with_objects. simpl. f_equal.
    rewrite filter_filter. apply filter_ext. intros o.
    now rewrite negb_orb.
Qed.

(** C6.  A confirmed bulk deletion removes from the catalog of the video
    exactly the objects whose ids are selected: the catalog that is left is
    the old one filtered, so the other objects stay, in their order; the
    other videos and the creation counter are not touched; an id that names
    no object changes nothing, and the success notice is given in every
    case. *)
Theorem bulk_delete_removes_exactly_selected (a : App.State) (v : VideoInfo) :
  App.video a = Some v ->
  Player.objectToDelete (App.player a) = Some Player.BULK_DELETE ->
  Player.deleteConfirmed (App.player a) = true ->
  let ids := Player.selectedObjectIds (App.player a) in
  let videos' := Hook.videos (App.hook (fst (App.confirmDelete a))) in
  videos'
  = map (fun video =>
           if String.eqb (vid video) (vid v)
           then
             Hook.with_objects
               (filter
                  (fun obj => negb (existsb (String.eqb (id obj)) ids))
                  (detectedObjects video))
               video
           else video)
      (Hook.videos (App.hook a))
  /\ Session.catalog (vid v) videos'
     = filter (fun obj => negb (existsb (String.eqb (id obj)) ids))
         (detectedObjects v)
  /\ (forall obj,
        In obj (Session.catalog (vid v) videos')
        <-> In obj (detectedObjects v) /\ ~ In (id obj) ids)
  /\ Session.counter (vid v) videos' = totalObjectsCreated v
  /\ snd (App.confirmDelete a)
     = Some
         (toast_success
            (Js.decimal (Z.of_nat (List.length ids))
             ++ "개 객체가 삭제되었습니다.")).
Proof.
  intros Hv Hdel Hconf ids videos'.
  assert (Hvideos :
    videos'
    = Player.deleteEach Hook.deleteObjectFromVideo (vid v) ids
        (Hook.videos (App.hook a))).
  { subst videos'. unfold App.confirmDelete. cbn [fst].
    rewrite rendered_hook. unfold Player.confirmDelete.
    rewrite Hv, Hdel, Hconf. reflexivity. }
  assert (Hfind : find_video (vid v) (Hook.videos (App.hook a)) = Some v).
  { unfold App.video, Hook.selectedVideo in Hv.
    destruct (Hook.selectedVideoId (App.hook a)) as [i|]; [|discriminate].
    pose proof (find_video_id _ _ _ Hv) as Hi. now rewrite Hi. }
  rewrite deleteEach_map in Hvideos.
  assert (Hcat :
    find_video (vid v) videos'
    = Some
        (Hook.with_objects
           (filter (fun obj => negb (existsb (String.eqb (id obj)) ids))
              (detectedObjects v)) v)).
  { rewrite Hvideos, find_video_map.
    - rewrite Hfind. simpl. now rewrite String.eqb_refl.
    - intros w. now destruct (String.eqb (vid w) (vid v)). }
  split; [exact Hvideos|].
  split; [unfold Session.catalog; now rewrite Hcat|].
  split.
  - intros obj. unfold Session.catalog. rewrite Hcat. simpl.
    rewrite filter_In, negb_true_iff.
    split; intros [Hin Hno]; (split; [exact Hin|]).
    + intros Hid. apply Bool.not_true_iff_false in Hno. apply Hno.
      apply existsb_exists. exists (id obj). split; [exact Hid|].
      apply String.eqb_refl.
    + apply Bool.not_true_iff_false. intros Hex.
      apply existsb_exists in Hex. destruct Hex as [i [Hi He]].
      apply String.eqb_eq in He. now subst i.
  - split; [unfold Session.counter; now rewrite Hcat|].
    unfold App.confirmDelete, Player.confirmDelete.
    rewrite Hv, Hdel, Hconf. reflexivity.
Qed.

(** C7.  [updateObjectInVideo] replaces every object of the video that has
    the id by its merge with the patch and keeps the others; the merge
    takes a field from the patch when the patch has it and from the object
    otherwise, and never touches the id, the confidence or the selection
    flag; when no object of the video has the id, the video list stays as
    it is. *)
Theorem update_merges_present_fields_only (videoId objectId : string)
  (u : Hook.Updates) (videos : list VideoInfo) :
  (forall v,
     find_video videoId videos = Some v ->
     Session.catalog videoId
       (Hook.updateObjectInVideo videoId objectId u videos)
     = map (fun obj =>
              if String.eqb (id obj) objectId then Hook.spread obj u
              else obj)
         (detectedObjects v)
     /\ Session.counter videoId
          (Hook.updateObjectInVideo videoId objectId u videos)
        = totalObjectsCreated v)
  /\ (forall obj,
        id (Hook.spread obj u) = id obj
        /\ confidence (Hook.spread obj u) = confidence obj
        /\ selected (Hook.spread obj u) = selected obj
        /\ name (Hook.spread obj u)
           = match Hook.u_name u with Some n => n | None => name obj end
        /\ code (Hook.spread obj u)
           = match Hook.u_code u with
             | Some c => Some c
             | None => code obj
             end
        /\ additionalInfo (Hook.spread obj u)
           = match Hook.u_additionalInfo u with
             | Some i => Some i
             | None => additionalInfo obj
             end
        /\ dlReservoirDomain (Hook.spread obj u)
           = match Hook.u_dlReservoirDomain u with
             | Some d => Some d
             | None => dlReservoirDomain obj
             end
        /\ category (Hook.spread obj u)
           = match Hook.u_category u with
             | Some c => Some c
             | None => category obj
             end)
  /\ ((forall v obj,
         In v videos -> vid v = videoId -> In obj (detectedObjects v) ->
         id obj <> objectId) ->
      Hook.updateObjectInVideo videoId objectId u videos = videos).
Proof.
  split; [|split].
  - intros v Hv. unfold Session.catalog, Session.counter.
    unfold Hook.updateObjectInVideo. rewrite find_video_map.
    + rewrite Hv. simpl. apply find_video_id in Hv.
      rewrite Hv, String.eqb_refl. split; reflexivity.
    + intros w. now destruct (String.eqb (vid w) videoId).
  - intros obj. unfold Hook.spread, Hook.spread_opt. simpl.
    repeat split;
      match goal with
      | |- context [match ?f u with _ => _ end] => now destruct (f u)
      end.
  - intros Hno. unfold Hook.updateObjectInVideo. apply map_id_on.
    intros v Hin. destruct (String.eqb (vid v) videoId) eqn:E;
      [|reflexivity].
    apply String.eqb_eq in E.
    rewrite map_id_on; [apply with_objects_same|].
    intros obj Hobj.
    destruct (String.eqb (id obj) objectId) eqn:Eo; [|reflexivity].
    apply String.eqb_eq in Eo. exfalso. exact (Hno v obj Hin E Hobj Eo).
Qed.

End Catalog.

(** The deletion of the running example: the first detected object goes,
    the four others stay. *)
Lemma bulk_delete_removes_exactly_selected_witness :
  map name
    (Session.catalog Scenario.videoId
       (Hook.videos (App.hook Scenario.one_deleted)))
  = ["Object(2)"; "Object(3)"; "Object(4)"; "Object(5)"].
Proof.
  pose proof
    (bulk_delete_removes_exactly_selected Scenario.deleting_first
       (Hook.with_counter 5
          (Hook.with_objects
             (Session.catalog Scenario.videoId
                (Hook.videos Scenario.detected))
             (Hook.new_video Scenario.videoId Scenario.clip 1723000000000))))
    as H.
  destruct H as (_ & H & _).
  - vm_compute. reflexivity.
  - vm_compute. reflexivity.
  - vm_compute. reflexivity.
  - unfold Scenario.one_deleted. cbv zeta in H.
    change (vid _) with Scenario.videoId in H. rewrite H.
    vm_compute. reflexivity.
Defined.

(** A patch of the name of the second detected object, and a patch for an
    id that no object has. *)
Lemma update_merges_present_fields_only_witness :
  map name
    (Session.catalog Scenario.videoId
       (Hook.updateObjectInVideo Scenario.videoId
          (Hook.detected_id Scenario.videoId 1 (Scenario.ent 1))
          {| Hook.u_name := Some "Bottle"; Hook.u_code := None;
             Hook.u_additionalInfo := None;
             Hook.u_dlReservoirDomain := None; Hook.u_category := None |}
          (Hook.videos Scenario.detected)))
  = ["Object(1)"; "Bottle"; "Object(3)"; "Object(4)"; "Object(5)"]
  /\ Hook.updateObjectInVideo Scenario.videoId "no-such-object"
       {| Hook.u_name := Some "Bottle"; Hook.u_code := None;
          Hook.u_additionalInfo := None;
          Hook.u_dlReservoirDomain := None; Hook.u_category := None |}
       (Hook.videos Scenario.detected)
     = Hook.videos Scenario.detected.
Proof.
  split.
  - destruct (proj1
                (update_merges_present_fields_only Scenario.videoId
                   (Hook.detected_id Scenario.videoId 1 (Scenario.ent 1))
                   {| Hook.u_name := Some "Bottle"; Hook.u_code := None;
                      Hook.u_additionalInfo := None;
                      Hook.u_dlReservoirDomain := None;
                      Hook.u_category := None |}
                   (Hook.videos Scenario.detected))
                (Hook.with_counter 5
                   (Hook.with_objects
                      (Session.catalog Scenario.videoId
                         (Hook.videos Scenario.detected))
                      (Hook.new_video Scenario.videoId Scenario.clip
                         1723000000000))))
      as [H _].
    + vm_compute. reflexivity.
    + rewrite H. vm_compute. reflexivity.
  - apply (proj2 (proj2
             (update_merges_present_fields_only Scenario.videoId
                "no-such-object"
                {| Hook.u_name := Some "Bottle"; Hook.u_code := None;
                   Hook.u_additionalInfo := None;
                   Hook.u_dlReservoirDomain := None;
                   Hook.u_category := None |}
                (Hook.videos Scenario.detected)))).
    intros v obj Hv _ Hobj. vm_compute in Hv. destruct Hv as [<-|[]].
    vm_compute in Hobj.
    repeat (destruct Hobj as [<-|Hobj]; [discriminate|]).
    destruct Hobj.
Defined.

(** ** The creation counter and the default names *)

Section Numbering.

Variable videoId : string.








End Numbering.



(** ** Detection runs *)

Section DetectionRuns.

Lemma detection_update_populated (videoId : string) (ent : nat -> Entropy)
  (videos : list VideoInfo) :
  (forall v, In v videos -> vid v = videoId -> detectedObjects v <> []) ->
  Hook.detection_update videoId ent videos = videos.
Proof.
  intros H. unfold Hook.detection_update. apply map_id_on. intros v Hin.
  destruct (String.eqb (vid v) videoId) eqn:E; simpl; [|reflexivity].
  apply String.eqb_eq in E. specialize (H v Hin E).
  destruct (detectedObjects v); [contradiction|reflexivity].
Qed.

Lemma run_videos (captured : bool) (videoId : string) (s : Hook.State) :
  Hook.videos (Hook.runObjectDetection captured videoId s) = Hook.videos s.
Proof.
  unfold Hook.runObjectDetection. now destruct (_ || _).
Qed.

Lemma reset_videos (s : Hook.State) :
  Hook.videos (Hook.detection_reset s) = Hook.videos s.
Proof.
  unfold Hook.detection_reset. now destruct (Hook.resets s).
Qed.

(** A video with objects is found unchanged after any event of a detection
    run, also a tick that ends a run for it. *)
Lemma step_keeps_populated (ev : Detection.Event) (s : Hook.State)
  (videoId : string) (v : VideoInfo) :
  find_video videoId (Hook.videos s) = Some v ->
  detectedObjects v <> [] ->
  find_video videoId (Hook.videos (Detection.step ev s)) = Some v.
Proof.
  intros Hfind Hobjs. destruct ev as [captured i|i e ent|]; simpl.
  - now rewrite run_videos.
  - unfold Hook.detection_tick.
    destruct (negb (existsb _ _)); [exact Hfind|].
    destruct (Qle_bool _ _); simpl; [|exact Hfind].
    unfold Hook.detection_update. rewrite find_video_map.
    + rewrite Hfind. simpl.
      destruct (negb (String.eqb (vid v) i)); [reflexivity|].
      destruct (detectedObjects v); [contradiction|reflexivity].
    + intros w. destruct (negb (String.eqb (vid w) i)); [reflexivity|].
      now destruct (0 <? List.length (detectedObjects w))%nat.
  - now rewrite reset_videos.
Qed.

(** Detection is idempotent on the catalog: the objects of a video that has
    some are the same after any sequence of calls, ticks and resets,
    whichever callbacks the calls go through and however the runs
    overlap. *)
Lemma populated_catalog_kept (evs : list Detection.Event) (s : Hook.State)
  (videoId : string) (v : VideoInfo) :
  find_video videoId (Hook.videos s) = Some v ->
  detectedObjects v <> [] ->
  find_video videoId (Hook.videos (Detection.run evs s)) = Some v.
Proof.
  revert s. induction evs as [|ev evs IH]; intros s Hfind Hobjs;
    [exact Hfind|].
  simpl. apply IH; [|exact Hobjs]. now apply step_keeps_populated.
Qed.

Lemma ticks_videos_populated (videoId : string)
  (ticks : list (Entropy * (nat -> Entropy))) (s : Hook.State) :
  (forall v,
     In v (Hook.videos s) -> vid v = videoId -> detectedObjects v <> []) ->
  Hook.videos
    (Detection.run
       (map (fun t => Detection.ev_tick videoId (fst t) (snd t)) ticks) s)
  = Hook.videos s.
Proof.
  assert (Htick : forall e ent t,
            (forall v, In v (Hook.videos t) -> vid v = videoId ->
                       detectedObjects v <> []) ->
            Hook.videos (Hook.detection_tick videoId e ent t)
            = Hook.videos t).
  { intros e ent t H. unfold Hook.detection_tick.
    destruct (existsb _ _); simpl; [|reflexivity].
    destruct (Qle_bool _ _); simpl; [|reflexivity].
    now apply detection_update_populated. }
  revert s. induction ticks as [|t ticks IH]; intros s H; [reflexivity|].
  simpl. unfold Detection.run in IH. rewrite IH.
  - now apply Htick.
  - now rewrite Htick.
Qed.

Lemma clearInterval_single (videoId x : string) :
  existsb (String.eqb videoId) [x] = true ->
  Hook.clearInterval videoId [x] = [].
Proof.
  simpl. rewrite orb_false_r, String.eqb_sym. now intros ->.
Qed.

(** Through the callback of the current render, a call during a run
    changes nothing. *)
Lemma current_callback_is_exclusive (videoId : string) (s : Hook.State) :
  Hook.isDetecting s = true ->
  Hook.runObjectDetection (Hook.isDetecting s) videoId s = s.
Proof.
  intros D. unfold Hook.runObjectDetection. now rewrite D, orb_true_r.
Qed.

(** As long as every call goes through the callback of the render it is
    made in, at most one progress timer is running. *)
Lemma single_run_step (ev : Detection.Event) (s : Hook.State) :
  Detection.current_call ev s ->
  Detection.single_run s -> Detection.single_run (Detection.step ev s).
Proof.
  unfold Detection.single_run. intros Hcur H.
  destruct ev as [captured videoId|videoId e ent|]; simpl.
  - simpl in Hcur. subst captured. unfold Hook.runObjectDetection.
    destruct (negb (Js.truthy videoId)); simpl; [exact H|].
    destruct (Hook.isDetecting s) eqn:D; simpl; [now rewrite D|].
    destruct (Hook.intervals s) as [|x [|y l]]; simpl;
      [reflexivity|discriminate H|contradiction].
  - unfold Hook.detection_tick.
    destruct (existsb _ _) eqn:Ex; simpl; [|exact H].
    destruct (Qle_bool _ _); simpl; [|exact H].
    destruct (Hook.intervals s) as [|x [|y l]];
      [discriminate Ex| |contradiction].
    now rewrite clearInterval_single.
  - unfold Hook.detection_reset. now destruct (Hook.resets s).
Qed.

Lemma single_run_run (evs : list Detection.Event) (s : Hook.State) :
  Detection.current_calls evs s ->
  Detection.single_run s -> Detection.single_run (Detection.run evs s).
Proof.
  revert s. induction evs as [|ev evs IH]; intros s Hcur H; [exact H|].
  destruct Hcur as [Hev Hrest]. simpl. apply IH; [exact Hrest|].
  now apply single_run_step.
Qed.

(** C5.  In the session of the running example the refresh button of the
    player is clicked twice.  The two calls of [runObjectDetection] that
    follow both go through a callback made while [isDetecting] was false.
    The first starts a run.  During that run, a call through the callback
    of the current render would change nothing, but the second call does
    start a run: two progress timers are then running and the progress,
    which had reached 37, is back at 0.  The catalog is filled once all the
    same: when both timers have ended it holds the five default objects,
    and a further run leaves it as it is. *)
Theorem stale_callback_starts_second_run :
  let captured := Hook.isDetecting Scenario.opened in
  let running :=
    Detection.run (removelast Scenario.refreshed_twice) Scenario.opened in
  let overlapping :=
    Detection.run Scenario.refreshed_twice Scenario.opened in
  let ended := Detection.run Scenario.both_timers overlapping in
  captured = false
  /\ (Hook.isDetecting running = true
      /\ Hook.intervals running = [Scenario.videoId]
      /\ Qeq (Hook.detectionProgress running) 37)
  /\ Hook.runObjectDetection (Hook.isDetecting running) Scenario.videoId
       running
     = running
  /\ (overlapping = Hook.runObjectDetection captured Scenario.videoId running
      /\ Hook.intervals overlapping = [Scenario.videoId; Scenario.videoId]
      /\ Hook.detectionProgress overlapping = 0%Q)
  /\ (Hook.intervals ended = [] /\ Hook.isDetecting ended = false
      /\ map name (Session.catalog Scenario.videoId (Hook.videos ended))
         = ["Object(1)"; "Object(2)"; "Object(3)"; "Object(4)"; "Object(5)"])
  /\ Hook.videos
       (Detection.run Scenario.detection_run ended)
     = Hook.videos ended.
Proof.
  vm_compute. repeat split.
Qed.

End DetectionRuns.

(** ** Committing drawn regions *)

Section ExportRegions.

Lemma object_name_truthy (n : Z) : Js.truthy (object_name n) = true.
Proof. reflexivity. Qed.

Lemma selected_is_found (a : App.State) (v : VideoInfo) :
  App.video a = Some v ->
  find_video (vid v) (Hook.videos (App.hook a)) = Some v.
Proof.
  unfold App.video, Hook.selectedVideo. intros Hv.
  destruct (Hook.selectedVideoId (App.hook a)) as [i|]; [|discriminate].
  pose proof (find_video_id _ _ _ Hv) as Hi. now rewrite Hi.
Qed.

(** What the export button does with two drawn regions: two objects are
    appended to the catalog of the selected video and its counter goes up
    by two, but the names, also the ones announced, are numbered from the
    length of the catalog. *)
Lemma export_two_regions (a : App.State) (v : VideoInfo)
  (r1 r2 : Player.DrawnArea) (ent : nat -> Entropy) (vtt_ok : bool) :
  App.video a = Some v ->
  Player.drawnAreas (App.player a) = [r1; r2] ->
  let len := Z.of_nat (List.length (detectedObjects v)) in
  let names := [object_name (len + 1); object_name (len + 2)] in
  let result := App.saveDrawings ent vtt_ok a in
  snd (fst result) = names
  /\ (exists o1 o2,
        map name [o1; o2] = names
        /\ find_video (vid v) (Hook.videos (App.hook (fst (fst result))))
           = Some
               (Hook.with_objects (detectedObjects v ++ [o1; o2])
                  (Hook.with_counter (totalObjectsCreated v + 2) v)))
  /\ Player.drawnAreas (App.player (fst (fst result))) = []
  /\ hd_error (snd result)
     = Some
         (toast_success
            ("2개의 새로운 객체가 탐지되었습니다: "
             ++ Js.join ", " names)).
Proof.
  intros Hv Hareas len names result.
  pose proof (selected_is_found a v Hv) as Hfind.
  assert (Hobjs : App.detectedObjects a = detectedObjects v).
  { unfold App.detectedObjects, Hook.selectedVideoObjects.
    unfold App.video in Hv. now rewrite Hv. }
  subst result. unfold App.saveDrawings. cbn [fst snd].
  rewrite rendered_hook.
  unfold Player.saveDrawingsAndDownloadWebVTT.
  rewrite Hareas, Hv, Hobjs. cbn [Player.addDrawnAreas fst snd].
  cbn [Hook.addNewObjectToVideo fst snd Js.or_else].
  rewrite !object_name_truthy.
  replace (Z.of_nat (List.length (detectedObjects v)) + Z.of_nat 1 + 1)
    with (len + 2) by (subst len; lia).
  replace (Z.of_nat (List.length (detectedObjects v)) + Z.of_nat 0 + 1)
    with (len + 1) by (subst len; lia).
  split; [reflexivity|].
  split; [|split; [apply rendered_no_regions|]; reflexivity].
  eexists _, _. split.
  2:{ cbn [Player.save_videos Hook.set_videos Hook.videos App.hook fst snd].
      rewrite map_map, find_video_map.
      - rewrite Hfind. cbn [option_map]. rewrite String.eqb_refl.
        cbn [vid Hook.with_objects Hook.with_counter]. rewrite String.eqb_refl.
        unfold Hook.with_objects, Hook.with_counter. cbn.
        rewrite <- app_assoc.
        replace (totalObjectsCreated v + 1 + 1)
          with (totalObjectsCreated v + 2) by lia.
        reflexivity.
      - intros w. destruct (String.eqb (vid w) (vid v)) eqn:E; cbn;
          rewrite E; reflexivity. }
  reflexivity.
Qed.

(** C1.  In the session of the running example, where five objects were
    detected and the first one deleted, the counter is 5 when the rectangle
    and the path are exported: two objects are committed and the counter
    goes to 7, but they are named and announced as [Object(5)] and
    [Object(6)], not [Object(6)] and [Object(7)], and the catalog then holds
    the name [Object(5)] twice. *)
Theorem export_after_delete_numbers_from_length :
  let a := Scenario.two_regions_after_delete in
  let result := App.saveDrawings Scenario.ent true a in
  let videos' := Hook.videos (App.hook (fst (fst result))) in
  List.length (Player.drawnAreas (App.player a)) = 2%nat
  /\ Session.counter Scenario.videoId (Hook.videos (App.hook a)) = 5
  /\ map name (Session.catalog Scenario.videoId (Hook.videos (App.hook a)))
     = ["Object(2)"; "Object(3)"; "Object(4)"; "Object(5)"]
  /\ snd (fst result) = [object_name 5; object_name 6]
  /\ snd (fst result) <> [object_name (5 + 1); object_name (5 + 2)]
  /\ map name (Session.catalog Scenario.videoId videos')
     = ["Object(2)"; "Object(3)"; "Object(4)"; "Object(5)"; "Object(5)";
        "Object(6)"]
  /\ Session.counter Scenario.videoId videos' = 7.
Proof.
  vm_compute. repeat split. discriminate.
Qed.

End ExportRegions.

(** ** Uploads *)

Section Uploads.

(** What an upload does to the video list.  A successful upload makes it
    the single new session, with an empty catalog and a counter of 0,
    whatever the list held; so does the simulated upload when its
    processing ends, after it emptied the list at its start.  A rejected
    or failed upload leaves the list as it is. *)
Lemma upload_replaces_video_list (f : File) (e : Entropy)
  (rid : option string) (s : Hook.State) :
  prefix "video/" (file_type f) = true ->
  file_size f <= Hook.MAX_FILE_SIZE ->
  Hook.videos
    (fst (Hook.handleFileSelect f (Hook.fetch_response true rid) e s))
  = [ Hook.new_video (Js.or_else rid ("video-" ++ Js.decimal (now e))) f
        (now e) ]
  /\ (forall ok m,
        Hook.videos
          (fst (Hook.handleFileSelect f (Hook.fetch_response false ok) e s))
        = Hook.videos s
        /\ Hook.videos (fst (Hook.handleFileSelect f (Hook.fetch_throws m) e s))
           = Hook.videos s)
  /\ Hook.videos (Hook.simulateUpload f e s) = []
  /\ (forall uploadId date,
        Hook.videos (Hook.simulateUpload_completed uploadId f date s)
        = [ Hook.new_video uploadId f date ]).
Proof.
  intros Htype Hsize. unfold Hook.handleFileSelect.
  rewrite Htype. simpl negb. cbv iota.
  destruct (Z.ltb_spec Hook.MAX_FILE_SIZE (file_size f)) as [Hlt|_]; [lia|].
  repeat split.
Qed.

(** C9.  In the session of the running example a first video is uploaded
    and selected, and then a second one is uploaded, with success.  The
    video list then holds the second video alone: the first one is no
    longer found in it, while it stays the selected id of the hook, so
    that no video is selected any more. *)
Theorem second_upload_drops_first_video :
  let first := Scenario.uploaded in
  let second := fst (Scenario.upload_other first) in
  find_video "171234.mp4" (Hook.videos first) <> None
  /\ snd (Scenario.upload_other first)
     = toast_success "동영상 업로드 및 처리가 완료되었습니다!"
  /\ map vid (Hook.videos second) = ["171235.mp4"]
  /\ find_video "171234.mp4" (Hook.videos second) = None
  /\ ~ (find_video "171234.mp4" (Hook.videos second) <> None
        /\ find_video "171235.mp4" (Hook.videos second) <> None)
  /\ Hook.selectedVideoId second = Some "171234.mp4"
  /\ Hook.selectedVideo second = None.
Proof.
  vm_compute. repeat split; try discriminate. intros [H _]. now apply H.
Qed.

End Uploads.

(** ** Region capture *)

Section Capture.

Variable canvas : option Player.Canvas.

(** What a pointer move leaves alone. *)
Lemma move_frame (e : Player.MouseEvent) (s : Player.State) :
  let s' := Player.handleMouseMove canvas e s in
  Player.isDrawing s' = Player.isDrawing s
  /\ Player.canvasInitialized s' = Player.canvasInitialized s
  /\ Player.isErasing s' = Player.isErasing s
  /\ Player.isMouseDown s' = Player.isMouseDown s
  /\ Player.drawingMode s' = Player.drawingMode s
  /\ Player.rectangleStart s' = Player.rectangleStart s
  /\ Player.drawnAreas s' = Player.drawnAreas s.
Proof.
  destruct s as [drawing areas path down mode start preview erasing ready
                   ? ? ? ? ? ? ? ? ?].
  cbv zeta. unfold Player.handleMouseMove. simpl.
  destruct drawing, down, ready, canvas, erasing, mode, start;
    simpl; repeat split.
Qed.

Lemma moves_frame (moves : list Player.MouseEvent) (s : Player.State) :
  let s' :=
    fold_left (fun s' e => Player.handleMouseMove canvas e s') moves s in
  Player.isDrawing s' = Player.isDrawing s
  /\ Player.canvasInitialized s' = Player.canvasInitialized s
  /\ Player.isErasing s' = Player.isErasing s
  /\ Player.isMouseDown s' = Player.isMouseDown s
  /\ Player.drawingMode s' = Player.drawingMode s
  /\ Player.rectangleStart s' = Player.rectangleStart s
  /\ Player.drawnAreas s' = Player.drawnAreas s.
Proof.
  revert s. induction moves as [|e moves IH]; intros s; simpl;
    [repeat split|].
  destruct (IH (Player.handleMouseMove canvas e s))
    as (A1 & A2 & A3 & A4 & A5 & A6 & A7).
  destruct (move_frame e s) as (B1 & B2 & B3 & B4 & B5 & B6 & B7).
  repeat split; etransitivity; eassumption.
Qed.

(** The state after a drag in rectangle mode, whatever its size. *)
Lemma rectangle_gesture (down up : Player.MouseEvent)
  (moves : list Player.MouseEvent) (ent : Entropy) (s : Player.State) :
  Player.isDrawing s = true ->
  Player.canvasInitialized s = true ->
  Player.isErasing s = false ->
  Player.drawingMode s = Player.mode_rectangle ->
  let p := Player.getCanvasCoordinates canvas down in
  let q := Player.getCanvasCoordinates canvas up in
  let s' := Player.gesture canvas down moves up ent s in
  Player.isDrawing s' = true
  /\ Player.canvasInitialized s' = true
  /\ Player.isErasing s' = false
  /\ Player.rectangleStart s' = None
  /\ Player.currentRectangle s' = None
  /\ Player.isMouseDown s' = false
  /\ Player.drawnAreas s'
     = if Js.gt (Qabs (Player.x q - Player.x p)) 5
          && Js.gt (Qabs (Player.y q - Player.y p)) 5
       then
         (Player.drawnAreas s
          ++ [ {| Player.area_id := Player.region_id "rect" ent;
                  Player.points := []; Player.color := Player.RED;
                  Player.type := Player.type_rectangle;
                  Player.startPoint :=
                    Some {| Player.x := Qmin (Player.x p) (Player.x q);
                            Player.y := Qmin (Player.y p) (Player.y q) |};
                  Player.endPoint :=
                    Some {| Player.x := Qmax (Player.x p) (Player.x q);
                            Player.y := Qmax (Player.y p) (Player.y q) |}
               |} ])%list
       else Player.drawnAreas s.
Proof.
  intros Hdraw Hinit Herase Hmode p q s'.
  assert (Hs1 : Player.handleMouseDown canvas down s
                = Player.setCurrentRectangle None
                    (Player.setRectangleStart (Some p)
                       (Player.setIsMouseDown true s))).
  { unfold Player.handleMouseDown.
    now rewrite Hdraw, Hinit, Herase, Hmode. }
  destruct (moves_frame moves (Player.handleMouseDown canvas down s))
    as (A1 & A2 & A3 & A4 & A5 & A6 & A7).
  rewrite Hs1 in A1, A2, A3, A4, A5, A6, A7.
  simpl in A1, A2, A3, A4, A5, A6, A7.
  rewrite <- Hs1 in A1, A2, A3, A4, A5, A6, A7.
  subst s'. unfold Player.gesture, Player.handleMouseUp.
  rewrite A1, A2, A3, A4, A5, A6, Hdraw, Hinit, Herase, Hmode.
  cbn [negb orb]. fold q.
  destruct (Js.gt (Qabs (Player.x q - Player.x p)) 5
            && Js.gt (Qabs (Player.y q - Player.y p)) 5);
    cbn -[Qabs Qminus Qmin Qmax Js.gt];
    rewrite ?A1, ?A2, ?A3, ?A7, ?Hdraw, ?Hinit, ?Herase;
    repeat split; reflexivity.
Qed.

(** C2.  In rectangle mode, a drag from the point [p] of the pointer-down
    to the point [q] of the pointer-up, with any moves in between, commits
    one region when both sides exceed 5 pixels: the rectangle whose start
    point is the componentwise minimum and whose end point the
    componentwise maximum of [p] and [q], appended to the region list.  A
    drag with a side of at most 5 pixels leaves the region list as it
    was.  The points are those that the handlers compute, with their
    fractional parts. *)
Theorem rectangle_drag_commits_normalized (down up : Player.MouseEvent)
  (moves : list Player.MouseEvent) (ent : Entropy) (s : Player.State) :
  Player.isDrawing s = true ->
  Player.canvasInitialized s = true ->
  Player.isErasing s = false ->
  Player.drawingMode s = Player.mode_rectangle ->
  let p := Player.getCanvasCoordinates canvas down in
  let q := Player.getCanvasCoordinates canvas up in
  let s' := Player.gesture canvas down moves up ent s in
  ((5 < Qabs (Player.x q - Player.x p))%Q ->
   (5 < Qabs (Player.y q - Player.y p))%Q ->
   exists area,
     Player.drawnAreas s' = (Player.drawnAreas s ++ [area])%list
     /\ Player.type area = Player.type_rectangle
     /\ Player.startPoint area
        = Some {| Player.x := Qmin (Player.x p) (Player.x q);
                  Player.y := Qmin (Player.y p) (Player.y q) |}
     /\ Player.endPoint area
        = Some {| Player.x := Qmax (Player.x p) (Player.x q);
                  Player.y := Qmax (Player.y p) (Player.y q) |}
     /\ (Qmin (Player.x p) (Player.x q)
         <= Qmax (Player.x p) (Player.x q))%Q
     /\ (Qmin (Player.y p) (Player.y q)
         <= Qmax (Player.y p) (Player.y q))%Q)
  /\ ((Qabs (Player.x q - Player.x p) <= 5)%Q
      \/ (Qabs (Player.y q - Player.y p) <= 5)%Q ->
      Player.drawnAreas s' = Player.drawnAreas s)
  /\ Player.rectangleStart s' = None
  /\ Player.currentRectangle s' = None
  /\ Player.isMouseDown s' = false.
Proof.
  intros Hdraw Hinit Herase Hmode p q s'.
  destruct (rectangle_gesture down up moves ent s Hdraw Hinit Herase Hmode)
    as (_ & _ & _ & G4 & G5 & G6 & G7).
  fold p q s' in G4, G5, G6, G7.
  assert (Hmin : forall a b : Q, (Qmin a b <= Qmax a b)%Q).
  { intros a b. apply Qle_trans with a;
      [apply Q.le_min_l|apply Q.le_max_l]. }
  split; [|split; [|split; [exact G4|split; [exact G5|exact G6]]]].
  - intros Hx Hy. apply gt_true in Hx, Hy. rewrite Hx, Hy in G7.
    eexists. split; [exact G7|]. simpl.
    repeat split; apply Hmin.
  - intros Hsmall. rewrite G7.
    destruct Hsmall as [Hx|Hy]; [apply gt_false in Hx; rewrite Hx
                                |apply gt_false in Hy; rewrite Hy];
      [|rewrite andb_false_r]; reflexivity.
Qed.

End Capture.

(** A drag of the running example in a centred layout, where the canvas
    starts at (100.5, 50.25): the pointer goes from (200, 150) to
    (205.75, 80), 5.75 pixels to the right, and a rectangle 5.75 pixels
    wide is committed.  The same drag to (205, 80), 5 pixels to the right,
    commits nothing. *)
Lemma rectangle_drag_commits_normalized_witness :
  let s := Scenario.start_drawing Player.initial in
  let c := Some Scenario.centred in
  let p := Player.getCanvasCoordinates c (Scenario.at_ 200 150) in
  let q := Player.getCanvasCoordinates c (Scenario.at_ 205.75 80) in
  (Player.isDrawing s = true /\ Player.canvasInitialized s = true
   /\ Player.isErasing s = false
   /\ Player.drawingMode s = Player.mode_rectangle)
  /\ (Player.x p == 199.5 /\ Player.x q == 205.25
      /\ Qabs (Player.x q - Player.x p) == 5.75)%Q
  /\ (exists area,
        Player.drawnAreas
          (Player.gesture c (Scenario.at_ 200 150) [Scenario.at_ 203 100]
             (Scenario.at_ 205.75 80) (Scenario.ent 20) s)
        = (Player.drawnAreas s ++ [area])%list
        /\ Player.type area = Player.type_rectangle
        /\ Player.startPoint area
           = Some {| Player.x := Qmin (Player.x p) (Player.x q);
                     Player.y := Qmin (Player.y p) (Player.y q) |}
        /\ Player.endPoint area
           = Some {| Player.x := Qmax (Player.x p) (Player.x q);
                     Player.y := Qmax (Player.y p) (Player.y q) |}
        /\ (Qmin (Player.x p) (Player.x q)
            <= Qmax (Player.x p) (Player.x q))%Q
        /\ (Qmin (Player.y p) (Player.y q)
            <= Qmax (Player.y p) (Player.y q))%Q)
  /\ Player.drawnAreas
       (Player.gesture c (Scenario.at_ 200 150) [Scenario.at_ 203 100]
          (Scenario.at_ 205 80) (Scenario.ent 20) s)
     = Player.drawnAreas s.
Proof.
  intros s c p q.
  assert (Hx : (5 < Qabs (Player.x q - Player.x p))%Q)
    by (vm_compute; reflexivity).
  assert (Hy : (5 < Qabs (Player.y q - Player.y p))%Q)
    by (vm_compute; reflexivity).
  split; [repeat split|]. split; [vm_compute; repeat split|].
  split.
  - exact (proj1
             (rectangle_drag_commits_normalized c
                (Scenario.at_ 200 150) (Scenario.at_ 205.75 80)
                [Scenario.at_ 203 100] (Scenario.ent 20) s
                eq_refl eq_refl eq_refl eq_refl)
             Hx Hy).
  - apply (proj1 (proj2
             (rectangle_drag_commits_normalized c
                (Scenario.at_ 200 150) (Scenario.at_ 205 80)
                [Scenario.at_ 203 100] (Scenario.ent 20) s
                eq_refl eq_refl eq_refl eq_refl))).
    left. vm_compute. discriminate.
Defined.

Section Freehand.

Variable canvas : option Player.Canvas.

(** In freehand mode, with the canvas in place, the moves of a held
    pointer are accumulated after the point of the pointer-down. *)
Lemma freehand_accumulates (c : Player.Canvas) (down : Player.MouseEvent)
  (moves : list Player.MouseEvent) (s : Player.State) :
  Player.isDrawing s = true ->
  Player.canvasInitialized s = true ->
  Player.isErasing s = false ->
  Player.drawingMode s = Player.mode_free ->
  let s' :=
    fold_left (fun s' e => Player.handleMouseMove (Some c) e s') moves
      (Player.handleMouseDown (Some c) down s) in
  Player.currentPath s'
  = Player.getCanvasCoordinates (Some c) down
    :: map (Player.getCanvasCoordinates (Some c)) moves
  /\ Player.isMouseDown s' = true
  /\ Player.drawnAreas s' = Player.drawnAreas s.
Proof.
  intros Hdraw Hinit Herase Hmode.
  assert (Hs1 : Player.handleMouseDown (Some c) down s
                = Player.setCurrentPath
                    [Player.getCanvasCoordinates (Some c) down]
                    (Player.setIsMouseDown true s)).
  { unfold Player.handleMouseDown.
    now rewrite Hdraw, Hinit, Herase, Hmode. }
  assert (Hgen : forall moves t,
            Player.isDrawing t = true ->
            Player.canvasInitialized t = true ->
            Player.isErasing t = false ->
            Player.drawingMode t = Player.mode_free ->
            Player.isMouseDown t = true ->
            let t' :=
              fold_left (fun s' e => Player.handleMouseMove (Some c) e s')
                moves t in
            Player.currentPath t'
            = (Player.currentPath t
               ++ map (Player.getCanvasCoordinates (Some c)) moves)%list
            /\ Player.isMouseDown t' = true
            /\ Player.drawnAreas t' = Player.drawnAreas t).
  { clear. induction moves as [|e moves IH]; intros t H1 H2 H3 H4 H5; simpl.
    - now rewrite app_nil_r.
    - assert (Ht : Player.handleMouseMove (Some c) e t
                   = Player.setCurrentPath
                       (Player.currentPath t
                        ++ [Player.getCanvasCoordinates (Some c) e]) t).
      { unfold Player.handleMouseMove. now rewrite H1, H2, H3, H4, H5. }
      rewrite Ht.
      destruct (IH (Player.setCurrentPath
                      (Player.currentPath t
                       ++ [Player.getCanvasCoordinates (Some c) e]) t))
        as (A & B & C); try assumption.
      simpl in A, C. rewrite <- app_assoc in A. simpl in A.
      repeat split; assumption. }
  rewrite Hs1. intros s'.
  destruct (Hgen moves
              (Player.setCurrentPath
                 [Player.getCanvasCoordinates (Some c) down]
                 (Player.setIsMouseDown true s)))
    as (A & B & C); try assumption; try reflexivity.
  repeat split; assumption.
Qed.

(** The square of a distance is not negative, and the square root of the
    reals is the one that [Js.sqrt_gt] stands for. *)
Lemma distance2_nonneg (a b : Q) : (0 <= a ^ 2 + b ^ 2)%Q.
Proof.
  pose proof (Qpower.Qsqr_nonneg a). pose proof (Qpower.Qsqr_nonneg b).
  lra.
Qed.

Lemma sqrt_gt_30 (d2 : Q) :
  (0 <= d2)%Q ->
  Js.sqrt_gt d2 30 = true <-> (30 < sqrt (Q2R d2))%R.
Proof.
  intros Hd. rewrite (sqrt_gt_real d2 30 Hd) by discriminate.
  replace (Q2R 30) with 30%R; [reflexivity|].
  unfold Q2R. simpl. now rewrite Rinv_1, Rmult_1_r.
Qed.

(** C3.  In freehand mode the pointer-up looks at the points accumulated
    so far.  With 2 points or fewer it commits nothing.  With more it
    commits one region, a path: its points are the accumulated ones,
    followed by a copy of the first point when the first and the last are
    more than 30 pixels apart, and the accumulated ones as they are
    otherwise.  The distance is the Euclidean one, the square root of the
    sum of the squares of the differences, which exceeds 30 exactly when
    the sum exceeds 900; the points are those that the handlers computed,
    with their fractional parts.  In both cases the accumulated points are
    dropped. *)
Theorem freehand_release_commits_closed_path (up : Player.MouseEvent)
  (ent : Entropy) (s : Player.State) :
  Player.isDrawing s = true ->
  Player.isMouseDown s = true ->
  Player.canvasInitialized s = true ->
  Player.isErasing s = false ->
  Player.drawingMode s = Player.mode_free ->
  let pts := Player.currentPath s in
  let s' := Player.handleMouseUp canvas up ent s in
  ((List.length pts <= 2)%nat ->
   Player.drawnAreas s' = Player.drawnAreas s)
  /\ (forall first rest,
        pts = first :: rest ->
        (2 < List.length pts)%nat ->
        let lastPoint := last pts first in
        let distance2 :=
          ((Player.x first - Player.x lastPoint) ^ 2
           + (Player.y first - Player.y lastPoint) ^ 2)%Q in
        exists stored,
          Player.drawnAreas s'
          = (Player.drawnAreas s
             ++ [ {| Player.area_id := Player.region_id "path" ent;
                     Player.points := stored; Player.color := Player.RED;
                     Player.type := Player.type_path;
                     Player.startPoint := None;
                     Player.endPoint := None |} ])%list
          /\ ((30 < sqrt (Q2R distance2))%R ->
              stored = (pts ++ [first])%list)
          /\ ((sqrt (Q2R distance2) <= 30)%R -> stored = pts)
          /\ ((900 < distance2)%Q -> stored = (pts ++ [first])%list)
          /\ ((distance2 <= 900)%Q -> stored = pts))
  /\ Player.currentPath s' = []
  /\ Player.isMouseDown s' = false.
Proof.
  intros Hdraw Hdown Hinit Herase Hmode pts s'.
  assert (Hup :
    s' = Player.setCurrentPath []
           (if (2 <? List.length pts)%nat then
              Player.setDrawnAreas
                (fun prev =>
                   (prev
                    ++ [ {| Player.area_id := Player.region_id "path" ent;
                            Player.points := Player.closedPath pts;
                            Player.color := Player.RED;
                            Player.type := Player.type_path;
                            Player.startPoint := None;
                            Player.endPoint := None |} ])%list)
                (Player.setIsMouseDown false s)
            else Player.setIsMouseDown false s)).
  { subst s'. unfold Player.handleMouseUp.
    now rewrite Hdraw, Hdown, Hinit, Herase, Hmode. }
  split; [|split].
  - intros Hlen. rewrite Hup.
    destruct (Nat.ltb_spec 2 (List.length pts)); [lia|reflexivity].
  - intros first rest Hpts Hlen lastPoint distance2. rewrite Hup.
    destruct (Nat.ltb_spec 2 (List.length pts)) as [_|]; [|lia].
    eexists. split; [reflexivity|].
    unfold Player.closedPath.
    destruct (Nat.ltb_spec 2 (List.length pts)) as [_|]; [|lia].
    rewrite Hpts. rewrite <- Hpts. fold lastPoint. fold distance2.
    pose proof (distance2_nonneg (Player.x first - Player.x lastPoint)
                  (Player.y first - Player.y lastPoint)) as Hpos.
    fold distance2 in Hpos.
    pose proof (sqrt_gt_30 distance2 Hpos) as Hreal.
    assert (Hq : Js.sqrt_gt distance2 30 = true <-> (900 < distance2)%Q).
    { unfold Js.sqrt_gt. rewrite gt_true.
      now change (30 * 30)%Q with (900 # 1 * 1)%Q. }
    destruct (Js.sqrt_gt distance2 30) eqn:Hfar.
    + repeat split; try reflexivity.
      * intros Hnear. apply proj1 in Hreal.
        specialize (Hreal eq_refl).
        exfalso. exact (Rlt_irrefl _ (Rlt_le_trans _ _ _ Hreal Hnear)).
      * intros Hnear. apply proj1 in Hq. specialize (Hq eq_refl).
        exfalso. exact (Qlt_irrefl _ (Qlt_le_trans _ _ _ Hq Hnear)).
    + repeat split; try reflexivity.
      * intros Hgt. apply Hreal in Hgt. discriminate Hgt.
      * intros Hgt. apply Hq in Hgt. discriminate Hgt.
  - rewrite Hup. destruct (2 <? List.length pts)%nat; split; reflexivity.
Qed.

(** C10.  Switching the drawing mode off clears the transient capture
    state, leaves the committed regions as they are and commits nothing:
    the release of the pointer that follows finds the handlers switched
    off. *)
Theorem toggle_off_discards_capture (s : Player.State) :
  Player.isDrawing s = true ->
  let s' := Player.toggleDrawing s in
  Player.isDrawing s' = false
  /\ Player.currentPath s' = []
  /\ Player.rectangleStart s' = None
  /\ Player.currentRectangle s' = None
  /\ Player.isErasing s' = false
  /\ Player.isMouseDown s' = false
  /\ Player.drawnAreas s' = Player.drawnAreas s
  /\ (forall e ent,
        Player.handleMouseUp canvas e ent s' = s'
        /\ Player.handleMouseMove canvas e s' = s').
Proof.
  intros Hdraw s'. subst s'. unfold Player.toggleDrawing.
  rewrite Hdraw. cbn [negb].
  do 7 (split; [reflexivity|]).
  intros e ent. unfold Player.handleMouseUp, Player.handleMouseMove.
  split; reflexivity.
Qed.

End Freehand.

(** A stroke of the running example in the centred layout: four points,
    its ends 30.01 pixels apart, so that it is stored closed. *)
Lemma freehand_release_commits_closed_path_witness :
  let s := Scenario.fine_stroke_held in
  let first := {| Player.x := 199.5; Player.y := 149.75 |} in
  exists stored,
    Player.drawnAreas
      (Player.handleMouseUp (Some Scenario.centred) (Scenario.at_ 230.01 150)
         (Scenario.ent 21) s)
    = (Player.drawnAreas s
       ++ [ {| Player.area_id := Player.region_id "path" (Scenario.ent 21);
               Player.points := stored; Player.color := Player.RED;
               Player.type := Player.type_path; Player.startPoint := None;
               Player.endPoint := None |} ])%list
    /\ stored = (Player.currentPath s ++ [first])%list
    /\ ((Player.x first - Player.x (last (Player.currentPath s) first)) ^ 2
        + (Player.y first - Player.y (last (Player.currentPath s) first)) ^ 2
        == 900.6001)%Q.
Proof.
  intros s first.
  assert (Hpts : Player.currentPath s
                 = first :: tl (Player.currentPath s))
    by (vm_compute; reflexivity).
  destruct (proj1 (proj2
              (freehand_release_commits_closed_path (Some Scenario.centred)
                 (Scenario.at_ 230.01 150) (Scenario.ent 21) s
                 eq_refl eq_refl eq_refl eq_refl eq_refl))
              first (tl (Player.currentPath s)) Hpts)
    as [stored (H1 & _ & _ & H2 & _)].
  - vm_compute. lia.
  - exists stored. split; [exact H1|]. split.
    + apply H2. vm_compute. reflexivity.
    + vm_compute. reflexivity.
Defined.

(** A rectangle drag that is still held when drawing is switched off. *)
Lemma toggle_off_discards_capture_witness :
  Player.rectangleStart Scenario.mid_capture
  = Some {| Player.x := 200; Player.y := 150 |}
  /\ Player.rectangleStart (Player.toggleDrawing Scenario.mid_capture) = None
  /\ Player.drawnAreas (Player.toggleDrawing Scenario.mid_capture)
     = Player.drawnAreas Scenario.mid_capture.
Proof.
  split; [reflexivity|].
  destruct (toggle_off_discards_capture Scenario.canvas Scenario.mid_capture
              eq_refl)
    as (_ & _ & H3 & _ & _ & _ & H7 & _).
  split; [exact H3|exact H7].
Defined.

(** ** The cue file of a video *)

Section VttRoute.

Variable uploadDir : string.
Variable path_join : string -> string -> string.
Variable existsSync : string -> bool.

Lemma all_in_class_dot (a b : string) :
  Server.all_in_class (a ++ String "." b) = false.
Proof.
  induction a as [|c a IH]; simpl; [reflexivity|].
  rewrite IH. apply andb_false_r.
Qed.

(** The pattern matches nowhere before the last dot. *)
Lemma strip_extension_ext (stem ext : string) :
  ext <> "" -> Server.all_in_class ext = true ->
  Server.strip_extension (stem ++ "." ++ ext) = stem.
Proof.
  intros Hne Hext. induction stem as [|c stem IH].
  - change ("" ++ "." ++ ext) with (String "." ext).
    unfold Server.strip_extension, Server.matches_here.
    destruct ext as [|d ext]; [contradiction|].
    rewrite Hext. reflexivity.
  - change (String c stem ++ "." ++ ext)
      with (String c (stem ++ String "." ext)).
    cbn [Server.strip_extension]. unfold Server.matches_here.
    rewrite all_in_class_dot, !andb_false_r.
    change (stem ++ String "." ext) with (stem ++ "." ++ ext).
    now rewrite IH.
Qed.

(** An id that does not end in an extension is left as it is. *)
Lemma strip_extension_none (id : string) :
  (forall stem ext,
     id = stem ++ "." ++ ext -> ext = "" \/ Server.all_in_class ext = false) ->
  Server.strip_extension id = id.
Proof.
  induction id as [|c id IH]; intros H; [reflexivity|].
  cbn [Server.strip_extension].
  destruct (Server.matches_here (String c id)) eqn:M.
  - unfold Server.matches_here in M.
    apply andb_prop in M. destruct M as [M Hclass].
    apply andb_prop in M. destruct M as [Hc Hne].
    apply Ascii.eqb_eq in Hc. subst c.
    destruct (H "" id eq_refl) as [->|Hno]; [discriminate Hne|].
    rewrite Hno in Hclass. discriminate Hclass.
  - f_equal. apply IH. intros stem ext E.
    apply (H (String c stem) ext). simpl. now rewrite E.
Qed.

Lemma no_dot_no_extension (id stem ext : string) :
  Server.occurs "." id = false -> id <> stem ++ "." ++ ext.
Proof.
  intros H E. subst id. induction stem as [|c stem IH].
  - discriminate H.
  - simpl in H. apply orb_false_elim in H. now apply IH.
Qed.

(** C8.  For an id that ends in an extension, a dot followed by one or
    more characters other than a dot and a slash, the route looks for the
    file named by the id without that extension, followed by [.vtt]; for an
    id that does not end in an extension, an id without a dot for one, it
    looks for the id followed by [.vtt].  When the file does not exist the
    answer is a 404, otherwise the file is sent under that name.  The id
    [171234.mp4] resolves to [171234.vtt]. *)
Theorem vtt_route_replaces_extension :
  (forall stem ext,
     ext <> "" -> Server.all_in_class ext = true ->
     let vttPath := path_join uploadDir (stem ++ ".vtt") in
     Server.vtt_path uploadDir path_join (stem ++ "." ++ ext) = vttPath
     /\ Server.get_vtt uploadDir path_join existsSync (stem ++ "." ++ ext)
        = if existsSync vttPath
          then Server.download vttPath (stem ++ ".vtt")
          else Server.status 404 "VTT 파일 없음")
  /\ (forall id,
        (Server.occurs "." id = false
         \/ forall stem ext,
              id = stem ++ "." ++ ext ->
              ext = "" \/ Server.all_in_class ext = false) ->
        let vttPath := path_join uploadDir (id ++ ".vtt") in
        Server.vtt_path uploadDir path_join id = vttPath
        /\ Server.get_vtt uploadDir path_join existsSync id
           = if existsSync vttPath
             then Server.download vttPath (id ++ ".vtt")
             else Server.status 404 "VTT 파일 없음")
  /\ Server.vtt_path uploadDir path_join "171234.mp4"
     = path_join uploadDir "171234.vtt".
Proof.
  split; [|split].
  - intros stem ext Hne Hext vttPath.
    unfold Server.vtt_path, Server.get_vtt.
    rewrite strip_extension_ext by assumption. fold vttPath.
    split; [reflexivity|]. now destruct (existsSync vttPath).
  - intros id Hid vttPath. unfold Server.vtt_path, Server.get_vtt.
    rewrite strip_extension_none.
    2:{ destruct Hid as [Hid|Hid]; [|exact Hid].
        intros stem ext E. now apply no_dot_no_extension in E. }
    fold vttPath.
    split; [reflexivity|]. now destruct (existsSync vttPath).
  - reflexivity.
Qed.

End VttRoute.

(** The clip, whose cue file is there, and an id without extension, whose
    cue file is not. *)
Lemma vtt_route_replaces_extension_witness :
  Server.get_vtt Scenario.uploadDir Scenario.path_join Scenario.existsSync
    "171234.mp4"
  = Server.download "/srv/app/uploads/171234.vtt" "171234.vtt"
  /\ Server.get_vtt Scenario.uploadDir Scenario.path_join
       Scenario.existsSync "171299"
     = Server.status 404 "VTT 파일 없음".
Proof.
  split.
  - apply (proj1 (vtt_route_replaces_extension Scenario.uploadDir
                    Scenario.path_join Scenario.existsSync)
             "171234" "mp4").
    + discriminate.
    + reflexivity.
  - apply (proj1 (proj2 (vtt_route_replaces_extension Scenario.uploadDir
                           Scenario.path_join Scenario.existsSync))
             "171299").
    left. reflexivity.
Defined.

(** * Further properties *)

(** ** Coordinates and the eraser *)

Section Eraser.

Variable canvas : option Player.Canvas.

(** [Math.max (0, Math.min (v, w))] for a bound [w] that is not
    negative. *)
Lemma clamp_spec (v w : Q) :
  (0 <= w)%Q ->
  let r := Qmax 0 (Qmin v w) in
  (0 <= r <= w)%Q
  /\ ((0 <= v <= w)%Q -> r == v)
  /\ ((v < 0)%Q -> r == 0)
  /\ ((w < v)%Q -> r == w).
Proof.
  intros Hw r. subst r.
  destruct (Q.max_spec 0 (Qmin v w)) as [[H1 H2]|[H1 H2]];
    destruct (Q.min_spec v w) as [[H3 H4]|[H3 H4]];
    rewrite H2; rewrite H4 in *; repeat split; intros; lra.
Qed.

(** X1.  The point that a pointer event is mapped to lies in the pixel
    buffer of the canvas, whatever the fractional parts of the position of
    the pointer and of the edges of the canvas.  It is the offset of the
    pointer from the corner of the canvas whenever that offset lies in the
    buffer, and the nearest point of the buffer otherwise. *)
Theorem canvas_coordinates_clamped (c : Player.Canvas)
  (e : Player.MouseEvent) :
  0 <= Player.width c -> 0 <= Player.height c ->
  let p := Player.getCanvasCoordinates (Some c) e in
  let dx := (Player.clientX e - Player.rect_left c)%Q in
  let dy := (Player.clientY e - Player.rect_top c)%Q in
  let w := inject_Z (Player.width c) in
  let h := inject_Z (Player.height c) in
  ((0 <= Player.x p <= w)%Q
   /\ ((0 <= dx <= w)%Q -> Player.x p == dx)
   /\ ((dx < 0)%Q -> Player.x p == 0)
   /\ ((w < dx)%Q -> Player.x p == w))
  /\ ((0 <= Player.y p <= h)%Q
      /\ ((0 <= dy <= h)%Q -> Player.y p == dy)
      /\ ((dy < 0)%Q -> Player.y p == 0)
      /\ ((h < dy)%Q -> Player.y p == h)).
Proof.
  intros Hw Hh p dx dy w h.
  assert (Hw' : (0 <= w)%Q).
  { subst w. change 0%Q with (inject_Z 0). now rewrite <- Zle_Qle. }
  assert (Hh' : (0 <= h)%Q).
  { subst h. change 0%Q with (inject_Z 0). now rewrite <- Zle_Qle. }
  split; [exact (clamp_spec dx w Hw')|exact (clamp_spec dy h Hh')].
Qed.

Lemma find_first {A : Type} (f : A -> bool) (before after : list A)
  (hit : A) :
  (forall a, In a before -> f a = false) -> f hit = true ->
  find f (before ++ hit :: after) = Some hit.
Proof.
  intros Hb Hh. induction before as [|a before IH]; simpl.
  - now rewrite Hh.
  - rewrite (Hb a) by now left. apply IH. intros b Hin. apply Hb. now right.
Qed.

Lemma find_none_all {A : Type} (f : A -> bool) (l : list A) :
  (forall a, In a l -> f a = false) -> find f l = None.
Proof.
  intros H. induction l as [|a l IH]; simpl; [reflexivity|].
  rewrite (H a) by now left. apply IH. intros b Hin. apply H. now right.
Qed.

Lemma filter_all {A : Type} (f : A -> bool) (l : list A) :
  (forall a, In a l -> f a = true) -> filter f l = l.
Proof.
  intros H. induction l as [|a l IH]; simpl; [reflexivity|].
  rewrite (H a) by now left. f_equal. apply IH. intros b Hin. apply H.
  now right.
Qed.

(** Among regions with different ids, the ones that do not have the id of
    one of them are all the others. *)
Lemma filter_other_ids (before after : list Player.DrawnArea)
  (hit : Player.DrawnArea) :
  NoDup (map Player.area_id (before ++ hit :: after)) ->
  filter
    (fun area =>
       negb (String.eqb (Player.area_id area) (Player.area_id hit)))
    (before ++ hit :: after)
  = (before ++ after)%list.
Proof.
  intros Hnd. rewrite map_app in Hnd. simpl in Hnd.
  apply NoDup_remove in Hnd. destruct Hnd as [_ Hnot].
  rewrite filter_app. simpl. rewrite String.eqb_refl. simpl.
  rewrite !filter_all; [reflexivity| |]; intros a Hin;
    apply negb_true_iff, String.eqb_neq; intros E; apply Hnot;
    apply in_or_app; [right|left]; rewrite <- E; now apply in_map.
Qed.

(** X2.  With the eraser on, a pointer-down that hits no region leaves the
    region list as it is, and starts no capture. *)
Theorem erase_miss_keeps_regions (e : Player.MouseEvent)
  (s : Player.State) :
  Player.isDrawing s = true ->
  Player.canvasInitialized s = true ->
  Player.isErasing s = true ->
  (forall area,
     In area (Player.drawnAreas s) ->
     Player.clicked (Player.getCanvasCoordinates canvas e) area = false) ->
  Player.handleMouseDown canvas e s = Player.setIsMouseDown true s.
Proof.
  intros Hd Hi He Hmiss. unfold Player.handleMouseDown.
  rewrite Hd, Hi, He. simpl. now rewrite find_none_all.
Qed.

Lemma erase_hit (e : Player.MouseEvent) (s : Player.State)
  (before after : list Player.DrawnArea) (hit : Player.DrawnArea) :
  Player.isDrawing s = true ->
  Player.canvasInitialized s = true ->
  Player.isErasing s = true ->
  Player.drawnAreas s = (before ++ hit :: after)%list ->
  (forall area,
     In area before ->
     Player.clicked (Player.getCanvasCoordinates canvas e) area = false) ->
  Player.clicked (Player.getCanvasCoordinates canvas e) hit = true ->
  Player.handleMouseDown canvas e s
  = Player.setDrawnAreas
      (filter
         (fun area =>
            negb (String.eqb (Player.area_id area) (Player.area_id hit))))
      (Player.setIsMouseDown true s).
Proof.
  intros Hd Hi He Hareas Hmiss Hhit. unfold Player.handleMouseDown.
  rewrite Hd, Hi, He, Hareas. simpl.
  now rewrite (find_first _ before after hit Hmiss Hhit).
Qed.

(** X3.  With the eraser on, a pointer-down removes the regions that have
    the id of the first region it hits, in the order of the list: when the
    ids of the regions are all different, that region alone goes and the
    others stay in their order.  The capture state is not touched. *)
Theorem erase_removes_first_hit (e : Player.MouseEvent) (s : Player.State)
  (before after : list Player.DrawnArea) (hit : Player.DrawnArea) :
  Player.isDrawing s = true ->
  Player.canvasInitialized s = true ->
  Player.isErasing s = true ->
  Player.drawnAreas s = (before ++ hit :: after)%list ->
  (forall area,
     In area before ->
     Player.clicked (Player.getCanvasCoordinates canvas e) area = false) ->
  Player.clicked (Player.getCanvasCoordinates canvas e) hit = true ->
  let s' := Player.handleMouseDown canvas e s in
  Player.drawnAreas s'
  = filter
      (fun area =>
         negb (String.eqb (Player.area_id area) (Player.area_id hit)))
      (Player.drawnAreas s)
  /\ ~ In hit (Player.drawnAreas s')
  /\ (NoDup (map Player.area_id (Player.drawnAreas s)) ->
      Player.drawnAreas s' = (before ++ after)%list)
  /\ Player.currentPath s' = Player.currentPath s
  /\ Player.rectangleStart s' = Player.rectangleStart s.
Proof.
  intros Hd Hi He Hareas Hmiss Hhit s'. subst s'.
  rewrite (erase_hit e s before after hit Hd Hi He Hareas Hmiss Hhit).
  simpl. repeat split.
  - intros Hin. apply filter_In in Hin. destruct Hin as [_ Hin].
    now rewrite String.eqb_refl in Hin.
  - intros Hnd. rewrite Hareas in *. now apply filter_other_ids.
Qed.

End Eraser.

(** In the centred layout a pointer at (300.25, 20) lies 199.75 pixels
    right of the left edge of the canvas and 30.25 pixels above its top
    edge. *)
Lemma canvas_coordinates_clamped_witness :
  let c := Scenario.centred in
  let e := {| Player.clientX := 300.25; Player.clientY := 20 |} in
  let p := Player.getCanvasCoordinates (Some c) e in
  (0 <= Player.width c /\ 0 <= Player.height c)
  /\ (Player.x p == 199.75 /\ Player.y p == 0)%Q.
Proof.
  intros c e p. split; [split; discriminate|].
  destruct (canvas_coordinates_clamped c e) as [(_ & Hx & _) (_ & _ & Hy & _)];
    [discriminate|discriminate|].
  split.
  - fold p in Hx. rewrite Hx; [reflexivity|].
    split; vm_compute; discriminate.
  - fold p in Hy. apply Hy. vm_compute. reflexivity.
Defined.

(** A click of the eraser away from the two regions of the running
    example. *)
Lemma erase_miss_keeps_regions_witness :
  Player.drawnAreas
    (Player.handleMouseDown Scenario.canvas (Scenario.at_ 500 300)
       Scenario.erasing)
  = [Scenario.rectangle_area; Scenario.path_area].
Proof.
  assert (Hd : Player.isDrawing Scenario.erasing = true)
    by (vm_compute; reflexivity).
  assert (Hi : Player.canvasInitialized Scenario.erasing = true)
    by (vm_compute; reflexivity).
  assert (He : Player.isErasing Scenario.erasing = true)
    by (vm_compute; reflexivity).
  assert (Hareas : Player.drawnAreas Scenario.erasing
                   = [Scenario.rectangle_area; Scenario.path_area])
    by (vm_compute; reflexivity).
  rewrite (erase_miss_keeps_regions Scenario.canvas (Scenario.at_ 500 300)
             Scenario.erasing Hd Hi He).
  - exact Hareas.
  - rewrite Hareas. intros area [<-|[<-|[]]]; vm_compute; reflexivity.
Defined.

(** A click of the eraser inside the rectangle of the running example:
    the path is left. *)
Lemma erase_removes_first_hit_witness :
  Player.drawnAreas
    (Player.handleMouseDown Scenario.canvas (Scenario.at_ 150 100)
       Scenario.erasing)
  = [Scenario.path_area].
Proof.
  assert (Hd : Player.isDrawing Scenario.erasing = true)
    by (vm_compute; reflexivity).
  assert (Hi : Player.canvasInitialized Scenario.erasing = true)
    by (vm_compute; reflexivity).
  assert (He : Player.isErasing Scenario.erasing = true)
    by (vm_compute; reflexivity).
  assert (Hareas : Player.drawnAreas Scenario.erasing
                   = ([] ++ Scenario.rectangle_area
                         :: [Scenario.path_area])%list)
    by (vm_compute; reflexivity).
  destruct (erase_removes_first_hit Scenario.canvas (Scenario.at_ 150 100)
              Scenario.erasing [] [Scenario.path_area]
              Scenario.rectangle_area Hd Hi He Hareas)
    as (_ & _ & H & _).
  - intros area [].
  - vm_compute. reflexivity.
  - apply H. rewrite Hareas. vm_compute.
    repeat constructor; simpl; intuition discriminate.
Defined.

(** ** Gestures *)

Section Gestures.

Variable canvas : option Player.Canvas.

(** X4.  A rectangle that was just committed is removed again by the
    eraser on a click anywhere between its corners, if the click hits none
    of the older regions and the id of the rectangle is not one of theirs:
    the region list is back to what it was before the drag. *)
Theorem drawn_rectangle_erased_by_click_inside
  (down up click : Player.MouseEvent) (moves : list Player.MouseEvent)
  (ent : Entropy) (s : Player.State) :
  Player.isDrawing s = true ->
  Player.canvasInitialized s = true ->
  Player.isErasing s = false ->
  Player.drawingMode s = Player.mode_rectangle ->
  let p := Player.getCanvasCoordinates canvas down in
  let q := Player.getCanvasCoordinates canvas up in
  let c := Player.getCanvasCoordinates canvas click in
  (5 < Qabs (Player.x q - Player.x p))%Q ->
  (5 < Qabs (Player.y q - Player.y p))%Q ->
  (Qmin (Player.x p) (Player.x q) <= Player.x c
   <= Qmax (Player.x p) (Player.x q))%Q ->
  (Qmin (Player.y p) (Player.y q) <= Player.y c
   <= Qmax (Player.y p) (Player.y q))%Q ->
  (forall area, In area (Player.drawnAreas s) -> Player.clicked c area = false) ->
  ~ In (Player.region_id "rect" ent) (map Player.area_id (Player.drawnAreas s)) ->
  Player.drawnAreas
    (Player.handleMouseDown canvas click
       (Player.toggleErasing (Player.gesture canvas down moves up ent s)))
  = Player.drawnAreas s.
Proof.
  intros Hd Hi He Hm p q c Hx Hy Hcx Hcy Hmiss Hfresh.
  destruct (rectangle_gesture canvas down up moves ent s Hd Hi He Hm)
    as (G1 & G2 & G3 & _ & _ & _ & G4).
  fold p q in G4. apply gt_true in Hx, Hy. rewrite Hx, Hy in G4.
  cbn [andb] in G4.
  set (g := Player.gesture canvas down moves up ent s) in *.
  set (r := {| Player.area_id := Player.region_id "rect" ent;
               Player.points := []; Player.color := Player.RED;
               Player.type := Player.type_rectangle;
               Player.startPoint :=
                 Some {| Player.x := Qmin (Player.x p) (Player.x q);
                         Player.y := Qmin (Player.y p) (Player.y q) |};
               Player.endPoint :=
                 Some {| Player.x := Qmax (Player.x p) (Player.x q);
                         Player.y := Qmax (Player.y p) (Player.y q) |} |})
    in *.
  assert (Hhit : Player.clicked c r = true).
  { unfold Player.clicked.
    cbn [r Player.type Player.startPoint Player.endPoint Player.x Player.y].
    repeat (apply andb_true_intro; split); apply Qle_bool_iff.
    - eapply Qle_trans; [apply Q.le_min_l|apply Hcx].
    - eapply Qle_trans; [apply Hcx|apply Q.le_max_r].
    - eapply Qle_trans; [apply Q.le_min_l|apply Hcy].
    - eapply Qle_trans; [apply Hcy|apply Q.le_max_r]. }
  rewrite (erase_hit canvas click (Player.toggleErasing g)
             (Player.drawnAreas s) [] r).
  - unfold Player.toggleErasing. simpl. rewrite G4.
    rewrite filter_app. simpl. rewrite String.eqb_refl. simpl.
    rewrite app_nil_r. apply filter_all. intros a Hin.
    apply negb_true_iff, String.eqb_neq. intros Eid. apply Hfresh.
    change (Player.area_id r) with (Player.region_id "rect" ent) in Eid.
    rewrite <- Eid. now apply in_map.
  - unfold Player.toggleErasing. simpl. exact G1.
  - unfold Player.toggleErasing. simpl. exact G2.
  - unfold Player.toggleErasing. simpl. now rewrite G3.
  - unfold Player.toggleErasing. simpl. exact G4.
  - exact Hmiss.
  - exact Hhit.
Qed.


(** X6.  A press and release at one point without a move in between
    commits nothing, in rectangle mode and in freehand mode. *)
Theorem click_without_drag_commits_nothing (e : Player.MouseEvent)
  (ent : Entropy) (s : Player.State) :
  Player.isDrawing s = true ->
  Player.canvasInitialized s = true ->
  Player.isErasing s = false ->
  Player.drawnAreas (Player.gesture canvas e [] e ent s)
  = Player.drawnAreas s.
Proof.
  intros Hd Hi He.
  destruct (Player.drawingMode s) eqn:Hm.
  - unfold Player.gesture. cbn [fold_left].
    unfold Player.handleMouseDown. rewrite Hd, Hi, He, Hm.
    cbn [negb orb]. unfold Player.handleMouseUp.
    cbn -[Player.getCanvasCoordinates]. rewrite Hd, Hi, He, Hm.
    reflexivity.
  - destruct (rectangle_gesture canvas e e [] ent s Hd Hi He Hm)
      as (_ & _ & _ & _ & _ & _ & G).
    rewrite G.
    set (p := Player.getCanvasCoordinates canvas e).
    assert (Hx : Js.gt (Qabs (Player.x p - Player.x p)) 5 = false).
    { apply gt_false, Qabs_Qle_condition. split; lra. }
    now rewrite Hx.
Qed.

(** X7.  While drawing is switched off, or before the canvas is ready, no
    sequence of pointer events changes anything. *)
Theorem pointer_events_inert_when_drawing_off (evs : list Player.Pointer)
  (s : Player.State) :
  Player.isDrawing s = false \/ Player.canvasInitialized s = false ->
  Player.pointers canvas evs s = s.
Proof.
  intros H. unfold Player.pointers. induction evs as [|ev evs IH];
    [reflexivity|].
  simpl. replace (Player.pointer canvas ev s) with s; [exact IH|].
  destruct ev; simpl;
    unfold Player.handleMouseDown, Player.handleMouseMove,
      Player.handleMouseUp;
    destruct H as [-> | ->]; simpl; rewrite ?orb_true_r; reflexivity.
Qed.

End Gestures.

Lemma drawn_rectangle_erased_by_click_inside_witness :
  Player.drawnAreas
    (Player.handleMouseDown Scenario.canvas (Scenario.at_ 150 100)
       (Player.toggleErasing
          (Player.gesture Scenario.canvas (Scenario.at_ 200 150)
             [Scenario.at_ 150 100] (Scenario.at_ 120 60) (Scenario.ent 20)
             (Scenario.start_drawing Player.initial))))
  = Player.drawnAreas (Scenario.start_drawing Player.initial).
Proof.
  apply drawn_rectangle_erased_by_click_inside;
    try (vm_compute; reflexivity);
    try (vm_compute; split; discriminate).
  - intros area Hin. vm_compute in Hin. destruct Hin.
  - intros Hin. vm_compute in Hin. destruct Hin.
Defined.


Lemma click_without_drag_commits_nothing_witness :
  Player.drawnAreas
    (Player.gesture Scenario.canvas (Scenario.at_ 200 150) []
       (Scenario.at_ 200 150) (Scenario.ent 20)
       (Scenario.start_drawing Player.initial))
  = Player.drawnAreas (Scenario.start_drawing Player.initial).
Proof.
  apply click_without_drag_commits_nothing; reflexivity.
Defined.

Lemma pointer_events_inert_when_drawing_off_witness :
  Player.pointers Scenario.canvas
    [ Player.pointer_down (Scenario.at_ 200 150);
      Player.pointer_move (Scenario.at_ 150 100);
      Player.pointer_up (Scenario.at_ 120 60) (Scenario.ent 20) ]
    Player.initial
  = Player.initial.
Proof.
  apply pointer_events_inert_when_drawing_off. left. reflexivity.
Defined.

(** ** The time display *)

Section TimeDisplay.

Lemma below_100 (P : Z -> bool) :
  forallb (fun k => P (Z.of_nat k)) (seq 0 100) = true ->
  forall n, 0 <= n < 100 -> P n = true.
Proof.
  intros H n Hn. rewrite forallb_forall in H.
  specialize (H (Z.to_nat n)). rewrite Z2Nat.id in H by lia.
  apply H. apply in_seq. lia.
Qed.

Lemma padded_length (n : Z) :
  0 <= n < 100 -> String.length (Js.padStart2 (Js.decimal n)) = 2%nat.
Proof.
  intros Hn. apply Nat.eqb_eq.
  apply (below_100
           (fun k => Nat.eqb (String.length (Js.padStart2 (Js.decimal k))) 2));
    [vm_compute; reflexivity|exact Hn].
Qed.

Lemma padded_inj (m n : Z) :
  0 <= m < 100 -> 0 <= n < 100 ->
  Js.padStart2 (Js.decimal m) = Js.padStart2 (Js.decimal n) -> m = n.
Proof.
  intros Hm Hn E.
  assert (H : forallb
                (fun b =>
                   implb
                     (String.eqb (Js.padStart2 (Js.decimal m))
                        (Js.padStart2 (Js.decimal (Z.of_nat b))))
                     (m =? Z.of_nat b))
                (seq 0 100) = true).
  { apply (below_100
             (fun a =>
                forallb
                  (fun b =>
                     implb
                       (String.eqb (Js.padStart2 (Js.decimal a))
                          (Js.padStart2 (Js.decimal (Z.of_nat b))))
                       (a =? Z.of_nat b))
                  (seq 0 100)));
      [vm_compute; reflexivity|exact Hm]. }
  rewrite forallb_forall in H.
  assert (Hin : In (Z.to_nat n) (seq 0 100)) by (apply in_seq; lia).
  specialize (H (Z.to_nat n) Hin).
  rewrite Z2Nat.id in H by lia.
  rewrite E, String.eqb_refl in H. cbn [implb] in H.
  now apply Z.eqb_eq.
Qed.

Lemma length_append (a b : string) :
  String.length (a ++ b) = (String.length a + String.length b)%nat.
Proof. induction a as [|c a IH]; simpl; [reflexivity|now rewrite IH]. Qed.

Lemma append_inj_length (a b x y : string) :
  String.length a = String.length b -> a ++ x = b ++ y -> a = b /\ x = y.
Proof.
  revert b. induction a as [|c a IH]; intros [|d b] Hlen E;
    try discriminate Hlen.
  - now split.
  - simpl in E. injection E as -> E. injection Hlen as Hlen.
    destruct (IH b Hlen E) as [-> ->]. now split.
Qed.

(** X8.  For a whole number of seconds below a hundred hours, the time is
    displayed as eight characters, two digits each for the hours, the
    minutes and the seconds, and two different times are displayed
    differently. *)
Theorem formatTime_fixed_width_injective (s t : Z) :
  0 <= s < 360000 -> 0 <= t < 360000 ->
  String.length (Player.formatTime s) = 8%nat
  /\ Player.formatTime s
     = Js.padStart2 (Js.decimal (s / 3600)) ++ ":"
       ++ Js.padStart2 (Js.decimal (s mod 3600 / 60)) ++ ":"
       ++ Js.padStart2 (Js.decimal (s mod 60))
  /\ (Player.formatTime s = Player.formatTime t -> s = t).
Proof.
  intros Hs Ht.
  assert (Hparts : forall u, 0 <= u < 360000 ->
            0 <= u / 3600 < 100 /\ 0 <= Z.rem u 3600 / 60 < 100
            /\ 0 <= Z.rem u 60 < 100
            /\ Z.rem u 3600 = u mod 3600 /\ Z.rem u 60 = u mod 60).
  { intros u Hu. rewrite !Z.rem_mod_nonneg by lia.
    repeat split; try reflexivity;
      Z.to_euclidean_division_equations; lia. }
  destruct (Hparts s Hs) as (Hh & Hm & Hc & Erem & Erem').
  destruct (Hparts t Ht) as (Hh' & Hm' & Hc' & Erem2 & Erem2').
  unfold Player.formatTime. split; [|split].
  - rewrite !length_append, !padded_length by assumption.
    reflexivity.
  - now rewrite Erem, Erem'.
  - intros E.
    apply append_inj_length in E;
      [|now rewrite !padded_length by assumption].
    destruct E as [E1 E]. simpl in E. injection E as E.
    apply append_inj_length in E;
      [|now rewrite !padded_length by assumption].
    destruct E as [E2 E]. simpl in E. injection E as E3.
    apply padded_inj in E1; try assumption.
    apply padded_inj in E2; try assumption.
    apply padded_inj in E3; try assumption.
    rewrite !Z.rem_mod_nonneg in * by lia.
    Z.to_euclidean_division_equations. lia.
Qed.

End TimeDisplay.

Lemma formatTime_fixed_width_injective_witness :
  (0 <= 3725 < 360000 /\ 0 <= 3726 < 360000)
  /\ Player.formatTime 3725 = "01:02:05"
  /\ Player.formatTime 3725 <> Player.formatTime 3726.
Proof.
  split; [lia|]. split; [reflexivity|].
  intros E.
  apply (formatTime_fixed_width_injective 3725 3726) in E; [discriminate E|lia|lia].
Defined.

(** ** Selection, deletion and edits in the player *)

Section Panel.

(** X9.  The check box of an object flips its membership in the selection
    and that of no other object, keeps a selection free of repetitions so,
    and a second click on it gives back the selection as it was. *)
Theorem toggle_selected_flips_membership (objectId : string)
  (s : Player.State) :
  let ids := Player.selectedObjectIds s in
  let ids' := Player.selectedObjectIds (Player.toggleSelected objectId s) in
  (In objectId ids' <-> ~ In objectId ids)
  /\ (forall other, other <> objectId -> (In other ids' <-> In other ids))
  /\ (NoDup ids -> NoDup ids')
  /\ (~ In objectId ids ->
      Player.selectedObjectIds
        (Player.toggleSelected objectId (Player.toggleSelected objectId s))
      = ids).
Proof.
  intros ids ids'.
  assert (Hmem : existsb (String.eqb objectId) ids = true <-> In objectId ids).
  { rewrite existsb_exists. split.
    - intros [i [Hin E]]. apply String.eqb_eq in E. now subst.
    - intros Hin. exists objectId. split; [exact Hin|apply String.eqb_refl]. }
  assert (Hfilter : forall l other,
            In other (filter (fun i => negb (String.eqb i objectId)) l)
            <-> In other l /\ other <> objectId).
  { intros l other. rewrite filter_In, negb_true_iff, String.eqb_neq.
    reflexivity. }
  subst ids'. unfold Player.toggleSelected. fold ids.
  destruct (existsb (String.eqb objectId) ids) eqn:Ex; simpl; fold ids.
  - assert (Hin : In objectId ids) by now apply Hmem.
    split; [|split; [|split]].
    + rewrite Hfilter. intuition.
    + intros other Hne. rewrite Hfilter. intuition.
    + intros Hnd. now apply NoDup_filter.
    + intros Hnot. contradiction.
  - assert (Hnot : ~ In objectId ids).
    { intros Hin. apply Hmem in Hin. congruence. }
    split; [|split; [|split]].
    + split; [intros _; exact Hnot|intros _].
      apply in_or_app. right. now left.
    + intros other Hne. rewrite in_app_iff. simpl. intuition congruence.
    + intros Hnd. apply NoDup_app; [exact Hnd|repeat constructor; intros []|].
      intros a Ha [<-|[]]. contradiction.
    + intros _.
      assert (Ex' : existsb (String.eqb objectId) (ids ++ [objectId]) = true).
      { rewrite existsb_app. simpl. rewrite String.eqb_refl.
        now rewrite orb_true_r. }
      rewrite Ex'. simpl. rewrite filter_app. simpl.
      rewrite String.eqb_refl. simpl. rewrite app_nil_r.
      apply filter_all. intros a Ha. apply negb_true_iff, String.eqb_neq.
      intros ->. contradiction.
Qed.

(** X10.  Nothing is deleted without the confirmation: while the check box
    of the dialog is not set, and so right after the dialog was opened for
    an object or for the selection, and after it was cancelled, the
    confirming button changes neither the state of the player nor the
    video list, calls the hook not once and gives no notice. *)
Theorem delete_needs_confirmation (video : option VideoInfo)
  (onDeleteObject : option Player.DeleteObject) (s : Player.State) :
  let inert s' :=
    Player.confirmDelete video onDeleteObject s'
    = {| Player.delete_state := s'; Player.delete_videos := fun prev => prev;
         Player.delete_calls := 0; Player.delete_toast := None |} in
  (Player.deleteConfirmed s = false -> inert s)
  /\ (forall objectId, inert (Player.handleDeleteClick objectId s))
  /\ (Player.selectedObjectIds s <> [] -> inert (Player.bulkDeleteClick s))
  /\ inert (Player.cancelDelete s).
Proof.
  assert (H : forall s',
            Player.deleteConfirmed s' = false \/ Player.objectToDelete s' = None ->
            Player.confirmDelete video onDeleteObject s'
            = {| Player.delete_state := s';
                 Player.delete_videos := fun prev => prev;
                 Player.delete_calls := 0;
                 Player.delete_toast := None |}).
  { intros s' [Hc|Hn]; unfold Player.confirmDelete.
    - rewrite Hc.
      destruct (Player.objectToDelete s'), video, onDeleteObject;
        try reflexivity.
      now rewrite andb_false_r.
    - now rewrite Hn. }
  cbv zeta. split; [|split; [|split]].
  - intros Hc. apply H. now left.
  - intros objectId. apply H. now left.
  - intros Hsel. apply H. left. unfold Player.bulkDeleteClick.
    destruct (Player.selectedObjectIds s); [contradiction|reflexivity].
  - apply H. now right.
Qed.

(** X11.  The confirmed deletion of one object removes from the catalog of
    the video the objects with its id and no other, keeps the counter and
    closes the dialog; a second click on the confirming button then changes
    nothing.  The hook builds a new video object for it, so that the
    player, which is open on the video, is put back by its effect to the
    state in which it opens a video: the selection of check boxes is
    emptied, the object list is closed, the drawn regions are dropped and
    the mark of unsaved changes, which the handler had just set, is
    cleared. *)
Theorem confirmed_single_delete (a : App.State) (v : VideoInfo)
  (target : string) :
  App.isOpen a = true ->
  App.video a = Some v ->
  Player.objectToDelete (App.player a) = Some target ->
  target <> "" -> target <> Player.BULK_DELETE ->
  Player.deleteConfirmed (App.player a) = true ->
  let a' := fst (App.confirmDelete a) in
  let videos' := Hook.videos (App.hook a') in
  Session.catalog (vid v) videos'
  = filter (fun obj => negb (String.eqb (id obj) target)) (detectedObjects v)
  /\ Session.counter (vid v) videos' = totalObjectsCreated v
  /\ App.player a' = Player.resetForVideo (App.player a)
  /\ (Player.objectToDelete (App.player a') = None
      /\ Player.showDeleteConfirmModal (App.player a') = false
      /\ Player.selectedObjectId (App.player a') = None
      /\ Player.selectedObjectIds (App.player a') = []
      /\ Player.showObjectList (App.player a') = false
      /\ Player.drawnAreas (App.player a') = []
      /\ Player.hasObjectChanges (App.player a') = false)
  /\ Hook.videos (App.hook (fst (App.confirmDelete a'))) = videos'.
Proof.
  intros Hopen Hv Hdel Hne Hnb Hconf a' videos'.
  pose proof (selected_is_found a v Hv) as Hfind.
  assert (Ht : Js.truthy target = true)
    by (destruct target; [now elim Hne|reflexivity]).
  assert (Hb : String.eqb target Player.BULK_DELETE = false)
    by now apply String.eqb_neq.
  assert (Hr : Player.confirmDelete (App.video a)
                 (Some Hook.deleteObjectFromVideo) (App.player a)
               = {| Player.delete_state :=
                      Player.setDeleteConfirmed false
                        (Player.setObjectToDelete None
                           (Player.setShowDeleteConfirmModal false
                              (Player.handleBackToObjectList
                                 (Player.setHasObjectChanges true
                                    (App.player a)))));
                    Player.delete_videos :=
                      Hook.deleteObjectFromVideo (vid v) target;
                    Player.delete_calls := 1;
                    Player.delete_toast :=
                      Some (toast_success "객체가 삭제되었습니다.") |}).
  { unfold Player.confirmDelete. now rewrite Hv, Hdel, Hconf, Ht, Hb. }
  assert (Ha' : a' = {| App.hook :=
                          Hook.set_videos
                            (Hook.deleteObjectFromVideo (vid v) target)
                            (App.hook a);
                        App.player :=
                          Player.resetForVideo (App.player a) |}).
  { subst a'. unfold App.confirmDelete. rewrite Hr.
    cbn [fst Player.delete_calls Player.delete_videos Player.delete_state].
    erewrite rendered_open; [reflexivity| | |lia].
    - exact Hopen.
    - unfold Hook.deleteObjectFromVideo.
      apply (selected_after_map _ a _ v); [|exact Hv].
      intros w. now destruct (String.eqb (vid w) (vid v)). }
  subst videos'. rewrite Ha'. cbn [App.hook App.player Hook.set_videos
                                     Hook.videos].
  unfold Session.catalog, Session.counter.
  rewrite find_delete, Hfind. cbn [option_map]. repeat split.
  unfold App.confirmDelete, Player.confirmDelete. cbn [fst].
  now rewrite rendered_hook.
Qed.

Variable trim : string -> string.

(** X12.  The end of an edit writes the trimmed value of every field of
    the form that is not blank into the objects with the selected id and
    leaves their other fields, and the other objects, as they are: a blank
    field of the form never empties a field of the object.  When all the
    fields are blank the video list is not touched and no notice is
    given. *)
Theorem edit_writes_non_blank_fields_only (form : Player.EditForm)
  (a : App.State) (v : VideoInfo) (objectId : string) :
  App.video a = Some v ->
  Player.selectedObjectId (App.player a) = Some objectId ->
  objectId <> "" ->
  let keep (field : string) (old : option string) :=
    if Js.truthy (trim field) then Some (trim field) else old in
  let merged (obj : DetectedObject) :=
    {| id := id obj;
       name :=
         if Js.truthy (trim (Player.editedObjectName form))
         then trim (Player.editedObjectName form) else name obj;
       confidence := confidence obj; selected := selected obj;
       code := keep (Player.editedObjectCode form) (code obj);
       additionalInfo :=
         keep (Player.editedObjectInfo form) (additionalInfo obj);
       dlReservoirDomain :=
         keep (Player.editedDlReservoirDomain form) (dlReservoirDomain obj);
       category := keep (Player.editedCategory form) (category obj) |} in
  let result := App.editComplete trim form a in
  Session.catalog (vid v) (Hook.videos (App.hook (fst result)))
  = map (fun obj => if String.eqb (id obj) objectId then merged obj else obj)
      (detectedObjects v)
  /\ Player.isEditing (App.player (fst result)) = false
  /\ (Js.truthy (trim (Player.editedObjectName form)) = false ->
      Js.truthy (trim (Player.editedObjectCode form)) = false ->
      Js.truthy (trim (Player.editedObjectInfo form)) = false ->
      Js.truthy (trim (Player.editedDlReservoirDomain form)) = false ->
      Js.truthy (trim (Player.editedCategory form)) = false ->
      Hook.videos (App.hook (fst result)) = Hook.videos (App.hook a)
      /\ snd result = None
      /\ Player.hasObjectChanges (App.player (fst result))
         = Player.hasObjectChanges (App.player a)).
Proof.
  intros Hv Hsel Hne keep merged result.
  pose proof (selected_is_found a v Hv) as Hfind.
  assert (Ht : Js.truthy objectId = true)
    by (destruct objectId; [now elim Hne|reflexivity]).
  assert (Hmerged : forall obj,
            Hook.spread obj (Player.edit_updates trim form) = merged obj).
  { intros obj. subst merged keep. unfold Hook.spread, Hook.spread_opt,
      Player.edit_updates, Player.edited. simpl.
    destruct (Js.truthy (trim (Player.editedObjectName form))),
      (Js.truthy (trim (Player.editedObjectCode form))),
      (Js.truthy (trim (Player.editedObjectInfo form))),
      (Js.truthy (trim (Player.editedDlReservoirDomain form))),
      (Js.truthy (trim (Player.editedCategory form))); reflexivity. }
  assert (Hsame : forall l : list DetectedObject,
            Player.has_keys (Player.edit_updates trim form) = false ->
            map (fun obj =>
                   if String.eqb (id obj) objectId then merged obj else obj) l
            = l).
  { intros l Hk. apply map_id_on. intros obj _.
    destruct (String.eqb (id obj) objectId); [|reflexivity].
    rewrite <- Hmerged. unfold Player.has_keys, Player.edit_updates in Hk.
    simpl in Hk. unfold Hook.spread, Hook.spread_opt,
      Player.edit_updates. simpl.
    destruct (Player.edited trim (Player.editedObjectName form)),
      (Player.edited trim (Player.editedObjectCode form)),
      (Player.edited trim (Player.editedObjectInfo form)),
      (Player.edited trim (Player.editedDlReservoirDomain form)),
      (Player.edited trim (Player.editedCategory form));
      try discriminate Hk.
    now destruct obj. }
  subst result. unfold App.editComplete, Player.handleEditComplete.
  rewrite Hv, Hsel, Ht.
  destruct (Player.has_keys (Player.edit_updates trim form)) eqn:Hk;
    cbn [fst snd Player.edit_calls Player.edit_videos Player.edit_state
           Player.edit_toast].
  - rewrite rendered_hook. split; [|split].
    + cbn [App.hook Hook.set_videos Hook.videos].
      unfold Session.catalog, Hook.updateObjectInVideo.
      rewrite find_video_map.
      * rewrite Hfind. simpl. rewrite String.eqb_refl. simpl.
        apply map_ext. intros obj. now rewrite Hmerged.
      * intros w. now destruct (String.eqb (vid w) (vid v)).
    + after_render; reflexivity.
    + intros H1 H2 H3 H4 H5. exfalso.
      unfold Player.has_keys, Player.edit_updates, Player.edited in Hk.
      simpl in Hk. rewrite H1, H2, H3, H4, H5 in Hk. discriminate Hk.
  - rewrite rendered_no_call. cbn [App.hook App.player].
    split; [|split; [reflexivity|]].
    + unfold Session.catalog. simpl. rewrite Hfind. symmetry.
      now apply Hsame.
    + intros _ _ _ _ _. repeat split; now destruct (App.hook a).
Qed.

End Panel.

(** ** Exporting any number of regions *)

Section ExportAll.

Lemma with_objects_counter_add (v : VideoInfo) (o : DetectedObject)
  (objs : list DetectedObject) (n : nat) :
  Hook.with_objects
    (detectedObjects
       (Hook.with_objects (detectedObjects v ++ [o])
          (Hook.with_counter (totalObjectsCreated v + 1) v)) ++ objs)
    (Hook.with_counter
       (totalObjectsCreated
          (Hook.with_objects (detectedObjects v ++ [o])
             (Hook.with_counter (totalObjectsCreated v + 1) v))
        + Z.of_nat n)
       (Hook.with_objects (detectedObjects v ++ [o])
          (Hook.with_counter (totalObjectsCreated v + 1) v)))
  = Hook.with_objects (detectedObjects v ++ o :: objs)
      (Hook.with_counter (totalObjectsCreated v + Z.of_nat (S n)) v).
Proof.
  unfold Hook.with_objects, Hook.with_counter. simpl.
  rewrite <- app_assoc. simpl. f_equal. lia.
Qed.

(** The loop of the export over the regions, from any index on. *)
Lemma addDrawnAreas_spec (v : VideoInfo) (dets : list DetectedObject)
  (snapshot : list VideoInfo) (ent : nat -> Entropy)
  (areas : list Player.DrawnArea) :
  forall (index : nat) (videos : list VideoInfo) (current : VideoInfo),
    find_video (vid v) videos = Some current ->
    let r :=
      Player.addDrawnAreas (Some v) dets
        (Hook.addNewObjectToVideo snapshot) ent index areas in
    fst r
    = map (fun i =>
             object_name (Z.of_nat (List.length dets) + Z.of_nat i + 1))
        (seq index (List.length areas))
    /\ exists objs,
         map name objs = fst r
         /\ find_video (vid v) (snd r videos)
            = Some
                (Hook.with_objects (detectedObjects current ++ objs)
                   (Hook.with_counter
                      (totalObjectsCreated current
                       + Z.of_nat (List.length areas)) current)).
Proof.
  induction areas as [|area areas IH]; intros index videos current Hfind r.
  - subst r. simpl. split; [reflexivity|]. exists []. split; [reflexivity|].
    rewrite Hfind. f_equal. rewrite app_nil_r, Z.add_0_r.
    now destruct current.
  - subst r. cbn [Player.addDrawnAreas fst snd List.length seq map].
    set (objectName :=
           object_name
             (Z.of_nat (List.length dets) + Z.of_nat index + 1)).
    destruct (find_add snapshot (ent index) (vid v) (Some objectName)
                videos current Hfind) as [o [Ho Hfind']].
    assert (Hname :
      fst (Hook.addNewObjectToVideo snapshot (ent index) (vid v)
             (Some objectName)) = objectName) by reflexivity.
    destruct (IH (S index) _ _ Hfind') as [Hnames [objs [Hobjs Hlast]]].
    split.
    + rewrite Hname. f_equal. exact Hnames.
    + exists (o :: objs). split.
      * simpl. rewrite Ho, Hobjs. reflexivity.
      * rewrite Hlast. f_equal. apply with_objects_counter_add.
Qed.

(** X13.  The export commits every drawn region of the player: with [n]
    regions, [n] objects are appended to the catalog of the selected video,
    in the order of the regions, its counter goes up by [n], the names
    returned are those of the new objects, numbered from the length of the
    catalog on, and the region list is emptied. *)
Theorem export_commits_every_region (a : App.State) (v : VideoInfo)
  (ent : nat -> Entropy) (vtt_ok : bool) :
  App.video a = Some v ->
  let n := List.length (Player.drawnAreas (App.player a)) in
  let result := App.saveDrawings ent vtt_ok a in
  snd (fst result)
  = map (fun i =>
           object_name
             (Z.of_nat (List.length (detectedObjects v)) + Z.of_nat i + 1))
      (seq 0 n)
  /\ (exists objs,
        List.length objs = n
        /\ map name objs = snd (fst result)
        /\ find_video (vid v) (Hook.videos (App.hook (fst (fst result))))
           = Some
               (Hook.with_objects (detectedObjects v ++ objs)
                  (Hook.with_counter (totalObjectsCreated v + Z.of_nat n)
                     v)))
  /\ Player.drawnAreas (App.player (fst (fst result))) = []
  /\ Player.hasObjectChanges (App.player (fst (fst result))) = false.
Proof.
  intros Hv n result.
  pose proof (selected_is_found a v Hv) as Hfind.
  assert (Hobjs : App.detectedObjects a = detectedObjects v).
  { unfold App.detectedObjects, Hook.selectedVideoObjects.
    unfold App.video in Hv. now rewrite Hv. }
  destruct (addDrawnAreas_spec v (detectedObjects v)
              (Hook.videos (App.hook a)) ent
              (Player.drawnAreas (App.player a)) 0
              (Hook.videos (App.hook a)) v Hfind)
    as [Hnames [objs [Hmap Hlast]]].
  subst result. unfold App.saveDrawings, Player.saveDrawingsAndDownloadWebVTT.
  rewrite Hv, Hobjs. cbn [fst snd Player.save_addedObjects Player.save_state
                            Player.save_videos].
  rewrite rendered_hook. cbn [App.hook Hook.set_videos Hook.videos].
  split; [exact Hnames|]. split; [|split; after_render; reflexivity].
  exists objs. split; [|split; [exact Hmap|exact Hlast]].
  rewrite <- (length_map name objs), Hmap, Hnames, length_map.
  apply length_seq.
Qed.

(** X14.  Without a selected video the export commits nothing and says
    so, but it still empties the region list: the drawn regions are
    lost. *)
Theorem export_without_video_discards_regions (a : App.State)
  (ent : nat -> Entropy) (vtt_ok : bool) :
  App.video a = None ->
  let result := App.saveDrawings ent vtt_ok a in
  Hook.videos (App.hook (fst (fst result))) = Hook.videos (App.hook a)
  /\ snd (fst result) = []
  /\ snd result = [toast_error "비디오가 선택되지 않았습니다!"]
  /\ Player.drawnAreas (App.player (fst (fst result))) = [].
Proof.
  intros Hv result.
  assert (Hnone : forall dets f index areas,
            Player.addDrawnAreas None dets f ent index areas
            = ([], fun prev => prev)).
  { intros dets f index areas. revert index.
    induction areas as [|area areas IH]; intros index; simpl;
      [reflexivity|apply IH]. }
  subst result. unfold App.saveDrawings, Player.saveDrawingsAndDownloadWebVTT.
  rewrite Hv, Hnone. cbn [fst snd Player.save_addedObjects Player.save_state
                            Player.save_videos Player.save_toasts List.length].
  rewrite rendered_no_call. simpl. repeat split.
Qed.

End ExportAll.

(** ** The video list of the hook *)

Section HookVideos.

Lemma find_video_none (videoId : string) (videos : list VideoInfo) :
  find_video videoId videos = None ->
  forall v, In v videos -> String.eqb (vid v) videoId = false.
Proof.
  intros H v Hin. unfold find_video in H.
  exact (find_none _ _ H v Hin).
Qed.

Lemma find_video_map_other (f : VideoInfo -> VideoInfo) (other : string)
  (videos : list VideoInfo) :
  (forall w, vid (f w) = vid w) ->
  (forall w, vid w = other -> f w = w) ->
  find_video other (map f videos) = find_video other videos.
Proof.
  intros Hid Hsame. rewrite find_video_map by exact Hid.
  destruct (find_video other videos) as [w|] eqn:E; [|reflexivity].
  simpl. f_equal. apply Hsame. now apply find_video_id in E.
Qed.

(** X15.  The operations of the catalog address one video.  When no video
    of the list has the id, the add, the deletion, the update and the end
    of a detection run leave the list as it is, the add still returning
    the name [Object(1)]; and whatever the list, the video found under any
    other id is the same before and after. *)
Theorem catalog_operations_address_one_video (videoId : string)
  (videos : list VideoInfo) (e : Entropy) (objectName : option string)
  (objectId : string) (u : Hook.Updates) (ent : nat -> Entropy) :
  (find_video videoId videos = None ->
   snd (Hook.addNewObjectToVideo videos e videoId objectName) videos = videos
   /\ fst (Hook.addNewObjectToVideo videos e videoId None) = "Object(1)"
   /\ Hook.deleteObjectFromVideo videoId objectId videos = videos
   /\ Hook.updateObjectInVideo videoId objectId u videos = videos
   /\ Hook.detection_update videoId ent videos = videos)
  /\ (forall other,
        other <> videoId ->
        find_video other
          (snd (Hook.addNewObjectToVideo videos e videoId objectName) videos)
        = find_video other videos
        /\ find_video other (Hook.deleteObjectFromVideo videoId objectId videos)
           = find_video other videos
        /\ find_video other (Hook.updateObjectInVideo videoId objectId u videos)
           = find_video other videos
        /\ find_video other (Hook.detection_update videoId ent videos)
           = find_video other videos).
Proof.
  split.
  - intros Hnone. pose proof (find_video_none _ _ Hnone) as Hno.
    repeat split.
    + unfold Hook.addNewObjectToVideo. simpl. apply map_id_on.
      intros v Hin. now rewrite (Hno v Hin).
    + unfold Hook.addNewObjectToVideo. simpl. now rewrite Hnone.
    + unfold Hook.deleteObjectFromVideo. apply map_id_on.
      intros v Hin. now rewrite (Hno v Hin).
    + unfold Hook.updateObjectInVideo. apply map_id_on.
      intros v Hin. now rewrite (Hno v Hin).
    + unfold Hook.detection_update. apply map_id_on.
      intros v Hin. now rewrite (Hno v Hin).
  - intros other Hne.
    assert (Hf : forall w, vid w = other -> String.eqb (vid w) videoId = false).
    { intros w <-. now apply String.eqb_neq. }
    repeat split.
    + unfold Hook.addNewObjectToVideo. simpl. apply find_video_map_other.
      * intros w. now destruct (String.eqb (vid w) videoId).
      * intros w Hw. now rewrite (Hf w Hw).
    + unfold Hook.deleteObjectFromVideo. apply find_video_map_other.
      * intros w. now destruct (String.eqb (vid w) videoId).
      * intros w Hw. now rewrite (Hf w Hw).
    + unfold Hook.updateObjectInVideo. apply find_video_map_other.
      * intros w. now destruct (String.eqb (vid w) videoId).
      * intros w Hw. now rewrite (Hf w Hw).
    + unfold Hook.detection_update. apply find_video_map_other.
      * intros w. destruct (String.eqb (vid w) videoId); simpl;
          [|reflexivity].
        now destruct (0 <? List.length (detectedObjects w))%nat.
      * intros w Hw. now rewrite (Hf w Hw).
Qed.

(** X16.  The deletion of a video takes the videos and the uploads with
    its id out of their lists and keeps the others in their order; from
    then on no video is found under the id, so that, if the video was the
    selected one, no object is shown any more, and the closing of the
    panel is started. *)
Theorem deleteVideo_removes_video_and_upload (videoId : string)
  (s : Hook.State) :
  let s' := fst (fst (Hook.deleteVideo videoId s)) in
  Hook.videos s'
  = filter (fun video => negb (String.eqb (vid video) videoId))
      (Hook.videos s)
  /\ Hook.uploads s'
     = filter (fun upload => negb (String.eqb (upload_id upload) videoId))
         (Hook.uploads s)
  /\ find_video videoId (Hook.videos s') = None
  /\ (forall other,
        other <> videoId ->
        find_video other (Hook.videos s') = find_video other (Hook.videos s))
  /\ (Hook.selectedVideoId s = Some videoId ->
      Hook.selectedVideo s' = None
      /\ Hook.selectedVideoObjects s' = []
      /\ snd (fst (Hook.deleteVideo videoId s)) = true).
Proof.
  intros s'. subst s'. simpl.
  assert (Hnone : find_video videoId
                    (filter (fun video => negb (String.eqb (vid video) videoId))
                       (Hook.videos s)) = None).
  { unfold find_video. induction (Hook.videos s) as [|v l IH]; simpl;
      [reflexivity|].
    destruct (String.eqb (vid v) videoId) eqn:E; simpl; [exact IH|].
    now rewrite E. }
  split; [reflexivity|]. split; [reflexivity|]. split; [exact Hnone|].
  split.
  - intros other Hne. clear Hnone. unfold find_video.
    induction (Hook.videos s) as [|v l IH]; simpl; [reflexivity|].
    destruct (String.eqb (vid v) videoId) eqn:E; simpl.
    + apply String.eqb_eq in E.
      assert (Ho : String.eqb (vid v) other = false).
      { apply String.eqb_neq. congruence. }
      rewrite Ho. exact IH.
    + destruct (String.eqb (vid v) other); [reflexivity|exact IH].
  - intros Hsel. unfold Hook.selectedVideoObjects, Hook.selectedVideo.
    simpl. rewrite Hsel, Hnone, String.eqb_refl. repeat split.
Qed.

(** The invariant of the video list is kept by every event. *)
Lemma step_videos_ok (ev : HookEvents.Event) (s : Hook.State) :
  HookEvents.videos_ok (Hook.videos s) ->
  HookEvents.videos_ok (Hook.videos (HookEvents.step ev s)).
Proof.
  assert (Hmap : forall (f : VideoInfo -> VideoInfo) videos,
            (forall v, HookEvents.video_ok v -> HookEvents.video_ok (f v)) ->
            HookEvents.videos_ok videos ->
            HookEvents.videos_ok (map f videos)).
  { intros f videos Hf [Hlen Hall]. split; [now rewrite length_map|].
    intros v Hin. apply in_map_iff in Hin. destruct Hin as [w [<- Hw]].
    apply Hf, Hall, Hw. }
  assert (Hfilter : forall (p : VideoInfo -> bool) videos,
            HookEvents.videos_ok videos ->
            HookEvents.videos_ok (filter p videos)).
  { intros p videos [Hlen Hall]. split.
    - pose proof (filter_length_le p videos). lia.
    - intros v Hin. apply filter_In in Hin. now apply Hall. }
  assert (Hsub : forall (p : DetectedObject -> bool) v,
            HookEvents.video_ok v ->
            HookEvents.video_ok
              (Hook.with_objects (filter p (detectedObjects v)) v)).
  { intros p v [Hc Hs]. split; simpl.
    - pose proof (filter_length_le p (detectedObjects v)). lia.
    - intros obj Hin. apply filter_In in Hin. now apply Hs. }
  intros Hok. destruct ev as [f res e|snapshot videoId| | |shown|d
                             |snapshot e videoId objectName
                             |videoId objectId|videoId objectId u| |videoId];
    simpl.
  - unfold Hook.handleFileSelect.
    destruct (negb (prefix "video/" (file_type f))); [exact Hok|].
    destruct (Hook.MAX_FILE_SIZE <? file_size f); [exact Hok|].
    destruct res as [m|[|] rid]; try exact Hok. simpl.
    split; [simpl; lia|]. intros v [<-|[]]. split; simpl; [lia|].
    intros obj [].
  - now destruct (Js.truthy videoId).
  - exact Hok.
  - unfold Hook.openVideoPlayer. now destruct (Hook.selectedVideo s).
  - exact Hok.
  - destruct d as [captured videoId|videoId e ent|]; simpl.
    + now rewrite run_videos.
    + unfold Hook.detection_tick.
      destruct (negb (existsb _ _)); [exact Hok|].
      destruct (Qle_bool _ _); simpl; [|exact Hok].
      unfold Hook.detection_update. apply Hmap; [|exact Hok].
      intros v Hv. destruct (negb (String.eqb (vid v) videoId)); [exact Hv|].
      destruct (0 <? List.length (detectedObjects v))%nat; [exact Hv|].
      split; simpl; [lia|].
      intros obj Hin.
      repeat (destruct Hin as [<-|Hin]; [reflexivity|]). destruct Hin.
    + now rewrite reset_videos.
  - apply Hmap; [|exact Hok]. intros v [Hc Hs].
    destruct (String.eqb (vid v) videoId); [|now split].
    split; simpl.
    + rewrite length_app. simpl. lia.
    + intros obj Hin. apply in_app_or in Hin.
      destruct Hin as [Hin|[<-|[]]]; [now apply Hs|reflexivity].
  - unfold Hook.deleteObjectFromVideo. apply Hmap; [|exact Hok].
    intros v Hv. destruct (String.eqb (vid v) videoId); [|exact Hv].
    now apply Hsub.
  - unfold Hook.updateObjectInVideo. apply Hmap; [|exact Hok].
    intros v [Hc Hs]. destruct (String.eqb (vid v) videoId); [|now split].
    split; simpl.
    + now rewrite length_map.
    + intros obj Hin. apply in_map_iff in Hin.
      destruct Hin as [o [<- Ho]].
      destruct (String.eqb (id o) objectId); simpl; now apply Hs.
  - unfold Hook.deleteSelectedObjects.
    destruct (Hook.selectedVideoId s) as [sel|]; [|exact Hok].
    destruct (negb (Js.truthy sel)); [exact Hok|]. simpl.
    apply Hmap; [|exact Hok].
    intros v Hv. destruct (String.eqb (vid v) sel); [|exact Hv].
    now apply Hsub.
  - now apply Hfilter.
Qed.

Lemma run_videos_ok (evs : list HookEvents.Event) (s : Hook.State) :
  HookEvents.videos_ok (Hook.videos s) ->
  HookEvents.videos_ok (Hook.videos (HookEvents.run evs s)).
Proof.
  revert s. induction evs as [|ev evs IH]; intros s H; [exact H|].
  simpl. apply IH. now apply step_videos_ok.
Qed.

Lemma initial_videos_ok : HookEvents.videos_ok (Hook.videos Hook.initial).
Proof. split; [simpl; lia|intros v []]. Qed.

(** X17.  Whatever is done through the functions of the hook, uploads,
    selections, detection runs, adds, deletions and updates, in any order,
    the video list never holds more than one video. *)
Theorem hook_keeps_at_most_one_video (evs : list HookEvents.Event) :
  (List.length (Hook.videos (HookEvents.run evs Hook.initial)) <= 1)%nat.
Proof.
  exact (proj1 (run_videos_ok evs Hook.initial initial_videos_ok)).
Qed.

(** X18.  Whatever is done through the functions of the hook, the catalog
    of a video never holds more objects than its creation counter
    counts. *)
Theorem catalog_never_exceeds_counter (evs : list HookEvents.Event)
  (v : VideoInfo) :
  In v (Hook.videos (HookEvents.run evs Hook.initial)) ->
  Z.of_nat (List.length (detectedObjects v)) <= totalObjectsCreated v.
Proof.
  intros Hin.
  exact (proj1 (proj2 (run_videos_ok evs Hook.initial initial_videos_ok)
                  v Hin)).
Qed.

(** X19.  No function of the hook ever sets the [selected] flag of an
    object: whatever is done through them, no object of the selected video
    is selected, and [deleteSelectedObjects] deletes nothing. *)
Theorem no_object_is_ever_selected (evs : list HookEvents.Event) :
  let s := HookEvents.run evs Hook.initial in
  Hook.hasSelectedObjects s = false
  /\ Hook.videos (Hook.deleteSelectedObjects s) = Hook.videos s.
Proof.
  intros s.
  pose proof (run_videos_ok evs Hook.initial initial_videos_ok) as [_ Hall].
  fold s in Hall. split.
  - unfold Hook.hasSelectedObjects, Hook.selectedVideoObjects,
      Hook.selectedVideo.
    destruct (Hook.selectedVideoId s) as [sel|]; [|reflexivity].
    destruct (find_video sel (Hook.videos s)) as [v|] eqn:E; [|reflexivity].
    apply find_some in E. destruct E as [Hin _].
    destruct (Hall v Hin) as [_ Hs].
    apply Bool.not_true_iff_false. intros Hex.
    apply existsb_exists in Hex. destruct Hex as [obj [Hobj Hsel]].
    rewrite (Hs obj Hobj) in Hsel. discriminate Hsel.
  - unfold Hook.deleteSelectedObjects.
    destruct (Hook.selectedVideoId s) as [sel|]; [|reflexivity].
    destruct (negb (Js.truthy sel)); [reflexivity|]. simpl.
    apply map_id_on. intros v Hin.
    destruct (String.eqb (vid v) sel); [|reflexivity].
    destruct (Hall v Hin) as [_ Hs].
    rewrite filter_all; [apply with_objects_same|].
    intros obj Hobj. now rewrite (Hs obj Hobj).
Qed.

End HookVideos.

(** ** The course of a detection run *)

Section DetectionCourse.

Variable videoId : string.

Lemma ticks_when_idle (ticks : list (Entropy * (nat -> Entropy)))
  (s : Hook.State) :
  Hook.intervals s = [] ->
  Detection.run
    (map (fun t => Detection.ev_tick videoId (fst t) (snd t)) ticks) s
  = s.
Proof.
  intros H. induction ticks as [|t ticks IH]; [reflexivity|].
  simpl. unfold Hook.detection_tick. rewrite H. simpl. exact IH.
Qed.

Lemma inject_succ (n : nat) :
  (inject_Z (Z.of_nat (S n)) == inject_Z (Z.of_nat n) + 1)%Q.
Proof.
  rewrite Nat2Z.inj_succ. unfold Z.succ. rewrite inject_Z_plus. reflexivity.
Qed.

Lemma inject_nonneg (n : nat) : (0 <= inject_Z (Z.of_nat n))%Q.
Proof. change 0%Q with (inject_Z 0). rewrite <- Zle_Qle. lia. Qed.

(** Every tick adds 5 at least, so that as many ticks as the distance to
    100 holds fives end the run. *)
Lemma ticks_complete (ticks : list (Entropy * (nat -> Entropy))) :
  forall s : Hook.State,
    Hook.intervals s = [videoId] ->
    (forall t, In t ticks -> (0 <= rnd (fst t))%Q) ->
    (1 <= List.length ticks)%nat ->
    (100 - 5 * inject_Z (Z.of_nat (List.length ticks))
     <= Hook.detectionProgress s)%Q ->
    let s' :=
      Detection.run
        (map (fun t => Detection.ev_tick videoId (fst t) (snd t)) ticks) s in
    Hook.isDetecting s' = false
    /\ Hook.hasRunDetection s' = true
    /\ Hook.intervals s' = []
    /\ Hook.detectionProgress s' = 100%Q
    /\ Hook.selectedVideoId s' = Some videoId
    /\ Hook.resets s' = S (Hook.resets s).
Proof.
  induction ticks as [|t rest IH]; intros s Hint Hrnd Hlen Hbudget;
    [simpl in Hlen; lia|].
  cbn [map Detection.run fold_left Detection.step].
  unfold Hook.detection_tick. rewrite Hint. simpl existsb.
  rewrite String.eqb_refl. simpl negb. cbv iota.
  set (np := (Hook.detectionProgress s + (rnd (fst t) * 15 + 5))%Q).
  assert (Hr : (0 <= rnd (fst t))%Q) by (apply Hrnd; now left).
  assert (Hnp : (100 - 5 * inject_Z (Z.of_nat (List.length rest)) <= np)%Q).
  { subst np. simpl List.length in Hbudget. rewrite inject_succ in Hbudget.
    lra. }
  destruct (Qle_bool 100 np) eqn:Hdone.
  - fold (Detection.run
            (map (fun t => Detection.ev_tick videoId (fst t) (snd t)) rest)).
    rewrite ticks_when_idle; simpl; rewrite ?String.eqb_refl;
      repeat split; reflexivity.
  - destruct rest as [|t' rest'].
    + exfalso. cbn [List.length Z.of_nat] in Hnp.
      change (inject_Z 0) with 0%Q in Hnp.
      assert (Hle : (100 <= np)%Q) by lra.
      apply Qle_bool_iff in Hle. congruence.
    + change (Hook.resets s)
        with (Hook.resets (Hook.set_detectionProgress (Qmin np 100) s)).
      apply IH.
      * exact Hint.
      * intros u Hu. apply Hrnd. now right.
      * simpl. lia.
      * simpl Hook.detectionProgress. apply Q.min_glb; [exact Hnp|].
        pose proof (inject_nonneg (List.length (t' :: rest'))). lra.
Qed.

(** X20.  A detection run that nothing interrupts comes to its end.
    Started through a callback of the current render while no run is in
    progress, no progress timer is running and no time-out of an earlier
    run waits to reset the progress bar, it is over after 20 firings of its
    timer at the latest, whatever the random draws, which are not
    negative.  The progress is then 100, the run is marked as done, its
    timer is stopped, the video is the selected one, and one time-out
    waits to reset the progress bar. *)
Theorem detection_run_completes (ticks : list (Entropy * (nat -> Entropy)))
  (s : Hook.State) :
  videoId <> "" ->
  Hook.isDetecting s = false ->
  Hook.intervals s = [] ->
  Hook.resets s = 0%nat ->
  (forall t, In t ticks -> (0 <= rnd (fst t))%Q) ->
  (20 <= List.length ticks)%nat ->
  let s' :=
    Detection.run
      (Detection.ev_run (Hook.isDetecting s) videoId
       :: map (fun t => Detection.ev_tick videoId (fst t) (snd t)) ticks)
      s in
  s' = Detection.run (Detection.full_run videoId ticks) s
  /\ Hook.isDetecting s' = false
  /\ Hook.hasRunDetection s' = true
  /\ Hook.intervals s' = []
  /\ Hook.detectionProgress s' = 100%Q
  /\ Hook.selectedVideoId s' = Some videoId
  /\ Hook.resets s' = 1%nat.
Proof.
  intros Hne Hidle Hint Hresets Hrnd Hlen. rewrite Hidle.
  split; [reflexivity|].
  assert (Ht : Js.truthy videoId = true)
    by (destruct videoId; [now elim Hne|reflexivity]).
  set (s1 := Hook.runObjectDetection false videoId s).
  assert (H1 : Hook.intervals s1 = [videoId]
               /\ Hook.detectionProgress s1 = 0%Q
               /\ Hook.resets s1 = 0%nat).
  { subst s1. unfold Hook.runObjectDetection. rewrite Ht. simpl.
    now rewrite Hint, Hresets. }
  destruct H1 as (I1 & I2 & I3).
  change (Detection.run
            (Detection.ev_run false videoId
             :: map (fun t => Detection.ev_tick videoId (fst t) (snd t))
                  ticks) s)
    with (Detection.run
            (map (fun t => Detection.ev_tick videoId (fst t) (snd t)) ticks)
            s1).
  destruct (ticks_complete ticks s1 I1 Hrnd) as (A1 & A2 & A3 & A4 & A5 & A6).
  - lia.
  - rewrite I2.
    assert (H20 : (inject_Z 20
                   <= inject_Z (Z.of_nat (List.length ticks)))%Q).
    { rewrite <- Zle_Qle. lia. }
    change (inject_Z 20) with 20%Q in H20. lra.
  - rewrite A6, I3. repeat split; assumption.
Qed.

(** X21.  The end of a detection run on a video whose catalog is empty
    gives it the five default objects, named [Object(1)] to [Object(5)] in
    this order, none of them selected, with five different ids whatever
    the clock and the random draws are, and a counter that is at least
    5 and not below what it was. *)
Theorem detection_fills_empty_catalog (ent : nat -> Entropy)
  (videos : list VideoInfo) (v : VideoInfo) :
  find_video videoId videos = Some v ->
  detectedObjects v = [] ->
  exists v',
    find_video videoId (Hook.detection_update videoId ent videos) = Some v'
    /\ map name (detectedObjects v')
       = ["Object(1)"; "Object(2)"; "Object(3)"; "Object(4)"; "Object(5)"]
    /\ NoDup (map id (detectedObjects v'))
    /\ (forall obj, In obj (detectedObjects v') -> selected obj = false)
    /\ totalObjectsCreated v' = Z.max (totalObjectsCreated v) 5
    /\ file v' = file v.
Proof.
  intros Hfind Hempty.
  rewrite (find_detect videoId ent videos v Hfind), Hempty. simpl.
  eexists. split; [reflexivity|]. simpl.
  split; [reflexivity|]. split; [|split; [|split; reflexivity]].
  - unfold Hook.detected_id.
    repeat constructor; simpl; intros H;
      repeat (destruct H as [H|H];
              [apply append_cancel_l in H; discriminate H|]);
      exact H.
  - intros obj Hin.
    repeat (destruct Hin as [<-|Hin]; [reflexivity|]). destruct Hin.
Qed.

End DetectionCourse.

(** ** Upload: validation, stored name and cue file *)

Section UploadRoute.

(** X22.  A file is checked before anything is sent: a file whose type is
    not a video type, and a video file of more than 2 GiB, are refused
    with an error notice whatever the server would have answered, and the
    state stays as it is; a video file of exactly 2 GiB is taken. *)
Theorem upload_validates_before_fetching (f : File) (e : Entropy)
  (s : Hook.State) :
  (prefix "video/" (file_type f) = false ->
   forall res,
     Hook.handleFileSelect f res e s
     = (s, toast_error "동영상 파일만 업로드 가능합니다."))
  /\ (prefix "video/" (file_type f) = true ->
      2147483648 < file_size f ->
      forall res,
        Hook.handleFileSelect f res e s
        = (s, toast_error "파일 크기는 2GB를 초과할 수 없습니다."))
  /\ (prefix "video/" (file_type f) = true ->
      file_size f = 2147483648 ->
      forall rid,
        snd (Hook.handleFileSelect f (Hook.fetch_response true rid) e s)
        = toast_success "동영상 업로드 및 처리가 완료되었습니다!").
Proof.
  unfold Hook.handleFileSelect. repeat split.
  - intros Ht res. now rewrite Ht.
  - intros Ht Hsize res. rewrite Ht. simpl.
    destruct (Z.ltb_spec Hook.MAX_FILE_SIZE (file_size f)) as [_|Hle];
      [reflexivity|].
    unfold Hook.MAX_FILE_SIZE in Hle. lia.
  - intros Ht Hsize rid. rewrite Ht, Hsize. reflexivity.
Qed.

Variable uploadDir : string.
Variable path_join : string -> string -> string.
Variable extname : string -> string.

Lemma uint_no_dot (d : Decimal.uint) :
  Server.occurs "." (NilEmpty.string_of_uint d) = false.
Proof. induction d; simpl; auto. Qed.

Lemma decimal_no_dot (n : Z) : Server.occurs "." (Js.decimal n) = false.
Proof.
  unfold Js.decimal, NilZero.string_of_int, NilZero.string_of_uint.
  destruct (Z.to_int n) as [d|d]; destruct d; simpl;
    try reflexivity; apply uint_no_dot.
Qed.

Lemma append_empty_r (a : string) : a ++ "" = a.
Proof. induction a as [|c a IH]; simpl; [reflexivity|now rewrite IH]. Qed.

Lemma append_assoc (a b c : string) : (a ++ b) ++ c = a ++ b ++ c.
Proof. induction a as [|d a IH]; simpl; [reflexivity|now rewrite IH]. Qed.

(** After a stem without a dot, a closing dot is the only dot. *)
Lemma only_dot_is_last (a stem ext : string) :
  Server.occurs "." a = false ->
  a ++ "." = stem ++ "." ++ ext -> ext = "".
Proof.
  revert stem. induction a as [|c a IH]; intros stem Ha E.
  - destruct stem as [|d stem]; simpl in E.
    + now injection E as <-.
    + injection E as _ E. destruct stem; discriminate E.
  - simpl in Ha. apply orb_false_elim in Ha. destruct Ha as [Hc Ha].
    destruct stem as [|d stem]; simpl in E.
    + injection E as -> _. now rewrite Ascii.eqb_refl in Hc.
    + injection E as _ E. now apply (IH stem).
Qed.

(** X23.  An uploaded file is stored, and identified, under the time of
    the upload followed by the extension of its original name, and the cue
    file that is later looked for under that id is the one named by the
    time of the upload alone, followed by [.vtt]: so for a name without
    extension and for a name with an extension.  For an original name that
    ends in a dot the id ends in a dot too, and the file looked for is
    named by the whole id followed by [.vtt]. *)
Theorem uploaded_video_names_its_cue_file (now : Z) (originalname : string) :
  let ext := extname originalname in
  let id := Js.decimal now ++ ext in
  Server.post_upload uploadDir path_join extname (Some originalname) now
  = Server.upload_json "업로드 성공!" id (path_join uploadDir id) id
  /\ (ext = ""
      \/ (exists e, ext = "." ++ e /\ e <> ""
                    /\ Server.all_in_class e = true) ->
      Server.vtt_path uploadDir path_join id
      = path_join uploadDir (Js.decimal now ++ ".vtt"))
  /\ (ext = "." ->
      Server.vtt_path uploadDir path_join id
      = path_join uploadDir (Js.decimal now ++ "..vtt")).
Proof.
  intros ext id. split; [reflexivity|]. unfold Server.vtt_path. subst id.
  split.
  - intros [->|[e [-> [Hne Hclass]]]].
    + rewrite append_empty_r.
      rewrite strip_extension_none; [reflexivity|].
      intros stem ext' E. exfalso.
      exact (no_dot_no_extension (Js.decimal now) stem ext'
               (decimal_no_dot now) E).
    + now rewrite strip_extension_ext.
  - intros ->. rewrite strip_extension_none.
    + f_equal. now rewrite append_assoc.
    + intros stem ext' E. left.
      now apply (only_dot_is_last (Js.decimal now) stem ext'
                   (decimal_no_dot now)).
Qed.

End UploadRoute.

(** ** The pages of the upload list *)

Section Pages.

Context {A : Type}.

Lemma firstn_add (n m : nat) (l : list A) :
  firstn (n + m) l = (firstn n l ++ firstn m (skipn n l))%list.
Proof.
  revert l. induction n as [|n IH]; intros l; [reflexivity|].
  destruct l as [|a l]; simpl.
  - now rewrite firstn_nil.
  - now rewrite IH.
Qed.

(** From the first page on, a page is the next four uploads. *)
Lemma page_is_next_four (page : Z) (uploads : list A) :
  1 <= page ->
  UploadProgress.currentUploads page uploads
  = firstn 4 (skipn (4 * Z.to_nat (page - 1)) uploads).
Proof.
  intros Hp. unfold UploadProgress.currentUploads, Js.slice,
    UploadProgress.itemsPerPage.
  set (len := Z.of_nat (List.length uploads)).
  set (start := (page - 1) * 4).
  assert (Hs : 0 <= start) by (subst start; lia).
  destruct (Z.ltb_spec start 0) as [|_]; [lia|].
  destruct (Z.ltb_spec (start + 4) 0) as [|_]; [lia|].
  assert (Hk : (4 * Z.to_nat (page - 1))%nat = Z.to_nat start)
    by (subst start; lia).
  rewrite Hk.
  destruct (Z.le_gt_cases len start) as [Hout|Hin].
  - rewrite !Z.min_r by lia.
    rewrite !skipn_all2 by (subst len; lia).
    now rewrite !firstn_nil.
  - rewrite (Z.min_l start len) by lia.
    destruct (Z.le_gt_cases (start + 4) len) as [Hfull|Hlast].
    + rewrite Z.min_l by lia. f_equal. lia.
    + rewrite Z.min_r by lia.
      rewrite !firstn_all2; [reflexivity| |];
        rewrite length_skipn; subst len; lia.
Qed.

Lemma pages_are_prefix (uploads : list A) (count : nat) :
  forall from : Z,
    1 <= from ->
    List.concat
      (map (fun page => UploadProgress.currentUploads page uploads)
         (UploadProgress.pages_from from count))
    = firstn (4 * count) (skipn (4 * Z.to_nat (from - 1)) uploads).
Proof.
  induction count as [|count IH]; intros from Hfrom; [reflexivity|].
  cbn [UploadProgress.pages_from map List.concat].
  rewrite page_is_next_four by exact Hfrom.
  rewrite IH by lia.
  replace (4 * S count)%nat with (4 + 4 * count)%nat by lia.
  rewrite firstn_add, skipn_skipn. do 3 f_equal. lia.
Qed.

(** X24.  The pages of the pager share out the upload list: put one after
    the other, from the first page to the last, the uploads they show are
    the whole list, each upload once and in its order. *)
Theorem pages_share_out_uploads (uploads : list A) :
  List.concat
    (map (fun page => UploadProgress.currentUploads page uploads)
       (UploadProgress.pages_from 1
          (Z.to_nat (UploadProgress.totalPages uploads))))
  = uploads.
Proof.
  rewrite pages_are_prefix by lia. simpl skipn.
  apply firstn_all2. unfold UploadProgress.totalPages,
    UploadProgress.itemsPerPage.
  assert (H : Z.of_nat (List.length uploads)
              <= 4 * - (- Z.of_nat (List.length uploads) / 4)).
  { Z.to_euclidean_division_equations. lia. }
  lia.
Qed.

(** X25.  On a page between the first and the last, the buttons of the
    pager lead to a page between the first and the last, staying put at
    either end, and every such page shows one to four uploads; a page
    after the last one shows none. *)
Theorem pager_stays_on_its_pages (uploads : list A) (page : Z) :
  let total := UploadProgress.totalPages uploads in
  (1 <= page <= total ->
   1 <= UploadProgress.previousPage page <= total
   /\ 1 <= UploadProgress.nextPage total page <= total
   /\ UploadProgress.previousPage 1 = 1
   /\ UploadProgress.nextPage total total = total
   /\ (1 <= List.length (UploadProgress.currentUploads page uploads) <= 4)%nat)
  /\ (total < page -> UploadProgress.currentUploads page uploads = []).
Proof.
  intros total.
  assert (Htotal : 4 * (total - 1) < Z.of_nat (List.length uploads)
                   <= 4 * total).
  { subst total. unfold UploadProgress.totalPages,
      UploadProgress.itemsPerPage.
    Z.to_euclidean_division_equations. lia. }
  split.
  - intros Hp. unfold UploadProgress.previousPage, UploadProgress.nextPage.
    repeat split; try lia;
      rewrite page_is_next_four by lia;
      rewrite length_firstn, length_skipn; lia.
  - intros Hp. rewrite page_is_next_four by lia.
    rewrite skipn_all2 by lia. reflexivity.
Qed.

End Pages.

(** ** A whole freehand stroke *)

Section Stroke.

(** X26.  In freehand mode, with the canvas in place, a stroke is
    committed exactly when the pointer moved at least twice while held.
    The points stored are the point of the pointer-down followed by the
    points of the moves, closed as the distance of its ends asks; the
    point of the release is not among them, so that the outcome is the
    same wherever the pointer is released. *)
Theorem freehand_stroke_commits_its_moves (c : Player.Canvas)
  (down up : Player.MouseEvent) (moves : list Player.MouseEvent)
  (ent : Entropy) (s : Player.State) :
  Player.isDrawing s = true ->
  Player.canvasInitialized s = true ->
  Player.isErasing s = false ->
  Player.drawingMode s = Player.mode_free ->
  let pts :=
    Player.getCanvasCoordinates (Some c) down
    :: map (Player.getCanvasCoordinates (Some c)) moves in
  let s' := Player.gesture (Some c) down moves up ent s in
  Player.drawnAreas s'
  = (if (2 <=? List.length moves)%nat then
       (Player.drawnAreas s
        ++ [ {| Player.area_id := Player.region_id "path" ent;
                Player.points := Player.closedPath pts;
                Player.color := Player.RED;
                Player.type := Player.type_path;
                Player.startPoint := None; Player.endPoint := None |} ])%list
     else Player.drawnAreas s)
  /\ (forall up',
        Player.drawnAreas (Player.gesture (Some c) down moves up' ent s)
        = Player.drawnAreas s').
Proof.
  intros Hd Hi He Hm pts s'.
  assert (Hgen : forall release,
    Player.drawnAreas (Player.gesture (Some c) down moves release ent s)
    = (if (2 <=? List.length moves)%nat then
         (Player.drawnAreas s
          ++ [ {| Player.area_id := Player.region_id "path" ent;
                  Player.points := Player.closedPath pts;
                  Player.color := Player.RED;
                  Player.type := Player.type_path;
                  Player.startPoint := None; Player.endPoint := None |} ])%list
       else Player.drawnAreas s)).
  { intros release.
    destruct (freehand_accumulates c down moves s Hd Hi He Hm)
      as (Hpath & Hdown & Hareas).
    destruct (moves_frame (Some c) moves
                (Player.handleMouseDown (Some c) down s))
      as (A1 & A2 & A3 & _ & A5 & _ & _).
    assert (Hs1 : Player.handleMouseDown (Some c) down s
                  = Player.setCurrentPath
                      [Player.getCanvasCoordinates (Some c) down]
                      (Player.setIsMouseDown true s)).
    { unfold Player.handleMouseDown. now rewrite Hd, Hi, He, Hm. }
    assert (B1 : Player.isDrawing (Player.handleMouseDown (Some c) down s)
                 = true) by (rewrite Hs1; exact Hd).
    assert (B2 : Player.canvasInitialized
                   (Player.handleMouseDown (Some c) down s) = true)
      by (rewrite Hs1; exact Hi).
    assert (B3 : Player.isErasing (Player.handleMouseDown (Some c) down s)
                 = false) by (rewrite Hs1; exact He).
    assert (B5 : Player.drawingMode (Player.handleMouseDown (Some c) down s)
                 = Player.mode_free) by (rewrite Hs1; exact Hm).
    unfold Player.gesture, Player.handleMouseUp.
    rewrite A1, A2, A3, A5, B1, B2, B3, B5, Hdown, Hpath. simpl negb.
    cbv iota. simpl orb. cbv iota. fold pts.
    replace (2 <? List.length pts)%nat with (2 <=? List.length moves)%nat.
    - destruct (2 <=? List.length moves)%nat; simpl; now rewrite Hareas.
    - subst pts. simpl List.length. rewrite length_map.
      destruct (List.length moves) as [|[|n]]; reflexivity. }
  split; [apply Hgen|]. intros up'. subst s'. now rewrite !Hgen.
Qed.

End Stroke.

(** ** The properties above on the running example *)

Lemma confirmed_single_delete_witness :
  let a := Scenario.confirming_first in
  let a' := fst (App.confirmDelete a) in
  (Player.selectedObjectIds (App.player a) = [Scenario.second_id]
   /\ Player.showObjectList (App.player a) = true)
  /\ Session.catalog (vid Scenario.detected_video) (Hook.videos (App.hook a'))
     = filter (fun obj => negb (String.eqb (id obj) Scenario.first_id))
         (detectedObjects Scenario.detected_video)
  /\ Player.selectedObjectIds (App.player a') = []
  /\ Player.showObjectList (App.player a') = false.
Proof.
  intros a a'.
  assert (Ho : App.isOpen a = true) by (vm_compute; reflexivity).
  assert (Hv : App.video a = Some Scenario.detected_video)
    by (vm_compute; reflexivity).
  assert (Hd : Player.objectToDelete (App.player a) = Some Scenario.first_id)
    by (vm_compute; reflexivity).
  assert (Hc : Player.deleteConfirmed (App.player a) = true)
    by (vm_compute; reflexivity).
  assert (Hne : Scenario.first_id <> "") by (vm_compute; discriminate).
  assert (Hnb : Scenario.first_id <> Player.BULK_DELETE)
    by (vm_compute; discriminate).
  destruct (confirmed_single_delete a Scenario.detected_video
              Scenario.first_id Ho Hv Hd Hne Hnb Hc)
    as (H1 & _ & _ & (_ & _ & _ & H2 & H3 & _) & _).
  split; [split; vm_compute; reflexivity|].
  split; [exact H1|]. split; [exact H2|exact H3].
Defined.

Lemma edit_writes_non_blank_fields_only_witness :
  map name
    (Session.catalog Scenario.videoId
       (Hook.videos
          (App.hook
             (fst (App.editComplete Scenario.trim Scenario.form
                     Scenario.editing_second)))))
  = ["Object(1)"; "Bottle"; "Object(3)"; "Object(4)"; "Object(5)"].
Proof.
  assert (Hv : App.video Scenario.editing_second
               = Some Scenario.detected_video) by (vm_compute; reflexivity).
  assert (Hs : Player.selectedObjectId (App.player Scenario.editing_second)
               = Some Scenario.second_id) by (vm_compute; reflexivity).
  assert (Hne : Scenario.second_id <> "") by (vm_compute; discriminate).
  pose proof (proj1 (edit_writes_non_blank_fields_only Scenario.trim
                       Scenario.form Scenario.editing_second
                       Scenario.detected_video Scenario.second_id
                       Hv Hs Hne)) as H.
  change (vid Scenario.detected_video) with Scenario.videoId in H.
  rewrite H. vm_compute. reflexivity.
Defined.

Lemma export_commits_every_region_witness :
  snd (fst (App.saveDrawings Scenario.ent true Scenario.two_regions))
  = map (fun i =>
           object_name
             (Z.of_nat (List.length (detectedObjects Scenario.detected_video))
              + Z.of_nat i + 1))
      (seq 0
         (List.length (Player.drawnAreas (App.player Scenario.two_regions)))).
Proof.
  assert (Hv : App.video Scenario.two_regions = Some Scenario.detected_video)
    by (vm_compute; reflexivity).
  exact (proj1 (export_commits_every_region Scenario.two_regions
                  Scenario.detected_video Scenario.ent true Hv)).
Defined.

Lemma export_without_video_discards_regions_witness :
  Player.drawnAreas (App.player Scenario.two_regions_no_video)
  = [Scenario.rectangle_area; Scenario.path_area]
  /\ Player.drawnAreas
       (App.player
          (fst (fst (App.saveDrawings Scenario.ent true
                       Scenario.two_regions_no_video))))
     = [].
Proof.
  split; [vm_compute; reflexivity|].
  assert (Hv : App.video Scenario.two_regions_no_video = None)
    by (vm_compute; reflexivity).
  exact (proj2 (proj2 (proj2
           (export_without_video_discards_regions
              Scenario.two_regions_no_video Scenario.ent true Hv)))).
Defined.

Lemma catalog_never_exceeds_counter_witness :
  exists v,
    In v (Hook.videos (HookEvents.run Scenario.upload_and_add Hook.initial))
    /\ Z.of_nat (List.length (detectedObjects v)) <= totalObjectsCreated v.
Proof.
  destruct (Hook.videos (HookEvents.run Scenario.upload_and_add Hook.initial))
    as [|v l] eqn:E; [vm_compute in E; discriminate E|].
  exists v.
  assert (Hin : In v (v :: l)) by now left.
  split; [exact Hin|]. rewrite <- E in Hin.
  exact (catalog_never_exceeds_counter Scenario.upload_and_add v Hin).
Defined.

Lemma detection_run_completes_witness :
  let ticks := repeat (Scenario.ent 1, Scenario.ent) 20 in
  let s' :=
    Detection.run
      (Detection.ev_run (Hook.isDetecting Scenario.uploaded) Scenario.videoId
       :: map (fun t => Detection.ev_tick Scenario.videoId (fst t) (snd t))
            ticks)
      Scenario.uploaded in
  (Hook.isDetecting Scenario.uploaded = false
   /\ Hook.intervals Scenario.uploaded = []
   /\ Hook.resets Scenario.uploaded = 0%nat)
  /\ Hook.isDetecting s' = false
  /\ Hook.hasRunDetection s' = true
  /\ Hook.detectionProgress s' = 100%Q
  /\ Hook.resets s' = 1%nat.
Proof.
  intros ticks s'.
  assert (Hne : Scenario.videoId <> "") by discriminate.
  assert (Hidle : Hook.isDetecting Scenario.uploaded = false)
    by reflexivity.
  assert (Hint : Hook.intervals Scenario.uploaded = []) by reflexivity.
  assert (Hres : Hook.resets Scenario.uploaded = 0%nat) by reflexivity.
  assert (Hrnd : forall t, In t ticks -> (0 <= rnd (fst t))%Q).
  { intros t Hin. apply repeat_spec in Hin. subst t. discriminate. }
  assert (Hlen : (20 <= List.length ticks)%nat)
    by (subst ticks; rewrite repeat_length; lia).
  destruct (detection_run_completes Scenario.videoId ticks Scenario.uploaded
              Hne Hidle Hint Hres Hrnd Hlen)
    as (_ & A1 & A2 & _ & A4 & _ & A6).
  split; [repeat split|]. split; [exact A1|]. split; [exact A2|].
  split; [exact A4|exact A6].
Defined.

Lemma detection_fills_empty_catalog_witness :
  exists v',
    find_video Scenario.videoId
      (Hook.detection_update Scenario.videoId Scenario.ent
         (Hook.videos Scenario.uploaded))
    = Some v'
    /\ map name (detectedObjects v')
       = ["Object(1)"; "Object(2)"; "Object(3)"; "Object(4)"; "Object(5)"].
Proof.
  destruct (detection_fills_empty_catalog Scenario.videoId Scenario.ent
              (Hook.videos Scenario.uploaded)
              (Hook.new_video Scenario.videoId Scenario.clip 1723000000000)
              eq_refl eq_refl)
    as [v' (H1 & H2 & _)].
  exists v'. split; [exact H1|exact H2].
Defined.

Lemma freehand_stroke_commits_its_moves_witness :
  let c := {| Player.rect_left := 100; Player.rect_top := 50;
              Player.width := 640; Player.height := 360 |} in
  Player.drawnAreas
    (Player.gesture (Some c) (Scenario.at_ 300 200)
       [Scenario.at_ 320 210; Scenario.at_ 340 230; Scenario.at_ 300 260]
       (Scenario.at_ 700 400) (Scenario.ent 21) Scenario.freehand_ready)
  = Player.drawnAreas
      (Player.gesture (Some c) (Scenario.at_ 300 200)
         [Scenario.at_ 320 210; Scenario.at_ 340 230; Scenario.at_ 300 260]
         (Scenario.at_ 300 260) (Scenario.ent 21) Scenario.freehand_ready).
Proof.
  intros c.
  exact (proj2 (freehand_stroke_commits_its_moves c (Scenario.at_ 300 200)
                  (Scenario.at_ 300 260)
                  [Scenario.at_ 320 210; Scenario.at_ 340 230;
                   Scenario.at_ 300 260]
                  (Scenario.ent 21) Scenario.freehand_ready
                  eq_refl eq_refl eq_refl eq_refl) (Scenario.at_ 700 400)).
Defined.
